(** * Droplet approver: rate reconciliation and invoice approval

    A shallow embedding of the landscaping invoice pipeline:
    - [rate_analysis12.5.py]  (module [RateAnalysis]): contracted rates,
      the Rate_Comps sheet and the approval decision;
    - [DL_contract_rate_land.py] (module [Approver]): the ServiceChannel
      lookup / approve client, its token box and the status e-mail;
    - [full_auto_droplet.py] (module [Orchestrator]): choice of the
      invoice CSV.

    Numbers are IEEE-754 binary64 values (Python [float], pandas
    [float64]); a missing value is NaN, as in pandas.  Text is modelled
    over the ASCII range. *)

From Stdlib Require Import Floats ZArith Bool List String Ascii Lia.
From stdpp Require Import gmap strings pretty.
Import ListNotations.
Set Warnings "-inexact-float".
Local Open Scope string_scope.
Local Open Scope Z_scope.

(* ===================================================================== *)
(** * Python string operations used by the scripts *)
(* ===================================================================== *)

Module PyStr.

(** [str.upper] and [str.lower] on one character. *)
Definition upper_char (c : ascii) : ascii :=
  let n := nat_of_ascii c in
  if ((97 <=? n) && (n <=? 122))%nat then ascii_of_nat (n - 32) else c.

Definition lower_char (c : ascii) : ascii :=
  let n := nat_of_ascii c in
  if ((65 <=? n) && (n <=? 90))%nat then ascii_of_nat (n + 32) else c.

Fixpoint upper (s : string) : string :=
  match s with
  | EmptyString => EmptyString
  | String c s' => String (upper_char c) (upper s')
  end.

Fixpoint lower (s : string) : string :=
  match s with
  | EmptyString => EmptyString
  | String c s' => String (lower_char c) (lower s')
  end.

(** Whitespace removed by [str.strip()]: TAB, LF, VT, FF, CR, the four
    separators FS..US, and the blank. *)
Definition is_space (c : ascii) : bool :=
  let n := nat_of_ascii c in
  ((9 <=? n) && (n <=? 13) || (28 <=? n) && (n <=? 31) || (n =? 32))%nat.

Fixpoint lstrip (s : string) : string :=
  match s with
  | EmptyString => EmptyString
  | String c s' => if is_space c then lstrip s' else s
  end.

(** [rstrip] keeps a character when something that is not a blank
    follows it or when it is not a blank itself. *)
Fixpoint rstrip (s : string) : string :=
  match s with
  | EmptyString => EmptyString
  | String c s' =>
      match rstrip s' with
      | EmptyString => if is_space c then EmptyString else String c EmptyString
      | r => String c r
      end
  end.

Definition strip (s : string) : string := rstrip (lstrip s).

(** [needle in hay]. *)
Fixpoint contains (needle hay : string) : bool :=
  String.prefix needle hay ||
  match hay with
  | EmptyString => false
  | String _ hay' => contains needle hay'
  end.

(** [s.endswith(suffix)]. *)
Definition endswith (suffix s : string) : bool :=
  let n := String.length s in
  let k := String.length suffix in
  (k <=? n)%nat && String.eqb (String.substring (n - k) k s) suffix.

(** [s.replace(",", "")]. *)
Fixpoint remove_commas (s : string) : string :=
  match s with
  | EmptyString => EmptyString
  | String c s' =>
      if Ascii.eqb c "," then remove_commas s' else String c (remove_commas s')
  end.

Definition is_digit (c : ascii) : bool :=
  let n := nat_of_ascii c in ((48 <=? n) && (n <=? 57))%nat.

Fixpoint all_digits (s : string) : bool :=
  match s with
  | EmptyString => true
  | String c s' => is_digit c && all_digits s'
  end.

(** [s.isdigit()]: at least one character, and digits only. *)
Definition isdigit (s : string) : bool :=
  match s with
  | EmptyString => false
  | _ => all_digits s
  end.

(** Truthiness of a string: [bool(s)]. *)
Definition nonempty (s : string) : bool :=
  match s with
  | EmptyString => false
  | _ => true
  end.

(** The regular expression [(\d+)] of [str.extract]: the leftmost
    maximal run of digits, as text; [None] when there is no digit. *)
Fixpoint leading_digits (s : string) : string :=
  match s with
  | EmptyString => EmptyString
  | String c s' =>
      if is_digit c then String c (leading_digits s') else EmptyString
  end.

Fixpoint first_digits (s : string) : option string :=
  match s with
  | EmptyString => None
  | String c s' =>
      if is_digit c then Some (leading_digits s) else first_digits s'
  end.

(** [int(s)] on a run of digits. *)
Fixpoint digit_run (acc : Z) (s : string) : Z :=
  match s with
  | EmptyString => acc
  | String c s' =>
      if is_digit c
      then digit_run (10 * acc + Z.of_nat (nat_of_ascii c - 48)) s'
      else acc
  end.

End PyStr.

(* ===================================================================== *)
(** * Spreadsheet cells and Python exceptions *)
(* ===================================================================== *)

(** A cell as pandas hands it to Python: an integer, a float (an empty
    cell is the float NaN) or text. *)
Inductive cell : Type :=
| CInt (z : Z)
| CNum (f : float)
| CText (s : string).

Definition CBlank : cell := CNum nan.

(** The exceptions the scripts can raise, with their message. *)
Inductive exn : Type :=
| RequestException (msg : string)
| RuntimeError (msg : string)
| AttributeError (msg : string)
| KeyError (msg : string)
| FileNotFoundError (msg : string)
| TypeError (msg : string)
| ValueError (msg : string).

(** [pd.isna] on a cell. *)
Definition cell_isna (c : cell) : bool :=
  match c with
  | CNum f => is_nan f
  | _ => false
  end.

Section PythonText.

(** Python's [repr] of a float that is not NaN (the runtime's shortest
    round-trip printer; not part of the repository). *)
Variable repr_float : float -> string.

(** [str(x)] / [astype(str)]. *)
Definition py_str (c : cell) : string :=
  match c with
  | CInt z => pretty z
  | CNum f => if is_nan f then "nan" else repr_float f
  | CText s => s
  end.

(** [(x or "").strip()]: a falsy cell ([0], [0.0], [""]) gives [""], text
    is stripped, and a truthy number (NaN included) has no [strip]. *)
Definition or_empty_strip (c : cell) : exn + string :=
  match c with
  | CText s => inr (PyStr.strip s)
  | CInt z =>
      if (z =? 0)%Z then inr ""
      else inl (AttributeError "'int' object has no attribute 'strip'")
  | CNum f =>
      if is_zero f then inr ""
      else inl (AttributeError "'float' object has no attribute 'strip'")
  end.

End PythonText.

(** Errors are threaded as in Python: the first exception ends the
    computation. *)
Definition bind_exn {A B : Type} (m : exn + A) (k : A -> exn + B) : exn + B :=
  match m with
  | inl e => inl e
  | inr a => k a
  end.

Notation "'try!' x ':=' m 'in' k" := (bind_exn m (fun x => k))
  (at level 10, x name, m at level 100, k at level 200).

(** The Rate_Comps sheet as it sits in the workbook, one record per row,
    in the column order
    Location ID, W.O.#, Category, Trade, Invoice Number, Inv.Status,
    Inv.Total, Invoice Labor Amount, Sales Tax, Contracted Rate,
    Rate Difference, Approval.Status. *)
Record sheet_row : Type := {
  col_location_id : cell;
  col_wo : cell;
  col_category : cell;
  col_trade : cell;
  col_invoice_number : cell;
  col_inv_status : cell;
  col_inv_total : cell;
  col_labor : cell;
  col_sales_tax : cell;
  col_contracted_rate : cell;
  col_rate_difference : cell;
  col_approval_status : cell
}.

(* ===================================================================== *)
(** * rate_analysis12.5.py *)
(* ===================================================================== *)

Module RateAnalysis.

Inductive status : Type := Approved | Review.

Definition status_text (s : status) : string :=
  match s with
  | Approved => "Approved"
  | Review => "Review"
  end.

(** [decide_approval], lines 212-225.  [diff >= -5] is written
    [-5 <=? diff]. *)
Definition decide_approval (diff : float) : status :=
  if is_nan diff then Review
  else if (abs diff <? 0.06)%float then Approved
  else if (diff <? 0)%float && (-5 <=? diff)%float then Approved
  else Review.

(** One row of the sheet "Contracted Rates - Land". *)
Record contract_row : Type := {
  center : cell;          (* Center # *)
  monthly : float;        (* Land Maintenance Monthly w/Fall & Spring Cleanup *)
  seasonal : float;       (* Land Maintenance Seasonal w/Fall & Spring Cleanup *)
  billing_months : float  (* Billing Months *)
}.

(** Lines 80-82: the monthly rate, replaced by seasonal / months on the
    rows where it is missing and both other values are there. *)
Definition contracted_rate (r : contract_row) : float :=
  if is_nan (monthly r)
     && negb (is_nan (seasonal r))
     && negb (is_nan (billing_months r))
  then (seasonal r / billing_months r)%float
  else monthly r.

(** An invoice report: its column names and its rows, each row giving
    the cell under a column name. *)
Record DataFrame : Type := {
  columns : list string;
  rows : list (string -> cell)
}.

Definition has_column (df : DataFrame) (c : string) : bool :=
  existsb (String.eqb c) (columns df).

(** [df[name] = ...]: a new column, or new values for an old one. *)
Definition assign (name : string) (value : (string -> cell) -> cell)
    (df : DataFrame) : DataFrame :=
  {| columns := if has_column df name then columns df
                else columns df ++ [name];
     rows := map (fun r c => if String.eqb c name then value r else r c)
                 (rows df) |}.

Fixpoint first_present (df : DataFrame) (candidates : list string)
    : option string :=
  match candidates with
  | [] => None
  | c :: rest => if has_column df c then Some c else first_present df rest
  end.

(** The [repr] of a list of column names; the names of lines 111-139
    hold no quote and no backslash. *)
Fixpoint names_repr (names : list string) : string :=
  match names with
  | [] => ""
  | [c] => "'" ++ c ++ "'"
  | c :: rest => "'" ++ c ++ "', " ++ names_repr rest
  end.

Definition list_repr (names : list string) : string :=
  "[" ++ names_repr names ++ "]".

(** Lines 141-150, for one output field. *)
Definition select_column (df : DataFrame) (out_name : string)
    (candidates : list string) : exn + string :=
  match first_present df candidates with
  | Some c => inr c
  | None =>
      inl (KeyError ("Could not find any of " ++ list_repr candidates
                     ++ " in invoice file columns for output field '"
                     ++ out_name ++ "'."))
  end.

(** A float read as the integer it equals, when it equals one: the keys
    of [rate_map] are integers, and [100.0] finds the key [100]. *)
Definition float_to_Z (f : float) : option Z :=
  match Prim2SF f with
  | S754_zero _ => Some 0
  | S754_finite s m e =>
      let v :=
        if 0 <=? e then Some (Z.pos m * 2 ^ e)
        else if Z.pos m mod 2 ^ (- e) =? 0 then Some (Z.pos m / 2 ^ (- e))
        else None in
      option_map (fun z => if s then - z else z) v
  | _ => None
  end.

Definition Z_to_float (z : Z) : float :=
  SF2Prim (binary_normalize prec emax z 0 false).

(** The largest values of numpy's int64 and uint64. *)
Definition INT64_MAX : Z := 2 ^ 63 - 1.
Definition UINT64_MAX : Z := 2 ^ 64 - 1.

Definition location_key (c : cell) : option Z :=
  match c with
  | CInt z => Some z
  | CNum f => float_to_Z f
  | CText _ => None
  end.

(** A row of the Rate_Comps frame built in memory. *)
Record rate_comp : Type := {
  rc_location_id : cell;
  rc_wo : cell;
  rc_category : cell;
  rc_trade : cell;
  rc_invoice_number : cell;
  rc_inv_status : cell;
  rc_inv_total : float;
  rc_labor : float;
  rc_sales_tax : float;
  rc_contracted_rate : float;
  rc_rate_difference : float;
  rc_approval_status : status
}.

(** [to_excel]: the row as it is stored in the sheet. *)
Definition to_sheet_row (r : rate_comp) : sheet_row :=
  {| col_location_id := rc_location_id r;
     col_wo := rc_wo r;
     col_category := rc_category r;
     col_trade := rc_trade r;
     col_invoice_number := rc_invoice_number r;
     col_inv_status := rc_inv_status r;
     col_inv_total := CNum (rc_inv_total r);
     col_labor := CNum (rc_labor r);
     col_sales_tax := CNum (rc_sales_tax r);
     col_contracted_rate := CNum (rc_contracted_rate r);
     col_rate_difference := CNum (rc_rate_difference r);
     col_approval_status := CText (status_text (rc_approval_status r)) |}.

(** The invoice workbook: its first sheet and, once written, Rate_Comps. *)
Record workbook : Type := {
  invoice_report : DataFrame;
  rate_comps_sheet : option (list rate_comp)
}.

Section BuildRateComps.

(** Library functions the script calls: Python's float printer, pandas'
    parser of one text value ([None] when [to_numeric] cannot read it),
    and numpy's rounding to two decimals. *)
Variable repr_float : float -> string.
Variable to_numeric : string -> option float.
Variable round2 : float -> float.

(** [errors="coerce"]. *)
Definition coerce (o : option float) : float :=
  match o with
  | Some f => f
  | None => nan
  end.

(** [pd.to_numeric(column, errors="coerce")], cell by cell. *)
Definition to_numeric_cell (c : cell) : float :=
  match c with
  | CInt z => Z_to_float z
  | CNum f => f
  | CText s => coerce (to_numeric s)
  end.

Definition fillna0 (f : float) : float := if is_nan f then 0%float else f.

(** Line 73: the first run of digits in the text of Center #, missing
    for a row without digits. *)
Definition extracted (r : contract_row) : option string :=
  PyStr.first_digits (py_str repr_float (center r)).

(** [int(text)] of a run of digits. *)
Definition as_int (digits : string) : Z := PyStr.digit_run 0 digits.

(** Line 74, [pd.to_numeric(extracted, errors="coerce")]: the column
    comes out as float64 as soon as one row is missing, is not read, or
    is above the range of uint64. *)
Definition is_float_column (ex : list (option string)) : bool :=
  existsb (fun o =>
             match o with
             | None => true
             | Some d =>
                 match to_numeric d with
                 | None => true
                 | Some _ => UINT64_MAX <? as_int d
                 end
             end) ex.

(** [.astype("Int64")] on a float: NaN becomes [pd.NA]; any other value
    must be a whole number of the int64 range. *)
Definition castable (f : float) : bool :=
  is_nan f
  || match float_to_Z f with
     | Some z => (- 2 ^ 63 <=? z) && (z <=? INT64_MAX)
     | None => false
     end.

Definition float_id (f : float) : option Z :=
  if is_nan f then None else float_to_Z f.

(** Line 74: the column Location ID of the contract sheet, [None] for
    [pd.NA].  With a digit run in every row and all of them in the
    range of int64 the numbers are kept as they are; one of 2^63 or
    more makes the column uint64, and the cast raises; a float64 column
    holds what [to_numeric] reads, and the cast raises unless each is a
    whole number below 2^63. *)
Definition location_ids (land_df : list contract_row)
    : exn + list (option Z) :=
  let ex := map extracted land_df in
  if is_float_column ex then
    let fs := map (fun o =>
                     match o with
                     | Some d => coerce (to_numeric d)
                     | None => nan
                     end) ex in
    if forallb castable fs then inr (map float_id fs)
    else inl (TypeError "cannot safely cast non-equivalent float64 to int64")
  else if existsb (fun o =>
                     match o with
                     | Some d => INT64_MAX <? as_int d
                     | None => false
                     end) ex
  then inl (TypeError "cannot safely cast non-equivalent uint64 to int64")
  else inr (map (option_map as_int) ex).

(** Line 84: [set_index(...).to_dict()]; a later row with the same
    Location ID replaces the earlier one.  A row without digits is keyed
    by [pd.NA], which no Location ID of an invoice equals. *)
Definition add_rate (m : gmap Z float) (entry : option Z * float)
    : gmap Z float :=
  match fst entry with
  | Some k => <[k := snd entry]> m
  | None => m
  end.

(** Lines 72-84: [rate_map]. *)
Definition build_rate_map (land_df : list contract_row)
    : exn + gmap Z float :=
  try! ids := location_ids land_df in
  inr (fold_left add_rate (combine ids (map contracted_rate land_df)) ∅).

(** Lines 91-105: the helper columns.  [inv_df.get(name, 0)] is the
    number [0] when the column is absent, and a number has no [fillna]. *)
Definition add_helpers (inv_df : DataFrame) : exn + DataFrame :=
  let df1 :=
    if has_column inv_df "Invoice Labor Amount"
    then assign "__Inv.LaborOnly"
           (fun r => CNum (to_numeric_cell (r "Invoice Labor Amount"))) inv_df
    else inv_df in
  let df2 :=
    if has_column df1 "Invoice Amount"
    then assign "__InvoiceAmount"
           (fun r => CNum (to_numeric_cell (r "Invoice Amount"))) df1
    else df1 in
  if negb (has_column df2 "Invoice Tax Amount")
  then inl (AttributeError "'int' object has no attribute 'fillna'")
  else if negb (has_column df2 "Invoice Tax2 Amount")
  then inl (AttributeError "'int' object has no attribute 'fillna'")
  else
    inr (assign "__SalesTax"
           (fun r =>
              CNum (round2 (fillna0 (to_numeric_cell (r "Invoice Tax Amount"))
                            + fillna0 (to_numeric_cell (r "Invoice Tax2 Amount")))%float))
           df2).

(** Lines 186-204: [to_numeric(col.astype(str).str.replace(",", ""),
    errors="coerce")]. *)
Definition clean_numeric (c : cell) : float :=
  coerce (to_numeric (PyStr.remove_commas (py_str repr_float c))).

(** Lines 180-182: [Location ID].map(rate_map), missing when the key is
    not in the map. *)
Definition lookup_rate (rate_map : gmap Z float) (loc : cell) : float :=
  match location_key loc with
  | Some k =>
      match rate_map !! k with
      | Some rate => rate
      | None => nan
      end
  | None => nan
  end.

(** Lines 164-229 for one row, once the nine source columns are chosen. *)
Definition rate_comp_of (rate_map : gmap Z float)
    (c_loc c_wo c_cat c_trade c_num c_stat c_total c_labor c_tax : string)
    (r : string -> cell) : rate_comp :=
  let rate := lookup_rate rate_map (r c_loc) in
  let total := clean_numeric (r c_total) in
  let diff := (total - rate)%float in
  {| rc_location_id := r c_loc;
     rc_wo := r c_wo;
     rc_category := r c_cat;
     rc_trade := r c_trade;
     rc_invoice_number := r c_num;
     rc_inv_status := r c_stat;
     rc_inv_total := total;
     rc_labor := clean_numeric (r c_labor);
     rc_sales_tax := clean_numeric (r c_tax);
     rc_contracted_rate := rate;
     rc_rate_difference := diff;
     rc_approval_status := decide_approval diff |}.

(** The frame [rate_comps_df] of [build_rate_comps], lines 72-229. *)
Definition rate_comps_df (inv_df : DataFrame) (land_df : list contract_row)
    : exn + list rate_comp :=
  try! rate_map := build_rate_map land_df in
  try! df := add_helpers inv_df in
  try! c_loc := select_column df "Location ID" ["Location ID"; "Location Number"] in
  try! c_wo := select_column df "W.O.#" ["W.O.#"; "WO Tracking Number"] in
  try! c_cat := select_column df "Category" ["Category"] in
  try! c_trade := select_column df "Trade" ["Trade"] in
  try! c_num := select_column df "Invoice Number" ["Invoice Number"] in
  try! c_stat := select_column df "Inv.Status" ["Inv.Status"; "Invoice Status"] in
  try! c_total := select_column df "Inv.Total"
                    ["Invoice Amount"; "__InvoiceAmount"; "Inv.Total"; "Inv.Total "] in
  try! c_labor := select_column df "Invoice Labor Amount"
                    ["Invoice Labor Amount"; "__Inv.LaborOnly"] in
  try! c_tax := select_column df "Sales Tax"
                    ["Invoice Tax Amount"; "__SalesTax"; "Sales Tax"] in
  inr (map (rate_comp_of rate_map c_loc c_wo c_cat c_trade c_num c_stat
              c_total c_labor c_tax)
           (rows df)).

(** [build_rate_comps]: read the first sheet, write (or replace) the
    sheet Rate_Comps, leave the first sheet as it was. *)
Definition build_rate_comps (wb : workbook) (land_df : list contract_row)
    : exn + workbook :=
  try! out := rate_comps_df (invoice_report wb) land_df in
  inr {| invoice_report := invoice_report wb; rate_comps_sheet := Some out |}.

End BuildRateComps.

End RateAnalysis.

(* ===================================================================== *)
(** * DL_contract_rate_land.py: the approval client *)
(* ===================================================================== *)

Module Approver.

Definition APPROVAL_CODE_DEFAULT : string := "5440-102100".
Definition APPROVAL_COMMENTS_DEFAULT : string :=
  "Approved by Derek- All invoices compared to contracted rates.".
Definition CATEGORY_FALLBACK : string := "MAINTENANCE".
Definition ALREADY_HAD_STATUS : string := "already had this status".

(** One invoice of the OData answer. *)
Record api_item : Type := {
  item_Id : option Z;
  item_Trade : option string;
  item_ApprovalCode : option string;
  item_Number : option string
}.

(** The [meta] dictionary a lookup returns; its [Id] is never [None]. *)
Record invoice_meta : Type := {
  meta_Id : Z;
  meta_Trade : option string;
  meta_ApprovalCode : option string;
  meta_Number : option string
}.

(** What the scripts read of a [requests.Response]. *)
Record response : Type := {
  status_code : Z;
  text : string;
  json_value : list api_item   (* resp.json().get("value", []) *)
}.

(** [Response.ok]: no 4xx and no 5xx status. *)
Definition ok (r : response) : bool :=
  negb ((400 <=? status_code r) && (status_code r <? 600)).

Inductive request : Type :=
| GetInvoices (filter_expr : string) (bearer : string)
| PutApprove (invoice_id : Z) (approvalCode comments category : string)
             (bearer : string).

Definition bearer_of (q : request) : string :=
  match q with
  | GetInvoices _ b => b
  | PutApprove _ _ _ _ b => b
  end.

(** A call to the API answers, or raises [requests.RequestException]. *)
Inductive http_outcome : Type :=
| Responded (r : response)
| ConnectionFailed (msg : string).

(** A call to the token endpoint: the answer's [ok] flag and the
    [access_token] of its body, or a [requests.RequestException]. *)
Inductive token_outcome : Type :=
| TokenResponded (t_ok : bool) (access_token : option string)
| TokenConnectionFailed (msg : string).

(** What a run does to the outside world, newest event first. *)
Inductive event : Type :=
| TokenFetch (o : token_outcome)
| ApiCall (q : request) (o : http_outcome)
| StatusEmail (approved failed review : nat) (error_text : option string)
              (attachment : string) (delivered : bool).

(** The outside world: the two servers answer as a function of what has
    happened so far; [GMAIL_ADDRESS] is the environment variable;
    [gmail_api] tells whether building the Gmail service from token.json
    and sending succeed; [format_exc] is the interpreter's
    [traceback.format_exc()], the whole traceback of the exception being
    handled. *)
Record environment : Type := {
  token_server : list event -> token_outcome;
  api_server : list event -> request -> http_outcome;
  GMAIL_ADDRESS : option string;
  gmail_api : list event -> bool;
  format_exc : exn -> string
}.

(** The mutable objects of a run: the dictionary [token_box], the
    dictionary [lookup_cache], the three counters of [run_approvals],
    and the events so far. *)
Record world : Type := {
  token_box : option string;
  lookup_cache : gmap string (option invoice_meta);
  approved_count : nat;
  failed_count : nat;
  review_count : nat;
  trace : list event
}.

Definition set_token (t : string) (w : world) : world :=
  {| token_box := Some t; lookup_cache := lookup_cache w;
     approved_count := approved_count w; failed_count := failed_count w;
     review_count := review_count w; trace := trace w |}.

Definition set_cache (k : string) (v : option invoice_meta) (w : world) : world :=
  {| token_box := token_box w; lookup_cache := <[k := v]> (lookup_cache w);
     approved_count := approved_count w; failed_count := failed_count w;
     review_count := review_count w; trace := trace w |}.

Definition set_approved (n : nat) (w : world) : world :=
  {| token_box := token_box w; lookup_cache := lookup_cache w;
     approved_count := n; failed_count := failed_count w;
     review_count := review_count w; trace := trace w |}.

Definition set_failed (n : nat) (w : world) : world :=
  {| token_box := token_box w; lookup_cache := lookup_cache w;
     approved_count := approved_count w; failed_count := n;
     review_count := review_count w; trace := trace w |}.

Definition set_review (n : nat) (w : world) : world :=
  {| token_box := token_box w; lookup_cache := lookup_cache w;
     approved_count := approved_count w; failed_count := failed_count w;
     review_count := n; trace := trace w |}.

Definition record_event (e : event) (w : world) : world :=
  {| token_box := token_box w; lookup_cache := lookup_cache w;
     approved_count := approved_count w; failed_count := failed_count w;
     review_count := review_count w; trace := e :: trace w |}.

(** Computations that change the world and may raise. *)
Definition M (A : Type) : Type := world -> (exn + A) * world.

Definition ret {A : Type} (a : A) : M A := fun w => (inr a, w).

Definition raise {A : Type} (e : exn) : M A := fun w => (inl e, w).

Definition bind {A B : Type} (m : M A) (k : A -> M B) : M B :=
  fun w =>
    match m w with
    | (inl e, w') => (inl e, w')
    | (inr a, w') => k a w'
    end.

Definition update (f : world -> world) : M unit := fun w => (inr tt, f w).

Definition lift {A : Type} (r : exn + A) : M A := fun w => (r, w).

(** [try: ... except requests.RequestException]: the handler's case is
    [inl]; any other exception goes on. *)
Definition attempt {A : Type} (m : M A) : M (string + A) :=
  fun w =>
    match m w with
    | (inl (RequestException msg), w') => (inr (inl msg), w')
    | (inl e, w') => (inl e, w')
    | (inr a, w') => (inr (inr a), w')
    end.

Declare Scope approver_scope.
Delimit Scope approver_scope with M.
Notation "x <- m ;; k" := (bind m (fun x => k))
  (at level 100, m at next level, right associativity) : approver_scope.
Notation "m ;; k" := (bind m (fun _ => k))
  (at level 100, right associativity) : approver_scope.
Local Open Scope approver_scope.

Section Client.

Variable env : environment.
Variable repr_float : float -> string.

(** [get_access_token], lines 116-136. *)
Definition get_access_token : M string :=
  fun w =>
    let o := token_server env (trace w) in
    let w' := record_event (TokenFetch o) w in
    match o with
    | TokenConnectionFailed msg => (inl (RequestException msg), w')
    | TokenResponded false _ =>
        (inl (RuntimeError "Failed to obtain access token."), w')
    | TokenResponded true (Some t) =>
        if PyStr.nonempty t then (inr t, w')
        else (inl (RuntimeError "No access_token in response"), w')
    | TokenResponded true None =>
        (inl (RuntimeError "No access_token in response"), w')
    end.

(** [get_or_refresh_token], lines 139-147. *)
Definition get_or_refresh_token : M string :=
  fun w =>
    match token_box w with
    | Some t =>
        if PyStr.nonempty t then (inr t, w)
        else (t' <- get_access_token ;; update (set_token t') ;; ret t') w
    | None => (t' <- get_access_token ;; update (set_token t') ;; ret t') w
    end.

(** [requests.get] / [session.put]. *)
Definition send (q : request) : M response :=
  fun w =>
    let o := api_server env (trace w) q in
    let w' := record_event (ApiCall q o) w in
    match o with
    | Responded r => (inr r, w')
    | ConnectionFailed msg => (inl (RequestException msg), w')
    end.

(** The inner [do_request] of both callers. *)
Definition do_request (q : string -> request) : M response :=
  access_token <- get_or_refresh_token ;;
  send (q access_token).

Definition cache_none (wo_key : string) : M (option invoice_meta) :=
  update (set_cache wo_key None) ;; ret None.

(** Lines 185-188. *)
Definition filter_expr_of (wo_key : string) : string :=
  if PyStr.isdigit wo_key then "WoTrackingNumber eq " ++ wo_key
  else "WoTrackingNumber eq '" ++ wo_key ++ "'".

(** Lines 226-251: what is made of the answer that is kept. *)
Definition lookup_finish (wo_key : string) (resp : response)
    : M (option invoice_meta) :=
  if negb (ok resp) then cache_none wo_key
  else
    match json_value resp with
    | [] => cache_none wo_key
    | item :: _ =>
        match item_Id item with
        | None => cache_none wo_key
        | Some id =>
            let meta := {| meta_Id := id;
                           meta_Trade := item_Trade item;
                           meta_ApprovalCode := item_ApprovalCode item;
                           meta_Number := item_Number item |} in
            update (set_cache wo_key (Some meta)) ;; ret (Some meta)
        end
    end.

(** [lookup_invoice_by_wo], lines 168-251. *)
Definition lookup_invoice_by_wo (wo_number : string)
    : M (option invoice_meta) :=
  let wo_key := PyStr.strip wo_number in
  if negb (PyStr.nonempty wo_key) then ret None
  else fun w =>
    match lookup_cache w !! wo_key with
    | Some cached => (inr cached, w)
    | None =>
        (let q := GetInvoices (filter_expr_of wo_key) in
         first <- attempt (do_request q) ;;
         match first with
         | inl _ => cache_none wo_key
         | inr resp =>
             if status_code resp =? 401 then
               second <- attempt (t <- get_access_token ;;
                                  update (set_token t) ;;
                                  do_request q) ;;
               match second with
               | inl _ => cache_none wo_key
               | inr resp' =>
                   if status_code resp' =? 401 then cache_none wo_key
                   else lookup_finish wo_key resp'
               end
             else lookup_finish wo_key resp
         end) w
    end.

(** Lines 351-367: how the answer to the approval is read. *)
Definition approval_accepted (resp : response) : bool :=
  if (status_code resp =? 200) || (status_code resp =? 204) then true
  else if (status_code resp =? 403)
          && PyStr.contains ALREADY_HAD_STATUS (text resp) then true
  else false.

(** [(approval_code or "").strip() or APPROVAL_CODE_DEFAULT]. *)
Definition code_to_use (approval_code : option string) : string :=
  let c := PyStr.strip (default "" approval_code) in
  if PyStr.nonempty c then c else APPROVAL_CODE_DEFAULT.

(** [(category or "").strip().upper() or CATEGORY_FALLBACK]. *)
Definition category_to_use (category : cell) : exn + string :=
  try! c := or_empty_strip category in
  inr (if PyStr.nonempty (PyStr.upper c) then PyStr.upper c
       else CATEGORY_FALLBACK).

(** [approve_invoice], lines 300-367. *)
Definition approve_invoice (invoice_id : Z) (category : cell)
    (approval_code : option string) : M bool :=
  let code := code_to_use approval_code in
  cat <- lift (category_to_use category) ;;
  let q := PutApprove invoice_id code APPROVAL_COMMENTS_DEFAULT cat in
  first <- attempt (do_request q) ;;
  match first with
  | inl _ => ret false
  | inr resp =>
      if status_code resp =? 401 then
        second <- attempt (t <- get_access_token ;;
                           update (set_token t) ;;
                           do_request q) ;;
        match second with
        | inl _ => ret false
        | inr resp' =>
            if status_code resp' =? 401 then ret false
            else ret (approval_accepted resp')
        end
      else ret (approval_accepted resp)
  end.

(** [load_rate_comps]: the rows of the sheet Rate_Comps; [None] stands
    for a workbook without that sheet, for which [read_excel] raises
    [ValueError].  A sheet that is there has the twelve columns of
    [sheet_row], as [build_rate_comps] writes it. *)
Definition load_rate_comps (sheet : option (list sheet_row))
    : exn + list sheet_row :=
  match sheet with
  | Some rows => inr rows
  | None => inl (ValueError "Worksheet named 'Rate_Comps' not found")
  end.

(** Lines 503-509: [astype(str).str.strip().str.upper() == "APPROVED"]. *)
Definition is_approved (row : sheet_row) : bool :=
  String.eqb
    (PyStr.upper (PyStr.strip (py_str repr_float (col_approval_status row))))
    "APPROVED".

(** The body of the loop, lines 546-583, on the counters [successes]
    and [failures]. *)
Definition process_row (row : sheet_row) (successes failures : nat)
    : M (nat * nat) :=
  _ <- lift (or_empty_strip (col_trade row)) ;;
  meta <- lookup_invoice_by_wo (py_str repr_float (col_wo row)) ;;
  match meta with
  | None => ret (successes, S failures)
  | Some m =>
      approved <- approve_invoice (meta_Id m) (col_category row)
                    (meta_ApprovalCode m) ;;
      if approved then ret (S successes, failures)
      else ret (successes, S failures)
  end.

Fixpoint process_rows (to_approve : list sheet_row) (successes failures : nat)
    : M (nat * nat) :=
  match to_approve with
  | [] => ret (successes, failures)
  | row :: rest =>
      counts <- process_row row successes failures ;;
      process_rows rest (fst counts) (snd counts)
  end.

(** The [try] block of [run_approvals], lines 496-590. *)
Definition try_block (sheet : option (list sheet_row)) : M unit :=
  t <- get_access_token ;;
  update (set_token t) ;;
  df <- lift (load_rate_comps sheet) ;;
  let to_approve := List.filter is_approved df in
  let to_skip := List.filter (fun r => negb (is_approved r)) df in
  update (set_review (length to_skip)) ;;
  match to_approve with
  | [] => ret tt
  | _ =>
      counts <- process_rows to_approve 0 0 ;;
      update (set_approved (fst counts)) ;;
      update (set_failed (snd counts))
  end.

(** [send_status_email], lines 371-477: nothing without GMAIL_ADDRESS;
    otherwise one message with the three counts, the error text and the
    workbook; a failure to send is printed, not raised. *)
Definition send_status_email (approved failed review : nat)
    (error_text : option string) (attachment_path : string)
    (w : world) : world :=
  match GMAIL_ADDRESS env with
  | Some from_addr =>
      if PyStr.nonempty from_addr
      then record_event
             (StatusEmail approved failed review error_text attachment_path
                          (gmail_api env (trace w))) w
      else w
  | None => w
  end.

(** The world a run starts in: empty token box, empty cache, counters at
    zero; [history] is what happened before the run. *)
Definition start (history : list event) : world :=
  {| token_box := None; lookup_cache := ∅;
     approved_count := 0; failed_count := 0; review_count := 0;
     trace := history |}.

(** [error_text] after the [except Exception] clause: the traceback of
    the exception caught, if any. *)
Definition error_text_of (r : exn + unit) : option string :=
  match r with
  | inl e => Some (format_exc env e)
  | inr _ => None
  end.

(** [run_approvals], lines 481-605. *)
Definition run_approvals (invoice_file : string)
    (sheet : option (list sheet_row)) (history : list event) : world :=
  let '(r, w) := try_block sheet (start history) in
  send_status_email (approved_count w) (failed_count w) (review_count w)
                    (error_text_of r) invoice_file w.

End Client.

End Approver.

(* ===================================================================== *)
(** * full_auto_droplet.py: choice of the invoice CSV *)
(* ===================================================================== *)

Module Orchestrator.

Definition PREFERRED_NAME : string := "invoice_report_-_financial_details.csv".

(** A file met by [os.walk(extract_dir)]: the directories between
    [extract_dir] and the file (none for a file of [extract_dir]
    itself) and the file's name. *)
Record file_entry : Type := {
  subdirs : list string;
  file_name : string
}.

Definition is_csv (f : file_entry) : bool :=
  PyStr.endswith ".csv" (PyStr.lower (file_name f)).

(** [normpath(c) == normpath(join(extract_dir, PREFERRED_NAME))]: the
    file lies in [extract_dir] itself and bears the preferred name. *)
Definition is_preferred_exact (f : file_entry) : bool :=
  match subdirs f with
  | [] => String.eqb (file_name f) PREFERRED_NAME
  | _ => false
  end.

Definition name_contains (part : string) (f : file_entry) : bool :=
  PyStr.contains part (PyStr.lower (file_name f)).

(** [find_invoice_csv], lines 20-73, on the files in walk order. *)
Definition find_invoice_csv (walk : list file_entry) : exn + file_entry :=
  let candidates := List.filter is_csv walk in
  match candidates with
  | [] => inl (FileNotFoundError "No CSV invoice file found in extracted directory")
  | first :: _ =>
      match List.find is_preferred_exact candidates with
      | Some c => inr c
      | None =>
          match List.find (name_contains "financial_details") candidates with
          | Some c => inr c
          | None =>
              match List.find (name_contains "accounting_details") candidates with
              | Some c => inr c
              | None => inr first
              end
          end
      end
  end.

End Orchestrator.

(* ===================================================================== *)
(** * Sample data *)
(* ===================================================================== *)

Module Samples.
Import RateAnalysis.

Fixpoint read_digits (acc : Z) (count : nat) (s : string) : Z * nat * string :=
  match s with
  | EmptyString => (acc, count, s)
  | String c s' =>
      if PyStr.is_digit c
      then read_digits (10 * acc + Z.of_nat (nat_of_ascii c - 48)) (S count) s'
      else (acc, count, s)
  end.

(** A reader of plain decimals ([-12], [994.99], [nan]), enough for the
    sample sheets: the digits as an integer, divided by the power of
    ten of the fraction. *)
Definition plain_decimal (s : string) : option float :=
  if String.eqb s "nan" then Some nan
  else
    let '(negative, body) :=
      match s with
      | String "-" rest => (true, rest)
      | _ => (false, s)
      end in
    let signed (f : float) : float := if negative then (- f)%float else f in
    let '(ip, n1, rest) := read_digits 0 0 body in
    match n1, rest with
    | O, _ => None
    | _, EmptyString => Some (signed (Z_to_float ip))
    | _, String "." frac =>
        let '(fp, n2, rest') := read_digits ip 0 frac in
        match rest' with
        | EmptyString =>
            Some (signed (Z_to_float fp / Z_to_float (10 ^ Z.of_nat n2))%float)
        | _ => None
        end
    | _, _ => None
    end.

(** The sample sheets hold text and integers only; the float printer is
    not consulted on them. *)
Definition no_floats (f : float) : string := "0.0".

Definition keep (f : float) : float := f.

Fixpoint row_of (cells : list (string * cell)) (c : string) : cell :=
  match cells with
  | [] => CBlank
  | (name, v) :: rest => if String.eqb c name then v else row_of rest c
  end.

Definition invoice_columns : list string :=
  ["Location ID"; "W.O.#"; "Category"; "Trade"; "Invoice Number";
   "Inv.Status"; "Invoice Amount"; "Invoice Labor Amount";
   "Invoice Tax Amount"; "Invoice Tax2 Amount"].

Definition invoice_row (loc wo : Z) (total labor tax : string)
    : string -> cell :=
  row_of [("Location ID", CInt loc); ("W.O.#", CInt wo);
          ("Category", CText "Maintenance"); ("Trade", CText "LANDSCAPING");
          ("Invoice Number", CText "INV"); ("Inv.Status", CText "Open");
          ("Invoice Amount", CText total);
          ("Invoice Labor Amount", CText labor);
          ("Invoice Tax Amount", CText tax);
          ("Invoice Tax2 Amount", CText "0")].

(** Three invoices, for the locations 100, 200 and 300. *)
Definition invoices : DataFrame :=
  {| columns := invoice_columns;
     rows := [invoice_row 100 5001 "1,000.00" "1,000.00" "0.00";
              invoice_row 200 5002 "994.99" "994.99" "n/a";
              invoice_row 300 5003 "900.00" "900.00" "0.00"] |}.

(** Contracts for the locations 100 (monthly) and 200 (seasonal). *)
Definition contracts : list contract_row :=
  [{| center := CText "Center 100"; monthly := 1000; seasonal := nan;
      billing_months := nan |};
   {| center := CText "KC-200 North"; monthly := nan; seasonal := 12000;
      billing_months := 12 |}].

Definition invoice_workbook : workbook :=
  {| invoice_report := invoices; rate_comps_sheet := None |}.

(** The sample contracts with one more row, whose Center # is 2^63. *)
Definition huge_contracts : list contract_row :=
  contracts
  ++ [{| center := CText "Center 9223372036854775808"; monthly := 1000;
         seasonal := nan; billing_months := nan |}].

(** A traceback printer for the sample runs: it gives the last line
    only, the class of the exception and its message. *)
Definition last_line (e : exn) : string :=
  match e with
  | RequestException m => "requests.exceptions.RequestException: " ++ m
  | RuntimeError m => "RuntimeError: " ++ m
  | AttributeError m => "AttributeError: " ++ m
  | KeyError m => "KeyError: " ++ m
  | FileNotFoundError m => "FileNotFoundError: " ++ m
  | TypeError m => "TypeError: " ++ m
  | ValueError m => "ValueError: " ++ m
  end.

End Samples.

(* ===================================================================== *)
(** * Facts about missing values (NaN) *)
(* ===================================================================== *)

Module NaN.

Lemma SFcompare_refl_nan (x : spec_float) :
  SFeqb x x = false -> x = S754_nan.
Proof.
  unfold SFeqb.
  destruct x as [s | s | | s m e]; simpl; try reflexivity.
  - destruct s; discriminate.
  - destruct s; discriminate.
  - destruct s; rewrite Z.compare_refl, Pos.compare_cont_refl; discriminate.
Qed.

Lemma is_nan_Prim2SF (d : float) :
  is_nan d = true <-> Prim2SF d = S754_nan.
Proof.
  unfold is_nan. rewrite FloatAxioms.eqb_spec. split.
  - intros H. apply SFcompare_refl_nan.
    destruct (SFeqb (Prim2SF d) (Prim2SF d)); [discriminate | reflexivity].
  - intros ->. reflexivity.
Qed.

Lemma abs_ltb_nan (d y : float) : is_nan d = true -> (abs d <? y)%float = false.
Proof.
  intros H. apply is_nan_Prim2SF in H.
  rewrite FloatAxioms.ltb_spec, FloatAxioms.abs_spec, H. reflexivity.
Qed.

Lemma ltb_nan_l (d y : float) : is_nan d = true -> (d <? y)%float = false.
Proof.
  intros H. apply is_nan_Prim2SF in H.
  rewrite FloatAxioms.ltb_spec, H. reflexivity.
Qed.

Lemma sub_nan_r (x y : float) : is_nan y = true -> is_nan (x - y) = true.
Proof.
  intros H. apply is_nan_Prim2SF in H. apply is_nan_Prim2SF.
  rewrite FloatAxioms.sub_spec, H.
  unfold SF64sub, SFsub. destruct (Prim2SF x); reflexivity.
Qed.

Lemma sub_nan_l (x y : float) : is_nan x = true -> is_nan (x - y) = true.
Proof.
  intros H. apply is_nan_Prim2SF in H. apply is_nan_Prim2SF.
  rewrite FloatAxioms.sub_spec, H. reflexivity.
Qed.

Lemma nan_not_zero (d : float) : is_nan d = true -> is_zero d = false.
Proof.
  intros H. apply is_nan_Prim2SF in H.
  unfold is_zero. rewrite FloatAxioms.eqb_spec, H. reflexivity.
Qed.

End NaN.

(* ===================================================================== *)
(** * The approval decision and the contracted rate *)
(* ===================================================================== *)

Module RateFacts.
Import RateAnalysis.

(** The two tolerance tests of the decision, as one condition. *)
Definition within_tolerance (d : float) : Prop :=
  (abs d <? 0.06)%float = true
  \/ ((-5 <=? d)%float = true /\ (d <? 0)%float = true).

Lemma decide_approval_nan (d : float) :
  is_nan d = true -> decide_approval d = Review.
Proof. intros H. unfold decide_approval. rewrite H. reflexivity. Qed.

Lemma decide_approval_iff (d : float) :
  decide_approval d = Approved <-> within_tolerance d.
Proof.
  unfold decide_approval, within_tolerance.
  destruct (is_nan d) eqn:Hnan.
  - rewrite (NaN.abs_ltb_nan d _ Hnan), (NaN.ltb_nan_l d _ Hnan).
    split; [discriminate | intros [H | [_ H]]; discriminate].
  - destruct (abs d <? 0.06)%float.
    + split; auto.
    + destruct (d <? 0)%float, (-5 <=? d)%float; simpl;
        split; try discriminate; auto;
        intros [H | [H1 H2]]; discriminate.
Qed.

Lemma decide_approval_cases (d : float) :
  decide_approval d = Approved \/ decide_approval d = Review.
Proof. destruct (decide_approval d); auto. Qed.

(** C1: [decide_approval d] is Approved exactly when [|d| < 0.06] or
    [-5 <= d < 0], and Review otherwise; a missing difference gives
    Review; the tests run in the order missing, [|d| < 0.06], then
    [d < 0] and [d >= -5]; 0.06 and -5.01 give Review, 0.05999, -5.00
    and 0 give Approved. *)
Theorem decide_approval_spec :
  (forall d, decide_approval d = Approved <-> within_tolerance d)
  /\ (forall d, decide_approval d = Review <-> ~ within_tolerance d)
  /\ (forall d, is_nan d = true -> decide_approval d = Review)
  /\ (forall d,
        decide_approval d =
        if is_nan d then Review
        else if (abs d <? 0.06)%float then Approved
        else if (d <? 0)%float && (-5 <=? d)%float then Approved
        else Review)
  /\ decide_approval 0.06 = Review
  /\ decide_approval 0.05999 = Approved
  /\ decide_approval (-5.00) = Approved
  /\ decide_approval (-5.01) = Review
  /\ decide_approval 0 = Approved.
Proof.
  split; [exact decide_approval_iff |].
  split.
  { intros d. rewrite <- decide_approval_iff.
    destruct (decide_approval d); split; congruence. }
  split; [exact decide_approval_nan |].
  split; [reflexivity |].
  repeat split; vm_compute; reflexivity.
Qed.

Section RateMap.

Variable repr_float : float -> string.
Variable to_numeric : string -> option float.




(** ** The Location IDs of the contract sheet *)

(** A row whose Center # holds a run of digits that [to_numeric] reads
    and that is a number of the int64 range. *)
Definition int64_run (row : contract_row) : bool :=
  match extracted repr_float row with
  | Some d =>
      match to_numeric d with
      | Some _ => as_int d <=? INT64_MAX
      | None => false
      end
  | None => false
  end.

(** The same for the uint64 range. *)
Definition uint64_run (row : contract_row) : bool :=
  match extracted repr_float row with
  | Some d =>
      match to_numeric d with
      | Some _ => as_int d <=? UINT64_MAX
      | None => false
      end
  | None => false
  end.

Lemma int64_below_uint64 : INT64_MAX < UINT64_MAX.
Proof. reflexivity. Qed.

Lemma uint64_run_not_float (land_df : list contract_row) :
  forallb uint64_run land_df = true ->
  is_float_column to_numeric (map (extracted repr_float) land_df) = false.
Proof.
  induction land_df as [| row land_df IH]; [reflexivity |].
  cbn [forallb map]. intros H. apply andb_prop in H. destruct H as [Hr Hl].
  unfold is_float_column in *. cbn [existsb]. rewrite (IH Hl), orb_false_r.
  unfold uint64_run in Hr.
  destruct (extracted repr_float row) as [d |]; [| discriminate Hr].
  destruct (to_numeric d); [| discriminate Hr].
  apply Z.leb_le in Hr. apply Z.ltb_ge. exact Hr.
Qed.

Lemma int64_run_uint64 (row : contract_row) :
  int64_run row = true -> uint64_run row = true.
Proof.
  unfold int64_run, uint64_run.
  destruct (extracted repr_float row) as [d |]; [| discriminate].
  destruct (to_numeric d); [| discriminate].
  intros H. apply Z.leb_le in H. apply Z.leb_le.
  pose proof int64_below_uint64. lia.
Qed.

(** With a readable digit run of the int64 range in every row, the
    Location IDs are those numbers. *)
Lemma location_ids_int64 (land_df : list contract_row) :
  forallb int64_run land_df = true ->
  location_ids repr_float to_numeric land_df
  = inr (map (fun row => option_map as_int (extracted repr_float row))
             land_df).
Proof.
  intros H. unfold location_ids. cbv zeta.
  rewrite uint64_run_not_float.
  2:{ apply forallb_forall. intros row Hin.
      apply int64_run_uint64.
      exact (proj1 (forallb_forall _ _) H row Hin). }
  assert (E : existsb (fun o => match o with
                                | Some d => INT64_MAX <? as_int d
                                | None => false
                                end)
                      (map (extracted repr_float) land_df) = false).
  { induction land_df as [| row land_df IH]; [reflexivity |].
    cbn [forallb map existsb] in *.
    apply andb_prop in H. destruct H as [Hr Hl].
    rewrite (IH Hl), orb_false_r.
    unfold int64_run in Hr.
    destruct (extracted repr_float row) as [d |]; [| reflexivity].
    destruct (to_numeric d); [| discriminate Hr].
    apply Z.leb_le in Hr. apply Z.ltb_ge. exact Hr. }
  rewrite E, map_map. reflexivity.
Qed.

(** With a readable digit run of the uint64 range in every row and one
    of them 2^63 or more, the cast raises. *)
Lemma location_ids_uint64 (land_df : list contract_row) :
  forallb uint64_run land_df = true ->
  forallb int64_run land_df = false ->
  location_ids repr_float to_numeric land_df
  = inl (TypeError "cannot safely cast non-equivalent uint64 to int64").
Proof.
  intros Hu Hi. unfold location_ids. cbv zeta.
  rewrite (uint64_run_not_float land_df Hu).
  assert (E : existsb (fun o => match o with
                                | Some d => INT64_MAX <? as_int d
                                | None => false
                                end)
                      (map (extracted repr_float) land_df) = true).
  { induction land_df as [| row land_df IH]; [discriminate Hi |].
    cbn [forallb map existsb] in *.
    apply andb_prop in Hu. destruct Hu as [Hr Hl].
    unfold int64_run in Hi. unfold uint64_run in Hr.
    destruct (extracted repr_float row) as [d |]; [| discriminate Hr].
    destruct (to_numeric d); [| discriminate Hr].
    destruct (as_int d <=? INT64_MAX) eqn:Hd.
    - cbn [andb] in Hi. rewrite (IH Hl Hi). apply orb_true_r.
    - apply Z.leb_gt in Hd. apply Z.ltb_lt in Hd. rewrite Hd. reflexivity. }
  rewrite E. reflexivity.
Qed.

(** In a float64 column, a row that [to_numeric] reads as a number that
    is not a whole number of the int64 range makes the cast raise. *)
Lemma location_ids_float64 (land_df : list contract_row)
    (row : contract_row) (d : string) :
  is_float_column to_numeric (map (extracted repr_float) land_df) = true ->
  In row land_df ->
  extracted repr_float row = Some d ->
  castable (coerce (to_numeric d)) = false ->
  location_ids repr_float to_numeric land_df
  = inl (TypeError "cannot safely cast non-equivalent float64 to int64").
Proof.
  intros Hf Hin Hd Hc. unfold location_ids. cbv zeta. rewrite Hf.
  assert (E : forallb castable
                (map (fun o => match o with
                               | Some d0 => coerce (to_numeric d0)
                               | None => nan
                               end)
                     (map (extracted repr_float) land_df)) = false).
  { apply not_true_is_false. intros Hall.
    rewrite forallb_forall in Hall.
    specialize (Hall (coerce (to_numeric d))).
    rewrite Hc in Hall. discriminate Hall.
    rewrite map_map. apply in_map_iff. exists row.
    rewrite Hd. auto. }
  rewrite E. reflexivity.
Qed.

(** ** Which contract row prices a location *)

Definition located {A : Type} (k : Z) (e : option Z * A) : bool :=
  match fst e with
  | Some k' => Z.eqb k' k
  | None => false
  end.

(** The contract row that prices location [k]: the last row of the
    sheet whose Location ID is [k]. *)
Definition pricing_row (ids : list (option Z)) (land_df : list contract_row)
    (k : Z) : option contract_row :=
  option_map snd (List.find (located k) (rev (combine ids land_df))).






(** The rate the contract sheet gives location [k]: missing when no row
    has that Location ID. *)
Definition rate_at (ids : list (option Z)) (land_df : list contract_row)
    (k : Z) : float :=
  match pricing_row ids land_df k with
  | Some row => contracted_rate row
  | None => nan
  end.

(** The rate the contract sheet gives the Location ID cell of an
    invoice: the cell must hold a whole number. *)
Definition sheet_rate (ids : list (option Z)) (land_df : list contract_row)
    (location : cell) : float :=
  match location with
  | CInt k => rate_at ids land_df k
  | CNum f =>
      match float_to_Z f with
      | Some k => rate_at ids land_df k
      | None => nan
      end
  | CText _ => nan
  end.

Lemma fold_add_rate (entries : list (option Z * float)) (m : gmap Z float)
    (k : Z) :
  fold_left add_rate entries m !! k
  = match List.find (located k) (rev entries) with
    | Some e => Some (snd e)
    | None => m !! k
    end.
Proof.
  induction entries as [| e entries IH] using rev_ind; [reflexivity |].
  rewrite fold_left_app, rev_app_distr. cbn [fold_left rev app List.find].
  unfold add_rate at 1, located at 1.
  destruct (fst e) as [k' |]; [| exact IH].
  destruct (Z.eqb_spec k' k) as [-> | Hne].
  - apply lookup_insert_eq.
  - rewrite lookup_insert_ne by exact Hne. exact IH.
Qed.

Lemma find_map {A B : Type} (p : B -> bool) (h : A -> B) (l : list A) :
  List.find p (map h l) = option_map h (List.find (fun x => p (h x)) l).
Proof.
  induction l as [| a l IH]; [reflexivity |].
  cbn [map List.find]. destruct (p (h a)); [reflexivity | exact IH].
Qed.

Lemma combine_map_r {A B C : Type} (h : B -> C) (l1 : list A) (l2 : list B) :
  combine l1 (map h l2) = map (fun p => (fst p, h (snd p))) (combine l1 l2).
Proof.
  revert l2. induction l1 as [| a l1 IH]; intros [| b l2];
    cbn [combine map]; try reflexivity.
  rewrite IH. reflexivity.
Qed.

(** The rate map, read at a key: the last contract row of that Location
    ID decides. *)
Lemma build_rate_map_lookup (land_df : list contract_row) :
  match location_ids repr_float to_numeric land_df with
  | inl e => build_rate_map repr_float to_numeric land_df = inl e
  | inr ids =>
      exists rate_map,
        build_rate_map repr_float to_numeric land_df = inr rate_map
        /\ forall k,
             rate_map !! k
             = option_map contracted_rate (pricing_row ids land_df k)
  end.
Proof.
  unfold build_rate_map.
  destruct (location_ids repr_float to_numeric land_df) as [e | ids];
    cbn [bind_exn]; [reflexivity |].
  eexists. split; [reflexivity |].
  intros k. rewrite fold_add_rate, lookup_empty.
  unfold pricing_row.
  rewrite combine_map_r, <- map_rev, find_map.
  destruct (List.find _ (rev (combine ids land_df))) as [[i row] |];
    reflexivity.
Qed.

Lemma lookup_rate_sheet (land_df : list contract_row)
    (ids : list (option Z)) (rate_map : gmap Z float) (location : cell) :
  (forall k,
      rate_map !! k = option_map contracted_rate (pricing_row ids land_df k)) ->
  lookup_rate rate_map location = sheet_rate ids land_df location.
Proof.
  intros Hmap. unfold lookup_rate, sheet_rate, location_key, rate_at.
  destruct location as [k | f | s]; [| | reflexivity].
  - rewrite Hmap. destruct (pricing_row ids land_df k); reflexivity.
  - destruct (float_to_Z f) as [k |]; [| reflexivity].
    rewrite Hmap. destruct (pricing_row ids land_df k); reflexivity.
Qed.

Lemma missing_rate_review (rate_map : gmap Z float)
    (c_loc c_wo c_cat c_trade c_num c_stat c_total c_labor c_tax : string)
    (r : string -> cell) :
  is_nan (lookup_rate rate_map (r c_loc)) = true ->
  rc_approval_status
    (rate_comp_of repr_float to_numeric rate_map c_loc c_wo c_cat c_trade
       c_num c_stat c_total c_labor c_tax r) = Review.
Proof.
  intros H. unfold rate_comp_of. simpl.
  apply decide_approval_nan, NaN.sub_nan_r, H.
Qed.

Lemma missing_total_review (rate_map : gmap Z float)
    (c_loc c_wo c_cat c_trade c_num c_stat c_total c_labor c_tax : string)
    (r : string -> cell) :
  is_nan (clean_numeric repr_float to_numeric (r c_total)) = true ->
  rc_approval_status
    (rate_comp_of repr_float to_numeric rate_map c_loc c_wo c_cat c_trade
       c_num c_stat c_total c_labor c_tax r) = Review.
Proof.
  intros H. unfold rate_comp_of. simpl.
  apply decide_approval_nan, NaN.sub_nan_l, H.
Qed.

End RateMap.
(** ** The frame built by [build_rate_comps] *)

Lemma has_column_assign (name : string) (v : (string -> cell) -> cell)
    (df : DataFrame) (c : string) :
  has_column (assign name v df) c = has_column df c || String.eqb c name.
Proof.
  unfold has_column at 1. unfold assign. cbn [columns].
  destruct (has_column df name) eqn:E.
  - fold (has_column df c).
    destruct (String.eqb_spec c name) as [-> | Hne].
    + rewrite E. reflexivity.
    + rewrite orb_false_r. reflexivity.
  - rewrite existsb_app. simpl. rewrite orb_false_r. reflexivity.
Qed.

Lemma rows_assign (name : string) (v : (string -> cell) -> cell)
    (df : DataFrame) :
  rows (assign name v df) =
  map (fun r c => if String.eqb c name then v r else r c) (rows df).
Proof. reflexivity. Qed.

(** A column name whose cells the helper columns leave as they were. *)
Definition untouched (inv_df : DataFrame) (c : string) : Prop :=
  c <> "__SalesTax"
  /\ (c = "__Inv.LaborOnly" -> has_column inv_df "Invoice Labor Amount" = false)
  /\ (c = "__InvoiceAmount" -> has_column inv_df "Invoice Amount" = false).

Section Frame.

Variable repr_float : float -> string.
Variable to_numeric : string -> option float.
Variable round2 : float -> float.

Lemma add_helpers_shape (inv_df df : DataFrame) :
  add_helpers to_numeric round2 inv_df = inr df ->
  has_column inv_df "Invoice Tax Amount" = true
  /\ (forall c,
        has_column df c =
        has_column inv_df c
        || (has_column inv_df "Invoice Labor Amount"
            && String.eqb c "__Inv.LaborOnly")
        || (has_column inv_df "Invoice Amount"
            && String.eqb c "__InvoiceAmount")
        || String.eqb c "__SalesTax")
  /\ exists g : (string -> cell) -> string -> cell,
       rows df = map g (rows inv_df)
       /\ forall r c, untouched inv_df c -> g r c = r c.
Proof.
  unfold add_helpers.
  destruct (has_column inv_df "Invoice Labor Amount") eqn:HL.
  - rewrite has_column_assign. simpl (String.eqb _ _). rewrite orb_false_r.
    destruct (has_column inv_df "Invoice Amount") eqn:HA.
    + rewrite !has_column_assign. simpl (String.eqb _ _). rewrite !orb_false_r.
      destruct (has_column inv_df "Invoice Tax Amount") eqn:HT1;
        simpl; [| intros Hx; discriminate Hx].
      destruct (has_column inv_df "Invoice Tax2 Amount") eqn:HT2;
        simpl; [| intros Hx; discriminate Hx].
      intros [= <-]. split; [reflexivity |]. split.
      * intros c. rewrite !has_column_assign. simpl. reflexivity.
      * eexists. split.
        { rewrite !rows_assign, !map_map. reflexivity. }
        intros r c (H1 & H2 & H3). cbv beta.
        destruct (String.eqb_spec c "__SalesTax"); [contradiction |].
        destruct (String.eqb_spec c "__InvoiceAmount") as [-> | _];
          [specialize (H3 eq_refl); congruence |].
        destruct (String.eqb_spec c "__Inv.LaborOnly") as [-> | _];
          [specialize (H2 eq_refl); congruence |].
        reflexivity.
    + rewrite !has_column_assign. simpl (String.eqb _ _). rewrite !orb_false_r.
      destruct (has_column inv_df "Invoice Tax Amount") eqn:HT1;
        simpl; [| intros Hx; discriminate Hx].
      destruct (has_column inv_df "Invoice Tax2 Amount") eqn:HT2;
        simpl; [| intros Hx; discriminate Hx].
      intros [= <-]. split; [reflexivity |]. split.
      * intros c. rewrite !has_column_assign. simpl.
        rewrite orb_false_r. reflexivity.
      * eexists. split.
        { rewrite !rows_assign, !map_map. reflexivity. }
        intros r c (H1 & H2 & H3). cbv beta.
        destruct (String.eqb_spec c "__SalesTax"); [contradiction |].
        destruct (String.eqb_spec c "__Inv.LaborOnly") as [-> | _];
          [specialize (H2 eq_refl); congruence |].
        reflexivity.
  - destruct (has_column inv_df "Invoice Amount") eqn:HA.
    + rewrite !has_column_assign. simpl (String.eqb _ _). rewrite !orb_false_r.
      destruct (has_column inv_df "Invoice Tax Amount") eqn:HT1;
        simpl; [| intros Hx; discriminate Hx].
      destruct (has_column inv_df "Invoice Tax2 Amount") eqn:HT2;
        simpl; [| intros Hx; discriminate Hx].
      intros [= <-]. split; [reflexivity |]. split.
      * intros c. rewrite !has_column_assign. simpl.
        rewrite orb_false_r. reflexivity.
      * eexists. split.
        { rewrite !rows_assign, !map_map. reflexivity. }
        intros r c (H1 & H2 & H3). cbv beta.
        destruct (String.eqb_spec c "__SalesTax"); [contradiction |].
        destruct (String.eqb_spec c "__InvoiceAmount") as [-> | _];
          [specialize (H3 eq_refl); congruence |].
        reflexivity.
    + destruct (has_column inv_df "Invoice Tax Amount") eqn:HT1;
        simpl; [| intros Hx; discriminate Hx].
      destruct (has_column inv_df "Invoice Tax2 Amount") eqn:HT2;
        simpl; [| intros Hx; discriminate Hx].
      intros [= <-]. split; [reflexivity |]. split.
      * intros c. rewrite !has_column_assign. simpl.
        rewrite !orb_false_r. reflexivity.
      * eexists. split.
        { rewrite !rows_assign. reflexivity. }
        intros r c (H1 & H2 & H3). cbv beta.
        destruct (String.eqb_spec c "__SalesTax"); [contradiction |].
        reflexivity.
Qed.

(** The first of the names that is a column of the report. *)
Definition source_column (inv_df : DataFrame) (names : list string) : string :=
  match List.find (has_column inv_df) names with
  | Some c => c
  | None => ""
  end.

(** The columns of the report the output fields are read from. *)
Definition location_column (inv_df : DataFrame) : string :=
  source_column inv_df ["Location ID"; "Location Number"].

Definition wo_column (inv_df : DataFrame) : string :=
  source_column inv_df ["W.O.#"; "WO Tracking Number"].

Definition status_column (inv_df : DataFrame) : string :=
  source_column inv_df ["Inv.Status"; "Invoice Status"].

Definition total_column (inv_df : DataFrame) : string :=
  source_column inv_df
    ["Invoice Amount"; "__InvoiceAmount"; "Inv.Total"; "Inv.Total "].

Definition labor_column (inv_df : DataFrame) : string :=
  source_column inv_df ["Invoice Labor Amount"; "__Inv.LaborOnly"].

Lemma first_present_agree (df inv_df : DataFrame) (names : list string)
    (c : string) :
  (forall x, In x names -> has_column df x = has_column inv_df x) ->
  first_present df names = Some c ->
  c = source_column inv_df names /\ In c names /\ has_column inv_df c = true.
Proof.
  unfold source_column.
  induction names as [| x names IH]; intros Hag; [discriminate |].
  cbn [first_present List.find].
  rewrite (Hag x (or_introl eq_refl)).
  destruct (has_column inv_df x) eqn:Hx.
  - intros [= <-]. split; [reflexivity |]. split; [left; reflexivity | exact Hx].
  - intros H.
    destruct (IH (fun y Hy => Hag y (or_intror Hy)) H) as (E & Hin & Hc).
    split; [exact E |]. split; [right; exact Hin | exact Hc].
Qed.

Lemma select_column_agree (df inv_df : DataFrame) (out_name : string)
    (names : list string) (c : string) :
  (forall x, In x names -> has_column df x = has_column inv_df x) ->
  select_column df out_name names = inr c ->
  c = source_column inv_df names /\ In c names /\ has_column inv_df c = true.
Proof.
  intros Hag. unfold select_column.
  destruct (first_present df names) as [c' |] eqn:F; [| discriminate].
  intros [= <-]. exact (first_present_agree df inv_df names c' Hag F).
Qed.

Section Helpers.

Variables inv_df df : DataFrame.

Hypothesis Hcols :
  forall c,
    has_column df c =
    has_column inv_df c
    || (has_column inv_df "Invoice Labor Amount"
        && String.eqb c "__Inv.LaborOnly")
    || (has_column inv_df "Invoice Amount"
        && String.eqb c "__InvoiceAmount")
    || String.eqb c "__SalesTax".

Lemma plain_column (c : string) :
  c <> "__Inv.LaborOnly" -> c <> "__InvoiceAmount" -> c <> "__SalesTax" ->
  has_column df c = has_column inv_df c.
Proof.
  intros N1 N2 N3. rewrite Hcols.
  apply String.eqb_neq in N1, N2, N3. rewrite N1, N2, N3.
  rewrite !andb_false_r, !orb_false_r. reflexivity.
Qed.

Lemma plain_untouched (c : string) :
  c <> "__Inv.LaborOnly" -> c <> "__InvoiceAmount" -> c <> "__SalesTax" ->
  untouched inv_df c.
Proof.
  intros N1 N2 N3. split; [exact N3 |]. split; intros E; contradiction.
Qed.

Ltac plain_names :=
  let x := fresh "x" in
  let Hin := fresh "Hin" in
  intros x Hin; cbn [In] in Hin;
  repeat (destruct Hin as [<- | Hin];
          [apply plain_column; discriminate |]);
  contradiction.

Ltac plain_choice H :=
  let E := fresh "E" in
  let Hin := fresh "Hin" in
  let Hc := fresh "Hc" in
  apply select_column_agree with (inv_df := inv_df) in H; [| plain_names];
  destruct H as (E & Hin & Hc);
  split; [exact E |];
  cbn [In] in Hin;
  repeat (destruct Hin as [<- | Hin];
          [apply plain_untouched; discriminate |]);
  contradiction.

Lemma chosen_location (c : string) :
  select_column df "Location ID" ["Location ID"; "Location Number"] = inr c ->
  c = location_column inv_df /\ untouched inv_df c.
Proof. intros H. plain_choice H. Qed.

Lemma chosen_wo (c : string) :
  select_column df "W.O.#" ["W.O.#"; "WO Tracking Number"] = inr c ->
  c = wo_column inv_df /\ untouched inv_df c.
Proof. intros H. plain_choice H. Qed.

Lemma chosen_category (c : string) :
  select_column df "Category" ["Category"] = inr c ->
  c = "Category" /\ untouched inv_df c.
Proof.
  intros H.
  apply select_column_agree with (inv_df := inv_df) in H; [| plain_names].
  destruct H as (_ & [<- | []] & _).
  split; [reflexivity | apply plain_untouched; discriminate].
Qed.

Lemma chosen_trade (c : string) :
  select_column df "Trade" ["Trade"] = inr c ->
  c = "Trade" /\ untouched inv_df c.
Proof.
  intros H.
  apply select_column_agree with (inv_df := inv_df) in H; [| plain_names].
  destruct H as (_ & [<- | []] & _).
  split; [reflexivity | apply plain_untouched; discriminate].
Qed.

Lemma chosen_number (c : string) :
  select_column df "Invoice Number" ["Invoice Number"] = inr c ->
  c = "Invoice Number" /\ untouched inv_df c.
Proof.
  intros H.
  apply select_column_agree with (inv_df := inv_df) in H; [| plain_names].
  destruct H as (_ & [<- | []] & _).
  split; [reflexivity | apply plain_untouched; discriminate].
Qed.

Lemma chosen_status (c : string) :
  select_column df "Inv.Status" ["Inv.Status"; "Invoice Status"] = inr c ->
  c = status_column inv_df /\ untouched inv_df c.
Proof. intros H. plain_choice H. Qed.

Lemma chosen_total (c : string) :
  select_column df "Inv.Total"
    ["Invoice Amount"; "__InvoiceAmount"; "Inv.Total"; "Inv.Total "] = inr c ->
  c = total_column inv_df /\ untouched inv_df c.
Proof.
  intros H. unfold total_column.
  assert (HA : has_column inv_df "Invoice Amount" = true
               \/ has_column inv_df "Invoice Amount" = false)
    by (clear; destruct (has_column inv_df "Invoice Amount"); auto).
  destruct HA as [HA | HA].
  - assert (Hd : has_column df "Invoice Amount" = true).
    { rewrite plain_column by discriminate. exact HA. }
    unfold select_column in H. cbn [first_present] in H. rewrite Hd in H.
    injection H as <-.
    unfold source_column. cbn [List.find]. rewrite HA.
    split; [reflexivity | apply plain_untouched; discriminate].
  - apply select_column_agree with (inv_df := inv_df) in H.
    + destruct H as (E & Hin & Hc). split; [exact E |].
      cbn [In] in Hin.
      destruct Hin as [<- | [<- | [<- | [<- | []]]]];
        try (apply plain_untouched; discriminate).
      split; [discriminate |]. split; intros Heq; [discriminate Heq | exact HA].
    + intros x Hin. cbn [In] in Hin.
      destruct Hin as [<- | [<- | [<- | [<- | []]]]];
        try (apply plain_column; discriminate).
      rewrite Hcols, HA. cbn [String.eqb Ascii.eqb Bool.eqb andb orb].
      rewrite andb_false_r, !orb_false_r. reflexivity.
Qed.

Lemma chosen_labor (c : string) :
  select_column df "Invoice Labor Amount"
    ["Invoice Labor Amount"; "__Inv.LaborOnly"] = inr c ->
  c = labor_column inv_df /\ untouched inv_df c.
Proof.
  intros H. unfold labor_column.
  assert (HL : has_column inv_df "Invoice Labor Amount" = true
               \/ has_column inv_df "Invoice Labor Amount" = false)
    by (clear; destruct (has_column inv_df "Invoice Labor Amount"); auto).
  destruct HL as [HL | HL].
  - assert (Hd : has_column df "Invoice Labor Amount" = true).
    { rewrite plain_column by discriminate. exact HL. }
    unfold select_column in H. cbn [first_present] in H. rewrite Hd in H.
    injection H as <-.
    unfold source_column. cbn [List.find]. rewrite HL.
    split; [reflexivity | apply plain_untouched; discriminate].
  - apply select_column_agree with (inv_df := inv_df) in H.
    + destruct H as (E & Hin & Hc). split; [exact E |].
      cbn [In] in Hin.
      destruct Hin as [<- | [<- | []]];
        try (apply plain_untouched; discriminate).
      split; [discriminate |]. split; intros Heq; [exact HL | discriminate Heq].
    + intros x Hin. cbn [In] in Hin.
      destruct Hin as [<- | [<- | []]];
        try (apply plain_column; discriminate).
      rewrite Hcols, HL. cbn [String.eqb Ascii.eqb Bool.eqb andb orb].
      rewrite andb_false_r, !orb_false_r. reflexivity.
Qed.

Lemma chosen_tax (c : string) :
  has_column inv_df "Invoice Tax Amount" = true ->
  select_column df "Sales Tax"
    ["Invoice Tax Amount"; "__SalesTax"; "Sales Tax"] = inr c ->
  c = "Invoice Tax Amount" /\ untouched inv_df c.
Proof.
  intros HT H.
  assert (Hd : has_column df "Invoice Tax Amount" = true).
  { rewrite plain_column by discriminate. exact HT. }
  unfold select_column in H. cbn [first_present] in H. rewrite Hd in H.
  injection H as <-.
  split; [reflexivity | apply plain_untouched; discriminate].
Qed.

End Helpers.

(** When [build_rate_comps] gets through, its frame is the invoice
    report row by row, each output field read at its source column of
    the report, with the rate map of the contract sheet. *)
Lemma rate_comps_df_frame (inv_df : DataFrame) (land_df : list contract_row)
    (out : list rate_comp) :
  rate_comps_df repr_float to_numeric round2 inv_df land_df = inr out ->
  exists rate_map,
    build_rate_map repr_float to_numeric land_df = inr rate_map
    /\ has_column inv_df "Invoice Tax Amount" = true
    /\ out =
       map (rate_comp_of repr_float to_numeric rate_map
              (location_column inv_df) (wo_column inv_df)
              "Category" "Trade" "Invoice Number" (status_column inv_df)
              (total_column inv_df) (labor_column inv_df)
              "Invoice Tax Amount")
           (rows inv_df).
Proof.
  unfold rate_comps_df.
  destruct (build_rate_map repr_float to_numeric land_df) as [e | rate_map];
    [discriminate |]. cbn [bind_exn].
  destruct (add_helpers to_numeric round2 inv_df) as [e | df] eqn:Hh;
    [discriminate |]. cbn [bind_exn].
  destruct (add_helpers_shape _ _ Hh) as (HT & Hcols & g & Hrows & Hg).
  destruct (select_column df "Location ID" _) as [e | c_loc] eqn:S1;
    [discriminate |]. cbn [bind_exn].
  destruct (select_column df "W.O.#" _) as [e | c_wo] eqn:S2;
    [discriminate |]. cbn [bind_exn].
  destruct (select_column df "Category" _) as [e | c_cat] eqn:S3;
    [discriminate |]. cbn [bind_exn].
  destruct (select_column df "Trade" _) as [e | c_trade] eqn:S4;
    [discriminate |]. cbn [bind_exn].
  destruct (select_column df "Invoice Number" _) as [e | c_num] eqn:S5;
    [discriminate |]. cbn [bind_exn].
  destruct (select_column df "Inv.Status" _) as [e | c_stat] eqn:S6;
    [discriminate |]. cbn [bind_exn].
  destruct (select_column df "Inv.Total" _) as [e | c_total] eqn:S7;
    [discriminate |]. cbn [bind_exn].
  destruct (select_column df "Invoice Labor Amount" _) as [e | c_labor] eqn:S8;
    [discriminate |]. cbn [bind_exn].
  destruct (select_column df "Sales Tax" _) as [e | c_tax] eqn:S9;
    [discriminate |]. cbn [bind_exn].
  intros [= <-].
  destruct (chosen_location inv_df df Hcols c_loc S1) as [E1 U1].
  destruct (chosen_wo inv_df df Hcols c_wo S2) as [E2 U2].
  destruct (chosen_category inv_df df Hcols c_cat S3) as [E3 U3].
  destruct (chosen_trade inv_df df Hcols c_trade S4) as [E4 U4].
  destruct (chosen_number inv_df df Hcols c_num S5) as [E5 U5].
  destruct (chosen_status inv_df df Hcols c_stat S6) as [E6 U6].
  destruct (chosen_total inv_df df Hcols c_total S7) as [E7 U7].
  destruct (chosen_labor inv_df df Hcols c_labor S8) as [E8 U8].
  destruct (chosen_tax inv_df df Hcols c_tax HT S9) as [E9 U9].
  exists rate_map. split; [reflexivity |]. split; [exact HT |].
  rewrite Hrows, map_map. apply map_ext. intros r.
  unfold rate_comp_of.
  rewrite !(Hg r c_loc U1), !(Hg r c_wo U2), !(Hg r c_cat U3),
    !(Hg r c_trade U4), !(Hg r c_num U5), !(Hg r c_stat U6),
    !(Hg r c_total U7), !(Hg r c_labor U8), !(Hg r c_tax U9).
  subst. reflexivity.
Qed.

(** ** Commas and the amounts *)

Lemma remove_commas_no_comma (s : string) :
  PyStr.contains "," (PyStr.remove_commas s) = false.
Proof.
  induction s as [| c s IH]; [reflexivity |].
  cbn [PyStr.remove_commas].
  destruct (Ascii.eqb c ",") eqn:E; [exact IH |].
  cbn [PyStr.contains String.prefix]. rewrite IH.
  destruct (ascii_dec "," c) as [<- | _]; [| reflexivity].
  rewrite Ascii.eqb_refl in E. discriminate E.
Qed.

Lemma remove_commas_plain (s : string) :
  PyStr.contains "," s = false -> PyStr.remove_commas s = s.
Proof.
  induction s as [| c s IH]; [reflexivity |].
  cbn [PyStr.contains String.prefix PyStr.remove_commas].
  destruct (ascii_dec "," c) as [<- | Hne].
  - destruct s; discriminate.
  - cbn [orb]. intros H.
    destruct (Ascii.eqb_spec c ",") as [-> | _]; [contradiction |].
    rewrite (IH H). reflexivity.
Qed.

Lemma remove_commas_comma (a b : string) :
  PyStr.remove_commas (a ++ "," ++ b) = PyStr.remove_commas (a ++ b).
Proof.
  induction a as [| c a IH]; [reflexivity |].
  change (PyStr.remove_commas (String c (a ++ "," ++ b))
          = PyStr.remove_commas (String c (a ++ b))).
  cbn [PyStr.remove_commas]. rewrite IH. reflexivity.
Qed.

Lemma clean_numeric_unparsable (c : cell) :
  to_numeric (PyStr.remove_commas (py_str repr_float c)) = None ->
  is_nan (clean_numeric repr_float to_numeric c) = true
  /\ is_zero (clean_numeric repr_float to_numeric c) = false.
Proof.
  intros H. unfold clean_numeric. rewrite H. split; reflexivity.
Qed.

Lemma clean_numeric_plain (c : cell) (f : float) :
  PyStr.contains "," (py_str repr_float c) = false ->
  to_numeric (py_str repr_float c) = Some f ->
  clean_numeric repr_float to_numeric c = f.
Proof.
  intros Hc Hf. unfold clean_numeric.
  rewrite (remove_commas_plain _ Hc), Hf. reflexivity.
Qed.

(** ** The rows of Rate_Comps, one by one *)

(** The row of Rate_Comps made of the report row [r]: six cells copied,
    three amounts cleaned, the rate the contract sheet gives the
    location, the difference and the decision on it. *)
Definition compared (inv_df : DataFrame) (ids : list (option Z))
    (land_df : list contract_row) (r : string -> cell) : rate_comp :=
  let total := clean_numeric repr_float to_numeric (r (total_column inv_df)) in
  let rate := sheet_rate ids land_df (r (location_column inv_df)) in
  {| rc_location_id := r (location_column inv_df);
     rc_wo := r (wo_column inv_df);
     rc_category := r "Category";
     rc_trade := r "Trade";
     rc_invoice_number := r "Invoice Number";
     rc_inv_status := r (status_column inv_df);
     rc_inv_total := total;
     rc_labor := clean_numeric repr_float to_numeric (r (labor_column inv_df));
     rc_sales_tax :=
       clean_numeric repr_float to_numeric (r "Invoice Tax Amount");
     rc_contracted_rate := rate;
     rc_rate_difference := (total - rate)%float;
     rc_approval_status := decide_approval (total - rate)%float |}.

(** The frame, in terms of the report and the contract sheet alone. *)
Lemma rate_comps_df_rows (inv_df : DataFrame) (land_df : list contract_row)
    (out : list rate_comp) :
  rate_comps_df repr_float to_numeric round2 inv_df land_df = inr out ->
  exists ids,
    location_ids repr_float to_numeric land_df = inr ids
    /\ has_column inv_df "Invoice Tax Amount" = true
    /\ out = map (compared inv_df ids land_df) (rows inv_df).
Proof.
  intros H.
  destruct (rate_comps_df_frame inv_df land_df out H)
    as (rate_map & Hmap & HT & Hout).
  pose proof (build_rate_map_lookup repr_float to_numeric land_df) as Hl.
  destruct (location_ids repr_float to_numeric land_df) as [e | ids].
  { rewrite Hl in Hmap. discriminate Hmap. }
  destruct Hl as (rate_map' & Hmap' & Hk).
  rewrite Hmap in Hmap'. injection Hmap' as <-.
  exists ids. split; [reflexivity |]. split; [exact HT |].
  rewrite Hout. apply map_ext. intros r.
  unfold rate_comp_of, compared. cbv zeta.
  rewrite (lookup_rate_sheet land_df ids rate_map _ Hk). reflexivity.
Qed.

Lemma nth_compared (inv_df : DataFrame) (land_df : list contract_row)
    (out : list rate_comp) (ids : list (option Z)) (i : nat)
    (r : string -> cell) :
  out = map (compared inv_df ids land_df) (rows inv_df) ->
  nth_error (rows inv_df) i = Some r ->
  nth_error out i = Some (compared inv_df ids land_df r).
Proof.
  intros -> Hr. rewrite nth_error_map, Hr. reflexivity.
Qed.


(** C5: in the Rate_Comps output Inv.Total, Invoice Labor Amount and
    Sales Tax are the numbers read from the text of their source column
    of the report: a text without comma is read as it is, a comma
    anywhere in the text plays no part, and a text that is not read
    becomes NaN, not zero.  The decision is taken on Inv.Total less the
    contracted rate only: a missing Inv.Total gives a missing
    difference and Review. *)
Theorem numeric_columns_normalized :
  (forall inv_df land_df out,
      rate_comps_df repr_float to_numeric round2 inv_df land_df = inr out ->
      map (fun o => (rc_inv_total o, rc_labor o, rc_sales_tax o)) out =
      map (fun r =>
             (clean_numeric repr_float to_numeric (r (total_column inv_df)),
              clean_numeric repr_float to_numeric (r (labor_column inv_df)),
              clean_numeric repr_float to_numeric (r "Invoice Tax Amount")))
          (rows inv_df))
  /\ (forall c f,
        PyStr.contains "," (py_str repr_float c) = false ->
        to_numeric (py_str repr_float c) = Some f ->
        clean_numeric repr_float to_numeric c = f)
  /\ (forall a b,
        clean_numeric repr_float to_numeric (CText (a ++ "," ++ b))
        = clean_numeric repr_float to_numeric (CText (a ++ b)))
  /\ (forall c,
        PyStr.contains "," (py_str repr_float c) = false ->
        to_numeric (py_str repr_float c) = None ->
        is_nan (clean_numeric repr_float to_numeric c) = true
        /\ is_zero (clean_numeric repr_float to_numeric c) = false)
  /\ (forall inv_df land_df out o,
        rate_comps_df repr_float to_numeric round2 inv_df land_df = inr out ->
        In o out ->
        rc_rate_difference o = (rc_inv_total o - rc_contracted_rate o)%float
        /\ rc_approval_status o = decide_approval (rc_rate_difference o)
        /\ (is_nan (rc_inv_total o) = true ->
            is_nan (rc_rate_difference o) = true
            /\ rc_approval_status o = Review)).
Proof.
  split.
  { intros inv_df land_df out H.
    destruct (rate_comps_df_rows inv_df land_df out H) as (ids & _ & _ & ->).
    rewrite map_map. reflexivity. }
  split; [exact clean_numeric_plain |].
  split.
  { intros a b. unfold clean_numeric. cbn [py_str].
    rewrite remove_commas_comma. reflexivity. }
  split.
  { intros c Hc Hn. apply clean_numeric_unparsable.
    rewrite (remove_commas_plain _ Hc). exact Hn. }
  intros inv_df land_df out o H Hin.
  destruct (rate_comps_df_rows inv_df land_df out H) as (ids & _ & _ & ->).
  apply in_map_iff in Hin. destruct Hin as (r & <- & _).
  unfold compared. cbv zeta.
  cbn [rc_rate_difference rc_inv_total rc_contracted_rate rc_approval_status].
  split; [reflexivity |]. split; [reflexivity |].
  intros Hnan. split; [apply NaN.sub_nan_l, Hnan |].
  apply decide_approval_nan, NaN.sub_nan_l, Hnan.
Qed.

(** C6: when [build_rate_comps] gets through, the first sheet is as it
    was and Rate_Comps holds one row per row of the report, in the same
    order: row [i] carries the six cells of report row [i] copied from
    their source columns, its three cleaned amounts, the rate the
    contract sheet gives its location, the difference total - rate and
    the decision on that difference; running it again on the result
    gives the same workbook. *)
Theorem build_rate_comps_rows (wb wb' : workbook)
    (land_df : list contract_row) :
  build_rate_comps repr_float to_numeric round2 wb land_df = inr wb' ->
  invoice_report wb' = invoice_report wb
  /\ (exists ids out,
        location_ids repr_float to_numeric land_df = inr ids
        /\ rate_comps_sheet wb' = Some out
        /\ length out = length (rows (invoice_report wb))
        /\ out = map (compared (invoice_report wb) ids land_df)
                     (rows (invoice_report wb))
        /\ forall i r,
             nth_error (rows (invoice_report wb)) i = Some r ->
             nth_error out i
             = Some (compared (invoice_report wb) ids land_df r))
  /\ build_rate_comps repr_float to_numeric round2 wb' land_df = inr wb'.
Proof.
  unfold build_rate_comps.
  destruct (rate_comps_df repr_float to_numeric round2 (invoice_report wb)
              land_df) as [e | out] eqn:H; [discriminate |].
  cbn [bind_exn]. intros [= <-]. cbn [invoice_report rate_comps_sheet].
  split; [reflexivity |].
  split.
  - destruct (rate_comps_df_rows _ _ _ H) as (ids & Hids & _ & Hout).
    exists ids, out.
    split; [exact Hids |]. split; [reflexivity |].
    split; [rewrite Hout; apply length_map |].
    split; [exact Hout |].
    intros i r Hr. exact (nth_compared _ land_df out ids i r Hout Hr).
  - rewrite H. reflexivity.
Qed.

End Frame.

(** ** The sample workbook *)

(** The sample workbook after [build_rate_comps]. *)
Definition sample_result : workbook :=
  match build_rate_comps Samples.no_floats Samples.plain_decimal Samples.keep
          Samples.invoice_workbook Samples.contracts with
  | inr wb => wb
  | inl _ => Samples.invoice_workbook
  end.

Lemma sample_build :
  build_rate_comps Samples.no_floats Samples.plain_decimal Samples.keep
    Samples.invoice_workbook Samples.contracts = inr sample_result.
Proof. vm_compute. reflexivity. Qed.

(** The three sample invoices: on contract; 5.01 under contract; no
    contract for the location. A tax that is not a number is NaN. *)
Example sample_statuses :
  option_map
    (map (fun o => (rc_approval_status o, is_nan (rc_sales_tax o))))
    (rate_comps_sheet sample_result)
  = Some [(Approved, false); (Review, true); (Review, false)].
Proof. vm_compute. reflexivity. Qed.

(** The rows the sample report must give. *)
Definition expected_row (loc wo : Z) (total labor tax rate : float)
    (decision : status) : rate_comp :=
  {| rc_location_id := CInt loc; rc_wo := CInt wo;
     rc_category := CText "Maintenance"; rc_trade := CText "LANDSCAPING";
     rc_invoice_number := CText "INV"; rc_inv_status := CText "Open";
     rc_inv_total := total; rc_labor := labor; rc_sales_tax := tax;
     rc_contracted_rate := rate;
     rc_rate_difference := (total - rate)%float;
     rc_approval_status := decision |}.

Definition expected_rows : list rate_comp :=
  [expected_row 100 5001 1000 1000 0 1000 Approved;
   expected_row 200 5002 994.99 994.99 nan 1000 Review;
   expected_row 300 5003 900 900 0 nan Review].

Lemma sample_location_ids :
  location_ids Samples.no_floats Samples.plain_decimal Samples.contracts
  = inr [Some 100; Some 200].
Proof. vm_compute. reflexivity. Qed.

Lemma build_rate_comps_rows_witness :
  rate_comps_sheet sample_result = Some expected_rows
  /\ build_rate_comps Samples.no_floats Samples.plain_decimal Samples.keep
       sample_result Samples.contracts = inr sample_result.
Proof.
  destruct (build_rate_comps_rows Samples.no_floats Samples.plain_decimal
              Samples.keep Samples.invoice_workbook sample_result
              Samples.contracts sample_build)
    as (_ & (ids & out & Hids & Hsheet & _ & Hout & _) & Hagain).
  split; [| exact Hagain].
  rewrite sample_location_ids in Hids. injection Hids as <-.
  rewrite Hsheet, Hout. vm_compute. reflexivity.
Defined.

Lemma sample_frame :
  rate_comps_df Samples.no_floats Samples.plain_decimal Samples.keep
    Samples.invoices Samples.contracts = inr expected_rows.
Proof. vm_compute. reflexivity. Qed.

(** The amounts of the sample, read from Invoice Amount, Invoice Labor
    Amount and Invoice Tax Amount: the comma of "1,000.00" plays no part
    and the tax "n/a" is NaN. *)
Lemma numeric_columns_normalized_witness :
  exists out,
    rate_comps_df Samples.no_floats Samples.plain_decimal Samples.keep
      Samples.invoices Samples.contracts = inr out
    /\ map (fun o => (rc_inv_total o, rc_labor o, rc_sales_tax o)) out
       = [(1000, 1000, 0); (994.99, 994.99, nan); (900, 900, 0)]%float.
Proof.
  exists expected_rows. split; [exact sample_frame |].
  rewrite (proj1 (numeric_columns_normalized Samples.no_floats
                    Samples.plain_decimal Samples.keep)
             Samples.invoices Samples.contracts expected_rows sample_frame).
  vm_compute. reflexivity.
Defined.

(** A report row whose labour amount and tax are not numbers, with a
    total on contract: both amounts are missing and the row is
    Approved. *)
Definition unread_amounts : DataFrame :=
  {| columns := Samples.invoice_columns;
     rows := [Samples.invoice_row 100 5001 "1,000.00" "abc" "n/a"] |}.

Lemma missing_amounts_approved :
  exists o,
    rate_comps_df Samples.no_floats Samples.plain_decimal Samples.keep
      unread_amounts Samples.contracts = inr [o]
    /\ is_nan (rc_labor o) = true
    /\ is_nan (rc_sales_tax o) = true
    /\ rc_approval_status o = Approved.
Proof.
  eexists. split; [vm_compute; reflexivity |].
  vm_compute. auto.
Qed.







End RateFacts.

(* ===================================================================== *)
(** * The approval client: requests, retries and counters *)
(* ===================================================================== *)

Module ApproverFacts.
Import Approver.
Local Open Scope approver_scope.

(** The token a call to the token endpoint yields, if any. *)
Definition granted (o : token_outcome) : option string :=
  match o with
  | TokenResponded true (Some t) => if PyStr.nonempty t then Some t else None
  | _ => None
  end.

(** The exception [get_access_token] raises when no token is granted. *)
Definition token_exn (o : token_outcome) : exn :=
  match o with
  | TokenConnectionFailed msg => RequestException msg
  | TokenResponded false _ => RuntimeError "Failed to obtain access token."
  | TokenResponded true _ => RuntimeError "No access_token in response"
  end.

(** How an auth-guarded request ends: given up (the caller's failure
    branch), answered with a status other than 401, or an exception that
    is not a [RequestException]. *)
Inductive outcome : Type :=
| Failed
| Answer (r : response)
| Raised (e : exn).

(** The status of an answer is 401. *)
Definition unauthorized (o : http_outcome) : bool :=
  match o with
  | Responded r => status_code r =? 401
  | ConnectionFailed _ => false
  end.

Section ClientFacts.

Variable env : environment.
Variable repr_float : float -> string.

(** The retry logic both callers spell out, lines 204-224 and 331-349. *)
Definition guarded_request {A : Type} (q : string -> request)
    (on_failure : M A) (on_answer : response -> M A) : M A :=
  first <- attempt (do_request env q) ;;
  match first with
  | inl _ => on_failure
  | inr resp =>
      if status_code resp =? 401 then
        second <- attempt (t <- get_access_token env ;;
                           update (set_token t) ;;
                           do_request env q) ;;
        match second with
        | inl _ => on_failure
        | inr resp' =>
            if status_code resp' =? 401 then on_failure
            else on_answer resp'
        end
      else on_answer resp
  end.

(** The auth-guarded request as the specification words it: issue the
    request with the current token [t]; on 401 fetch one token and retry
    once; a second 401 is a failure. *)
Definition guarded_outcome (q : string -> request) (t : string) (w : world)
    : outcome * world :=
  let o1 := api_server env (trace w) (q t) in
  let w1 := record_event (ApiCall (q t) o1) w in
  match o1 with
  | ConnectionFailed _ => (Failed, w1)
  | Responded r1 =>
      if status_code r1 =? 401 then
        let ot := token_server env (trace w1) in
        let w2 := record_event (TokenFetch ot) w1 in
        match granted ot with
        | Some t' =>
            let w2' := set_token t' w2 in
            let o2 := api_server env (trace w2') (q t') in
            let w3 := record_event (ApiCall (q t') o2) w2' in
            match o2 with
            | ConnectionFailed _ => (Failed, w3)
            | Responded r2 =>
                if status_code r2 =? 401 then (Failed, w3)
                else (Answer r2, w3)
            end
        | None =>
            match ot with
            | TokenConnectionFailed _ => (Failed, w2)
            | _ => (Raised (token_exn ot), w2)
            end
        end
      else (Answer r1, w1)
  end.

(** The metadata kept from an answer, lines 226-251. *)
Definition found (resp : response) : option invoice_meta :=
  if negb (ok resp) then None
  else
    match json_value resp with
    | [] => None
    | item :: _ =>
        match item_Id item with
        | None => None
        | Some id =>
            Some {| meta_Id := id;
                    meta_Trade := item_Trade item;
                    meta_ApprovalCode := item_ApprovalCode item;
                    meta_Number := item_Number item |}
        end
    end.

Lemma get_access_token_eq (w : world) :
  get_access_token env w =
  (match granted (token_server env (trace w)) with
   | Some t => inr t
   | None => inl (token_exn (token_server env (trace w)))
   end,
   record_event (TokenFetch (token_server env (trace w))) w).
Proof.
  unfold get_access_token, granted, token_exn.
  destruct (token_server env (trace w)) as [[|] [t|] | msg]; try reflexivity.
  destruct (PyStr.nonempty t); reflexivity.
Qed.

Lemma do_request_eq (q : string -> request) (w : world) (t : string) :
  token_box w = Some t ->
  PyStr.nonempty t = true ->
  do_request env q w = send env (q t) w.
Proof.
  intros Ht Hne. unfold do_request, bind, get_or_refresh_token.
  rewrite Ht, Hne. reflexivity.
Qed.

Lemma guarded_request_eq {A : Type} (q : string -> request)
    (on_failure : M A) (on_answer : response -> M A) (w : world) (t : string) :
  token_box w = Some t ->
  PyStr.nonempty t = true ->
  guarded_request q on_failure on_answer w =
  match guarded_outcome q t w with
  | (Failed, w') => on_failure w'
  | (Answer r, w') => on_answer r w'
  | (Raised e, w') => (inl e, w')
  end.
Proof.
  intros Ht Hne.
  unfold guarded_request, guarded_outcome.
  unfold bind at 1. unfold attempt at 1.
  rewrite (do_request_eq q w t Ht Hne). unfold send at 1.
  destruct (api_server env (trace w) (q t)) as [r1 | msg1]; [| reflexivity].
  destruct (status_code r1 =? 401); [| reflexivity].
  unfold bind at 1. unfold attempt at 1. unfold bind at 1.
  rewrite get_access_token_eq.
  set (w1 := record_event (ApiCall (q t) (Responded r1)) w).
  set (ot := token_server env (trace w1)).
  destruct (granted ot) as [t' |] eqn:Hg.
  - unfold bind at 1. unfold update at 1.
    assert (Hne' : PyStr.nonempty t' = true).
    { unfold granted in Hg. destruct ot as [[|] [x|] | ?]; try discriminate.
      destruct (PyStr.nonempty x) eqn:E; [| discriminate].
      injection Hg as <-. exact E. }
    rewrite (do_request_eq q (set_token t' (record_event (TokenFetch ot) w1))
               t' eq_refl Hne').
    unfold send at 1.
    cbn [trace set_token record_event].
    destruct (api_server env (TokenFetch ot :: trace w1) (q t'))
      as [r2 | msg2]; [| reflexivity].
    destruct (status_code r2 =? 401); reflexivity.
  - clear Hg. unfold token_exn.
    destruct ot as [[|] [x|] | ?]; reflexivity.
Qed.

Lemma lookup_finish_eq (wo_key : string) (resp : response) (w : world) :
  lookup_finish wo_key resp w =
  (inr (found resp), set_cache wo_key (found resp) w).
Proof.
  unfold lookup_finish, found, cache_none.
  destruct (negb (ok resp)); [reflexivity |].
  destruct (json_value resp) as [| item rest]; [reflexivity |].
  destruct (item_Id item); reflexivity.
Qed.

(** What a lookup that has to ask the API returns and leaves behind. *)
Lemma lookup_eq (wo_number : string) (w : world) (t : string) :
  token_box w = Some t ->
  PyStr.nonempty t = true ->
  PyStr.nonempty (PyStr.strip wo_number) = true ->
  lookup_cache w !! PyStr.strip wo_number = None ->
  lookup_invoice_by_wo env wo_number w =
  match guarded_outcome
          (GetInvoices (filter_expr_of (PyStr.strip wo_number))) t w with
  | (Failed, w') => (inr None, set_cache (PyStr.strip wo_number) None w')
  | (Answer r, w') =>
      (inr (found r), set_cache (PyStr.strip wo_number) (found r) w')
  | (Raised e, w') => (inl e, w')
  end.
Proof.
  intros Ht Hne Hkey Hmiss.
  unfold lookup_invoice_by_wo. cbv zeta. rewrite Hkey. cbn [negb].
  rewrite Hmiss.
  etransitivity;
    [exact (guarded_request_eq
              (GetInvoices (filter_expr_of (PyStr.strip wo_number)))
              (cache_none (PyStr.strip wo_number))
              (lookup_finish (PyStr.strip wo_number)) w t Ht Hne) |].
  destruct (guarded_outcome _ t w) as [[| r | e] w']; try reflexivity.
  apply lookup_finish_eq.
Qed.

(** What an approval returns and leaves behind. *)
Lemma approve_eq (invoice_id : Z) (category : cell)
    (approval_code : option string) (cat : string) (w : world) (t : string) :
  token_box w = Some t ->
  PyStr.nonempty t = true ->
  category_to_use category = inr cat ->
  approve_invoice env invoice_id category approval_code w =
  match guarded_outcome
          (PutApprove invoice_id (code_to_use approval_code)
                      APPROVAL_COMMENTS_DEFAULT cat) t w with
  | (Failed, w') => (inr false, w')
  | (Answer r, w') => (inr (approval_accepted r), w')
  | (Raised e, w') => (inl e, w')
  end.
Proof.
  intros Ht Hne Hcat.
  unfold approve_invoice. unfold bind at 1. unfold lift. rewrite Hcat.
  etransitivity;
    [exact (guarded_request_eq
              (PutApprove invoice_id (code_to_use approval_code)
                          APPROVAL_COMMENTS_DEFAULT cat)
              (ret false) (fun r => ret (approval_accepted r)) w t Ht Hne) |].
  destruct (guarded_outcome _ t w) as [[| r | e] w']; reflexivity.
Qed.

(** ** One refresh, one retry *)

(** The first answer is 401 and the token endpoint then grants [t']. *)
Definition refreshed_after_401 (q : string -> request) (t t' : string)
    (tr : list event) (r1 : response) : Prop :=
  api_server env tr (q t) = Responded r1
  /\ status_code r1 = 401
  /\ granted (token_server env (ApiCall (q t) (Responded r1) :: tr)) = Some t'.

(** After a 401: the request with the old token, one token fetch, the
    request with the new token, and nothing else; the new token is in
    the box; a second 401 gives the caller's failure value. *)
Definition retried_once {A : Type} (q : string -> request) (t t' : string)
    (r1 : response) (tr : list event) (res : (exn + A) * world)
    (failure : exn + A) : Prop :=
  let ot := token_server env (ApiCall (q t) (Responded r1) :: tr) in
  let o2 := api_server env (TokenFetch ot :: ApiCall (q t) (Responded r1) :: tr)
                       (q t') in
  trace (snd res) =
    ApiCall (q t') o2 :: TokenFetch ot :: ApiCall (q t) (Responded r1) :: tr
  /\ token_box (snd res) = Some t'
  /\ (unauthorized o2 = true -> fst res = failure).

Lemma guarded_outcome_retry (q : string -> request) (t t' : string)
    (w : world) (r1 : response) :
  refreshed_after_401 q t t' (trace w) r1 ->
  let ot := token_server env (ApiCall (q t) (Responded r1) :: trace w) in
  let o2 := api_server env
              (TokenFetch ot :: ApiCall (q t) (Responded r1) :: trace w)
              (q t') in
  guarded_outcome q t w =
  (match o2 with
   | ConnectionFailed _ => Failed
   | Responded r2 => if status_code r2 =? 401 then Failed else Answer r2
   end,
   record_event (ApiCall (q t') o2)
     (set_token t'
        (record_event (TokenFetch ot)
           (record_event (ApiCall (q t) (Responded r1)) w)))).
Proof.
  intros (H1 & H401 & Hg) ot o2. subst ot o2. unfold guarded_outcome.
  rewrite H1. apply Z.eqb_eq in H401. rewrite H401.
  cbn [trace record_event]. rewrite Hg.
  cbn [trace record_event set_token].
  destruct (api_server env _ (q t')) as [r2 | msg]; [| reflexivity].
  destruct (status_code r2 =? 401); reflexivity.
Qed.

Lemma guarded_outcome_once (q : string -> request) (t : string) (w : world) :
  unauthorized (api_server env (trace w) (q t)) = false ->
  guarded_outcome q t w =
  (match api_server env (trace w) (q t) with
   | ConnectionFailed _ => Failed
   | Responded r => Answer r
   end,
   record_event (ApiCall (q t) (api_server env (trace w) (q t))) w).
Proof.
  intros H. unfold guarded_outcome.
  destruct (api_server env (trace w) (q t)) as [r | msg]; [| reflexivity].
  simpl in H. rewrite H. reflexivity.
Qed.

Lemma lookup_retried_once (wo : string) (w : world) (t t' : string)
    (r1 : response) :
  token_box w = Some t ->
  PyStr.nonempty t = true ->
  PyStr.nonempty (PyStr.strip wo) = true ->
  lookup_cache w !! PyStr.strip wo = None ->
  refreshed_after_401 (GetInvoices (filter_expr_of (PyStr.strip wo))) t t'
                      (trace w) r1 ->
  retried_once (GetInvoices (filter_expr_of (PyStr.strip wo))) t t' r1
               (trace w) (lookup_invoice_by_wo env wo w) (inr None).
Proof.
  intros Ht Hne Hkey Hmiss Hsc.
  rewrite (lookup_eq wo w t Ht Hne Hkey Hmiss).
  rewrite (guarded_outcome_retry _ t t' w r1 Hsc).
  unfold retried_once.
  destruct (api_server env _ _) as [r2 | msg]; cbn.
  - destruct (status_code r2 =? 401) eqn:E; cbn; auto.
    repeat split; auto. intros; discriminate.
  - auto.
Qed.

Lemma approve_retried_once (invoice_id : Z) (category : cell)
    (approval_code : option string) (cat : string) (w : world)
    (t t' : string) (r1 : response) :
  token_box w = Some t ->
  PyStr.nonempty t = true ->
  category_to_use category = inr cat ->
  refreshed_after_401
    (PutApprove invoice_id (code_to_use approval_code)
                APPROVAL_COMMENTS_DEFAULT cat) t t' (trace w) r1 ->
  retried_once
    (PutApprove invoice_id (code_to_use approval_code)
                APPROVAL_COMMENTS_DEFAULT cat) t t' r1 (trace w)
    (approve_invoice env invoice_id category approval_code w) (inr false).
Proof.
  intros Ht Hne Hcat Hsc.
  rewrite (approve_eq invoice_id category approval_code cat w t Ht Hne Hcat).
  rewrite (guarded_outcome_retry _ t t' w r1 Hsc).
  unfold retried_once.
  destruct (api_server env _ _) as [r2 | msg]; cbn.
  - destruct (status_code r2 =? 401) eqn:E; cbn; auto.
    repeat split; auto. intros; discriminate.
  - auto.
Qed.

(** A row whose lookup gives nothing is a failure, and the loop goes on
    with the next row. *)
Lemma process_rows_lookup_failed (row : sheet_row) (rest : list sheet_row)
    (s f : nat) (w : world) (trade : string) :
  or_empty_strip (col_trade row) = inr trade ->
  fst (lookup_invoice_by_wo env (py_str repr_float (col_wo row)) w)
    = inr None ->
  process_rows env repr_float (row :: rest) s f w =
  process_rows env repr_float rest s (S f)
    (snd (lookup_invoice_by_wo env (py_str repr_float (col_wo row)) w)).
Proof.
  intros Htrade Hres. cbn [process_rows].
  unfold bind at 1. unfold process_row. unfold bind at 1. unfold lift.
  rewrite Htrade. unfold bind at 1.
  destruct (lookup_invoice_by_wo env _ w) as [res w']. cbn in Hres. subst res.
  reflexivity.
Qed.

(** A row whose approval is refused is a failure, and the loop goes on
    with the next row. *)
Lemma process_rows_approval_failed (row : sheet_row) (rest : list sheet_row)
    (s f : nat) (w w1 : world) (trade : string) (m : invoice_meta) :
  or_empty_strip (col_trade row) = inr trade ->
  lookup_invoice_by_wo env (py_str repr_float (col_wo row)) w
    = (inr (Some m), w1) ->
  fst (approve_invoice env (meta_Id m) (col_category row)
         (meta_ApprovalCode m) w1) = inr false ->
  process_rows env repr_float (row :: rest) s f w =
  process_rows env repr_float rest s (S f)
    (snd (approve_invoice env (meta_Id m) (col_category row)
            (meta_ApprovalCode m) w1)).
Proof.
  intros Htrade Hlook Hres. cbn [process_rows].
  unfold bind at 1. unfold process_row. unfold bind at 1. unfold lift.
  rewrite Htrade. unfold bind at 1. rewrite Hlook. unfold bind at 1.
  destruct (approve_invoice env _ _ _ w1) as [res w']. cbn in Hres. subst res.
  reflexivity.
Qed.

(** A row whose approval is accepted is a success. *)
Lemma process_rows_approval_accepted (row : sheet_row) (rest : list sheet_row)
    (s f : nat) (w w1 : world) (trade : string) (m : invoice_meta) :
  or_empty_strip (col_trade row) = inr trade ->
  lookup_invoice_by_wo env (py_str repr_float (col_wo row)) w
    = (inr (Some m), w1) ->
  fst (approve_invoice env (meta_Id m) (col_category row)
         (meta_ApprovalCode m) w1) = inr true ->
  process_rows env repr_float (row :: rest) s f w =
  process_rows env repr_float rest (S s) f
    (snd (approve_invoice env (meta_Id m) (col_category row)
            (meta_ApprovalCode m) w1)).
Proof.
  intros Htrade Hlook Hres. cbn [process_rows].
  unfold bind at 1. unfold process_row. unfold bind at 1. unfold lift.
  rewrite Htrade. unfold bind at 1. rewrite Hlook. unfold bind at 1.
  destruct (approve_invoice env _ _ _ w1) as [res w']. cbn in Hres. subst res.
  reflexivity.
Qed.

Lemma lookup_asked_once (wo : string) (w : world) (t : string) :
  token_box w = Some t ->
  PyStr.nonempty t = true ->
  PyStr.nonempty (PyStr.strip wo) = true ->
  lookup_cache w !! PyStr.strip wo = None ->
  unauthorized
    (api_server env (trace w)
       (GetInvoices (filter_expr_of (PyStr.strip wo)) t)) = false ->
  trace (snd (lookup_invoice_by_wo env wo w)) =
  ApiCall (GetInvoices (filter_expr_of (PyStr.strip wo)) t)
          (api_server env (trace w)
             (GetInvoices (filter_expr_of (PyStr.strip wo)) t))
  :: trace w.
Proof.
  intros Ht Hne Hkey Hmiss Hno.
  rewrite (lookup_eq wo w t Ht Hne Hkey Hmiss).
  rewrite (guarded_outcome_once _ t w Hno).
  destruct (api_server env _ _); reflexivity.
Qed.

Lemma approve_asked_once (invoice_id : Z) (category : cell)
    (approval_code : option string) (cat : string) (w : world) (t : string) :
  token_box w = Some t ->
  PyStr.nonempty t = true ->
  category_to_use category = inr cat ->
  unauthorized
    (api_server env (trace w)
       (PutApprove invoice_id (code_to_use approval_code)
                   APPROVAL_COMMENTS_DEFAULT cat t)) = false ->
  trace (snd (approve_invoice env invoice_id category approval_code w)) =
  ApiCall (PutApprove invoice_id (code_to_use approval_code)
                      APPROVAL_COMMENTS_DEFAULT cat t)
          (api_server env (trace w)
             (PutApprove invoice_id (code_to_use approval_code)
                         APPROVAL_COMMENTS_DEFAULT cat t))
  :: trace w.
Proof.
  intros Ht Hne Hcat Hno.
  rewrite (approve_eq invoice_id category approval_code cat w t Ht Hne Hcat).
  rewrite (guarded_outcome_once _ t w Hno).
  destruct (api_server env _ _); reflexivity.
Qed.

(** A lookup or an approval sends its request with the token of the
    box.  When the answer is 401 and the token endpoint grants a token,
    exactly one token is fetched and the request is sent exactly once
    more, with the new token; when that answer is 401 too, the lookup
    returns nothing and the approval returns False, with no third
    request.  Such a row adds one to the failures and the loop goes on
    with the rows that follow.  An answer other than 401 is followed
    by no token fetch and no second request. *)
Theorem auth_retry_once :
  (forall wo w t t' r1,
      token_box w = Some t ->
      PyStr.nonempty t = true ->
      PyStr.nonempty (PyStr.strip wo) = true ->
      lookup_cache w !! PyStr.strip wo = None ->
      refreshed_after_401 (GetInvoices (filter_expr_of (PyStr.strip wo)))
                          t t' (trace w) r1 ->
      retried_once (GetInvoices (filter_expr_of (PyStr.strip wo))) t t' r1
                   (trace w) (lookup_invoice_by_wo env wo w) (inr None))
  /\ (forall invoice_id category approval_code cat w t t' r1,
        token_box w = Some t ->
        PyStr.nonempty t = true ->
        category_to_use category = inr cat ->
        refreshed_after_401
          (PutApprove invoice_id (code_to_use approval_code)
                      APPROVAL_COMMENTS_DEFAULT cat) t t' (trace w) r1 ->
        retried_once
          (PutApprove invoice_id (code_to_use approval_code)
                      APPROVAL_COMMENTS_DEFAULT cat) t t' r1 (trace w)
          (approve_invoice env invoice_id category approval_code w)
          (inr false))
  /\ (forall row rest s f w trade,
        or_empty_strip (col_trade row) = inr trade ->
        fst (lookup_invoice_by_wo env (py_str repr_float (col_wo row)) w)
          = inr None ->
        process_rows env repr_float (row :: rest) s f w =
        process_rows env repr_float rest s (S f)
          (snd (lookup_invoice_by_wo env (py_str repr_float (col_wo row)) w)))
  /\ (forall row rest s f w w1 trade m,
        or_empty_strip (col_trade row) = inr trade ->
        lookup_invoice_by_wo env (py_str repr_float (col_wo row)) w
          = (inr (Some m), w1) ->
        fst (approve_invoice env (meta_Id m) (col_category row)
               (meta_ApprovalCode m) w1) = inr false ->
        process_rows env repr_float (row :: rest) s f w =
        process_rows env repr_float rest s (S f)
          (snd (approve_invoice env (meta_Id m) (col_category row)
                  (meta_ApprovalCode m) w1)))
  /\ (forall wo w t,
        token_box w = Some t ->
        PyStr.nonempty t = true ->
        PyStr.nonempty (PyStr.strip wo) = true ->
        lookup_cache w !! PyStr.strip wo = None ->
        unauthorized
          (api_server env (trace w)
             (GetInvoices (filter_expr_of (PyStr.strip wo)) t)) = false ->
        trace (snd (lookup_invoice_by_wo env wo w)) =
        ApiCall (GetInvoices (filter_expr_of (PyStr.strip wo)) t)
                (api_server env (trace w)
                   (GetInvoices (filter_expr_of (PyStr.strip wo)) t))
        :: trace w)
  /\ (forall invoice_id category approval_code cat w t,
        token_box w = Some t ->
        PyStr.nonempty t = true ->
        category_to_use category = inr cat ->
        unauthorized
          (api_server env (trace w)
             (PutApprove invoice_id (code_to_use approval_code)
                         APPROVAL_COMMENTS_DEFAULT cat t)) = false ->
        trace (snd (approve_invoice env invoice_id category approval_code w)) =
        ApiCall (PutApprove invoice_id (code_to_use approval_code)
                            APPROVAL_COMMENTS_DEFAULT cat t)
                (api_server env (trace w)
                   (PutApprove invoice_id (code_to_use approval_code)
                               APPROVAL_COMMENTS_DEFAULT cat t))
        :: trace w).
Proof.
  split; [exact lookup_retried_once |].
  split; [exact approve_retried_once |].
  split; [exact process_rows_lookup_failed |].
  split; [exact process_rows_approval_failed |].
  split; [exact lookup_asked_once | exact approve_asked_once].
Qed.

End ClientFacts.

(** ** A server that answers 401 to everything *)

Definition answer_401 : response :=
  {| status_code := 401; text := "Unauthorized"; json_value := [] |}.

Definition always_401 : environment :=
  {| token_server := fun _ => TokenResponded true (Some "token-2");
     api_server := fun _ _ => Responded answer_401;
     GMAIL_ADDRESS := Some "bot@example.com";
     gmail_api := fun _ => true;
     format_exc := Samples.last_line |}.

Definition stale_world : world := set_token "token-1" (start []).

Lemma auth_retry_once_witness :
  retried_once always_401 (GetInvoices "WoTrackingNumber eq 5001")
    "token-1" "token-2" answer_401 []
    (lookup_invoice_by_wo always_401 " 5001 " stale_world) (inr None).
Proof.
  apply (proj1 (auth_retry_once always_401 Samples.no_floats)
           " 5001 " stale_world "token-1" "token-2" answer_401).
  - reflexivity.
  - reflexivity.
  - reflexivity.
  - apply lookup_empty.
  - repeat split; reflexivity.
Defined.

(** ** The token discipline of a run *)

(** The events of a run (newest first) together with the token in the
    box: the run begins with a token fetch; a request bears the token of
    the box; a later token fetch comes right after an answer 401, and
    puts its token, if it grants one, in the box. *)
Inductive disciplined : list event -> option string -> Prop :=
| d_first (o : token_outcome) :
    disciplined [TokenFetch o] (granted o)
| d_call (tr : list event) (t : string) (q : request) (o : http_outcome) :
    disciplined tr (Some t) ->
    bearer_of q = t ->
    disciplined (ApiCall q o :: tr) (Some t)
| d_refresh (tr : list event) (t : string) (q : request) (r : response)
            (o : token_outcome) :
    disciplined (ApiCall q (Responded r) :: tr) (Some t) ->
    status_code r = 401 ->
    disciplined (TokenFetch o :: ApiCall q (Responded r) :: tr)
                (Some (default t (granted o))).

Lemma granted_nonempty (o : token_outcome) (t : string) :
  granted o = Some t -> PyStr.nonempty t = true.
Proof.
  unfold granted. destruct o as [[|] [x|] | ?]; try discriminate.
  destruct (PyStr.nonempty x) eqn:E; [| discriminate].
  intros [= <-]. exact E.
Qed.

Lemma disciplined_begins (new : list event) (cur : option string) :
  disciplined new cur -> exists rest o, new = (rest ++ [TokenFetch o])%list.
Proof.
  induction 1 as [o | tr t q o _ (rest & o' & ->) _
                    | tr t q r o _ (rest & o' & Heq) _].
  - exists [], o. reflexivity.
  - exists (ApiCall q o :: rest), o'. reflexivity.
  - exists (TokenFetch o :: rest), o'. rewrite Heq. reflexivity.
Qed.

Lemma disciplined_token_fetched (new : list event) (cur : option string) :
  disciplined new cur ->
  forall t, cur = Some t ->
  exists o, In (TokenFetch o) new /\ granted o = Some t.
Proof.
  induction 1 as [o | tr t q o _ IH _ | tr t q r o _ IH _]; intros t0 Hcur.
  - exists o. split; [left; reflexivity | exact Hcur].
  - destruct (IH t0 Hcur) as (o' & Hin & Hg).
    exists o'. split; [right; exact Hin | exact Hg].
  - injection Hcur as Hcur.
    destruct (granted o) as [t' |] eqn:Hg; simpl in Hcur; subst t0.
    + exists o. split; [left; reflexivity | exact Hg].
    + destruct (IH t eq_refl) as (o' & Hin & Hg').
      exists o'. split; [right; exact Hin | exact Hg'].
Qed.

Lemma disciplined_bearers (new : list event) (cur : option string) :
  disciplined new cur ->
  forall q o, In (ApiCall q o) new ->
  exists o', In (TokenFetch o') new /\ granted o' = Some (bearer_of q).
Proof.
  induction 1 as [o | tr t q o Hd IH Hb | tr t q r o Hd IH _];
    intros q0 o0 Hin.
  - destruct Hin as [Hin | []]. discriminate Hin.
  - destruct Hin as [Hin | Hin].
    + injection Hin as <- <-.
      destruct (disciplined_token_fetched _ _ Hd t eq_refl) as (o' & Hin' & Hg).
      exists o'. split; [right; exact Hin' | rewrite Hb; exact Hg].
    + destruct (IH q0 o0 Hin) as (o' & Hin' & Hg).
      exists o'. split; [right; exact Hin' | exact Hg].
  - destruct Hin as [Hin | Hin]; [discriminate Hin |].
    destruct (IH q0 o0 Hin) as (o' & Hin' & Hg).
    exists o'. split; [right; exact Hin' | exact Hg].
Qed.

Lemma disciplined_no_email (new : list event) (cur : option string) :
  disciplined new cur ->
  forall a f r e p d, ~ In (StatusEmail a f r e p d) new.
Proof.
  induction 1 as [o | tr t q o _ IH _ | tr t q r o _ IH _];
    intros a f r0 e p d Hin.
  - destruct Hin as [Hin | []]. discriminate Hin.
  - destruct Hin as [Hin | Hin]; [discriminate Hin |]. exact (IH _ _ _ _ _ _ Hin).
  - destruct Hin as [Hin | Hin]; [discriminate Hin |]. exact (IH _ _ _ _ _ _ Hin).
Qed.

(** The three counters of [run_approvals]. *)
Definition counters (w : world) : nat * nat * nat :=
  (approved_count w, failed_count w, review_count w).

(** A world in the middle of a run that began after [history]. *)
Definition good (history : list event) (w : world) : Prop :=
  exists new t,
    trace w = (new ++ history)%list
    /\ token_box w = Some t
    /\ PyStr.nonempty t = true
    /\ disciplined new (Some t).

Section Invariant.

Variable env : environment.
Variable repr_float : float -> string.

Lemma guarded_good (history : list event) (q : string -> request)
    (t : string) (w : world) :
  (forall x, bearer_of (q x) = x) ->
  token_box w = Some t ->
  good history w ->
  good history (snd (guarded_outcome env q t w))
  /\ counters (snd (guarded_outcome env q t w)) = counters w.
Proof.
  intros Hq Ht (new & t0 & Htr & Ht0 & Hne & Hd).
  rewrite Ht in Ht0. injection Ht0 as <-.
  unfold guarded_outcome.
  destruct (api_server env (trace w) (q t)) as [r1 | msg1] eqn:E1.
  2:{ split; [| reflexivity].
      exists (ApiCall (q t) (ConnectionFailed msg1) :: new), t.
      cbn. rewrite Htr. repeat split; auto.
      apply d_call; auto. }
  destruct (status_code r1 =? 401) eqn:E401.
  2:{ split; [| reflexivity].
      exists (ApiCall (q t) (Responded r1) :: new), t.
      cbn. rewrite Htr. repeat split; auto.
      apply d_call; auto. }
  apply Z.eqb_eq in E401.
  cbn [trace record_event].
  set (ot := token_server env (ApiCall (q t) (Responded r1) :: trace w)).
  assert (Hd2 : disciplined
                  (TokenFetch ot :: ApiCall (q t) (Responded r1) :: new)
                  (Some (default t (granted ot)))).
  { apply d_refresh; [apply d_call; auto | exact E401]. }
  destruct (granted ot) as [t' |] eqn:Hg.
  - cbn [trace record_event set_token].
    set (o2 := api_server env
                 (TokenFetch ot :: ApiCall (q t) (Responded r1) :: trace w)
                 (q t')).
    assert (G : good history
                  (record_event (ApiCall (q t') o2)
                     (set_token t'
                        (record_event (TokenFetch ot)
                           (record_event (ApiCall (q t) (Responded r1)) w))))).
    { exists (ApiCall (q t') o2 :: TokenFetch ot
              :: ApiCall (q t) (Responded r1) :: new), t'.
      cbn. rewrite Htr. repeat split; auto.
      - exact (granted_nonempty _ _ Hg).
      - apply d_call; [exact Hd2 | apply Hq]. }
    destruct o2 as [r2 | msg2]; [| split; [exact G | reflexivity]].
    destruct (status_code r2 =? 401); split; try exact G; reflexivity.
  - assert (G : good history
                  (record_event (TokenFetch ot)
                     (record_event (ApiCall (q t) (Responded r1)) w))).
    { exists (TokenFetch ot :: ApiCall (q t) (Responded r1) :: new), t.
      cbn. rewrite Htr. repeat split; auto. }
    destruct ot as [b a | msg]; split; try exact G; reflexivity.
Qed.

Lemma lookup_good (history : list event) (wo : string) (w : world) :
  good history w ->
  good history (snd (lookup_invoice_by_wo env wo w))
  /\ counters (snd (lookup_invoice_by_wo env wo w)) = counters w.
Proof.
  intros G.
  destruct (PyStr.nonempty (PyStr.strip wo)) eqn:Hkey.
  2:{ unfold lookup_invoice_by_wo. cbv zeta. rewrite Hkey.
      split; [exact G | reflexivity]. }
  destruct (lookup_cache w !! PyStr.strip wo) as [cached |] eqn:Hc.
  { unfold lookup_invoice_by_wo. cbv zeta. rewrite Hkey. cbn [negb].
    rewrite Hc. split; [exact G | reflexivity]. }
  destruct G as (new & t & Htr & Ht & Hne & Hd).
  rewrite (lookup_eq env wo w t Ht Hne Hkey Hc).
  destruct (guarded_good history
              (GetInvoices (filter_expr_of (PyStr.strip wo))) t w
              (fun _ => eq_refl) Ht
              (ex_intro _ new (ex_intro _ t (conj Htr (conj Ht (conj Hne Hd))))))
    as [G' C'].
  destruct (guarded_outcome env _ t w) as [[| r | e] w']; cbn in *;
    split; auto.
Qed.

Lemma approve_good (history : list event) (invoice_id : Z) (category : cell)
    (approval_code : option string) (w : world) :
  good history w ->
  good history (snd (approve_invoice env invoice_id category approval_code w))
  /\ counters (snd (approve_invoice env invoice_id category approval_code w))
     = counters w.
Proof.
  intros G.
  destruct (category_to_use category) as [e | cat] eqn:Hcat.
  { unfold approve_invoice. unfold bind at 1. unfold lift. rewrite Hcat.
    split; [exact G | reflexivity]. }
  destruct G as (new & t & Htr & Ht & Hne & Hd).
  rewrite (approve_eq env invoice_id category approval_code cat w t Ht Hne Hcat).
  destruct (guarded_good history
              (PutApprove invoice_id (code_to_use approval_code)
                          APPROVAL_COMMENTS_DEFAULT cat) t w
              (fun _ => eq_refl) Ht
              (ex_intro _ new (ex_intro _ t (conj Htr (conj Ht (conj Hne Hd))))))
    as [G' C'].
  destruct (guarded_outcome env _ t w) as [[| r | e] w']; cbn in *;
    split; auto.
Qed.

Lemma process_row_good (history : list event) (row : sheet_row)
    (s f : nat) (w : world) :
  good history w ->
  good history (snd (process_row env repr_float row s f w))
  /\ counters (snd (process_row env repr_float row s f w)) = counters w
  /\ (forall s' f',
        fst (process_row env repr_float row s f w) = inr (s', f') ->
        (s' = S s /\ f' = f) \/ (s' = s /\ f' = S f)).
Proof.
  intros G. unfold process_row, bind, lift, ret.
  destruct (or_empty_strip (col_trade row)) as [e | trade].
  { cbn [fst snd].
    split; [exact G | split; [reflexivity | intros s' f' H; discriminate H]]. }
  destruct (lookup_good history (py_str repr_float (col_wo row)) w G)
    as [G1 C1].
  destruct (lookup_invoice_by_wo env (py_str repr_float (col_wo row)) w)
    as [[e | [m |]] w1]; cbn [fst snd] in *.
  - split; [exact G1 | split; [exact C1 | intros s' f' H; discriminate H]].
  - destruct (approve_good history (meta_Id m) (col_category row)
                (meta_ApprovalCode m) w1 G1) as [G2 C2].
    destruct (approve_invoice env (meta_Id m) (col_category row)
                (meta_ApprovalCode m) w1) as [[e | [|]] w2];
      cbn [fst snd] in *; (split; [exact G2 |]);
      (split; [congruence |]); intros s' f' H.
    + discriminate H.
    + injection H as <- <-. left. auto.
    + injection H as <- <-. right. auto.
  - split; [exact G1 | split; [exact C1 |]].
    intros s' f' H. injection H as <- <-. right. auto.
Qed.

Lemma process_rows_good (history : list event) (rows : list sheet_row) :
  forall (s f : nat) (w : world),
    good history w ->
    good history (snd (process_rows env repr_float rows s f w))
    /\ counters (snd (process_rows env repr_float rows s f w)) = counters w
    /\ (forall s' f',
          fst (process_rows env repr_float rows s f w) = inr (s', f') ->
          (s' + f' = s + f + length rows)%nat /\ (s <= s')%nat /\ (f <= f')%nat).
Proof.
  induction rows as [| row rest IH]; intros s f w G.
  - cbn [process_rows ret fst snd length].
    split; [exact G | split; [reflexivity |]].
    intros s' f' H. injection H as <- <-. lia.
  - cbn [process_rows]. unfold bind.
    destruct (process_row_good history row s f w G) as (G1 & C1 & R1).
    destruct (process_row env repr_float row s f w) as [[e | [s1 f1]] w1];
      cbn [fst snd] in *.
    + split; [exact G1 | split; [exact C1 | intros s' f' H; discriminate H]].
    + destruct (IH s1 f1 w1 G1) as (G2 & C2 & R2).
      split; [exact G2 |]. split; [congruence |].
      intros s' f' H. specialize (R2 s' f' H).
      destruct (R1 s1 f1 eq_refl) as [[-> ->] | [-> ->]]; cbn [length]; lia.
Qed.

(** The world right after the token fetch that opens a run. *)
Definition opened (history : list event) (t : string) : world :=
  set_token t
    (record_event (TokenFetch (token_server env history)) (start history)).

Lemma opened_good (history : list event) (t : string) :
  granted (token_server env history) = Some t ->
  good history (opened history t).
Proof.
  intros Hg. exists [TokenFetch (token_server env history)], t.
  split; [reflexivity |]. split; [reflexivity |].
  split; [exact (granted_nonempty _ _ Hg) |].
  rewrite <- Hg. apply d_first.
Qed.

(** The [try] block, case by case. *)
Lemma try_block_no_token (sheet : option (list sheet_row))
    (history : list event) :
  granted (token_server env history) = None ->
  try_block env repr_float sheet (start history) =
  (inl (token_exn (token_server env history)),
   record_event (TokenFetch (token_server env history)) (start history)).
Proof.
  intros Hg. unfold try_block. unfold bind at 1.
  rewrite get_access_token_eq. cbn [trace start]. rewrite Hg. reflexivity.
Qed.

Lemma try_block_no_sheet (history : list event) (t : string) :
  granted (token_server env history) = Some t ->
  try_block env repr_float None (start history) =
  (inl (ValueError "Worksheet named 'Rate_Comps' not found"), opened history t).
Proof.
  intros Hg. unfold try_block. unfold bind at 1.
  rewrite get_access_token_eq. cbn [trace start]. rewrite Hg. reflexivity.
Qed.

Lemma try_block_rows (rows : list sheet_row) (history : list event)
    (t : string) :
  granted (token_server env history) = Some t ->
  try_block env repr_float (Some rows) (start history) =
  let w1 :=
    set_review
      (length (List.filter (fun r => negb (is_approved repr_float r)) rows))
      (opened history t) in
  match List.filter (is_approved repr_float) rows with
  | [] => (inr tt, w1)
  | to_approve =>
      match process_rows env repr_float to_approve 0 0 w1 with
      | (inl e, w2) => (inl e, w2)
      | (inr counts, w2) =>
          (inr tt, set_failed (snd counts) (set_approved (fst counts) w2))
      end
  end.
Proof.
  intros Hg. unfold try_block. unfold bind at 1.
  rewrite get_access_token_eq. cbn [trace start]. rewrite Hg.
  unfold bind at 1. unfold update at 1. unfold bind at 1. unfold lift.
  cbn [load_rate_comps]. unfold bind at 1. unfold update at 1.
  fold (opened history t).
  destruct (List.filter (is_approved repr_float) rows) as [| r0 rest];
    [reflexivity |].
  unfold bind at 1.
  destruct (process_rows env repr_float (r0 :: rest) 0 0 _) as [[e | c] w2];
    reflexivity.
Qed.

End Invariant.

End ApproverFacts.

(* ===================================================================== *)
(** * A whole run of [run_approvals] *)
(* ===================================================================== *)

Module RunFacts.
Import Approver ApproverFacts.

Section Run.

Variable env : environment.
Variable repr_float : float -> string.

Lemma good_counters_only (history : list event) (w w' : world) :
  good history w ->
  trace w' = trace w ->
  token_box w' = token_box w ->
  good history w'.
Proof.
  intros (new & t & Htr & Ht & Hne & Hd) E1 E2.
  exists new, t. rewrite E1, E2. auto.
Qed.

(** The events a [try] block adds to the history obey the token
    discipline. *)
Lemma try_block_disciplined (sheet : option (list sheet_row))
    (history : list event) :
  exists new cur,
    trace (snd (try_block env repr_float sheet (start history)))
      = (new ++ history)%list
    /\ disciplined new cur.
Proof.
  destruct (granted (token_server env history)) as [t |] eqn:Hg.
  2:{ rewrite (try_block_no_token env repr_float sheet history Hg).
      exists [TokenFetch (token_server env history)], None.
      split; [reflexivity |]. rewrite <- Hg. apply d_first. }
  assert (G0 := opened_good env history t Hg).
  assert (Hfin : forall w, good history w ->
                 exists new cur, trace w = (new ++ history)%list
                                 /\ disciplined new cur).
  { intros w (new & t' & Htr & _ & _ & Hd). eauto. }
  destruct sheet as [rows |].
  2:{ rewrite (try_block_no_sheet env repr_float history t Hg).
      apply Hfin, G0. }
  rewrite (try_block_rows env repr_float rows history t Hg). cbv zeta.
  set (w1 := set_review _ (opened env history t)).
  assert (G1 : good history w1) by exact G0.
  destruct (List.filter (is_approved repr_float) rows) as [| r0 rest].
  { apply Hfin, G1. }
  destruct (process_rows_good env repr_float history (r0 :: rest) 0 0 w1 G1)
    as (G2 & _ & _).
  destruct (process_rows env repr_float (r0 :: rest) 0 0 w1)
    as [[e | c] w2]; cbn [fst snd] in *; apply Hfin.
  - exact G2.
  - exact G2.
Qed.

(** What [send_status_email] adds. *)
Definition mail_of (file : string) (res : exn + unit) (w : world)
    : list event :=
  match GMAIL_ADDRESS env with
  | Some addr =>
      if PyStr.nonempty addr
      then [StatusEmail (approved_count w) (failed_count w) (review_count w)
                        (error_text_of env res) file (gmail_api env (trace w))]
      else []
  | None => []
  end.

Lemma run_approvals_eq (file : string) (sheet : option (list sheet_row))
    (history : list event) :
  let res := try_block env repr_float sheet (start history) in
  trace (run_approvals env repr_float file sheet history)
    = (mail_of file (fst res) (snd res) ++ trace (snd res))%list
  /\ counters (run_approvals env repr_float file sheet history)
     = counters (snd res)
  /\ token_box (run_approvals env repr_float file sheet history)
     = token_box (snd res).
Proof.
  cbv zeta. unfold run_approvals, mail_of, send_status_email.
  destruct (try_block env repr_float sheet (start history)) as [r w].
  cbn [fst snd].
  destruct (GMAIL_ADDRESS env) as [addr |]; [| auto].
  destruct (PyStr.nonempty addr); auto.
Qed.

(** A run begins by fetching a token, whatever the sheet holds; every
    request of the run bears a token fetched earlier in the same run;
    a later token fetch comes right after an answer 401; the status
    e-mail, if any, is the last event. *)
Theorem run_token_discipline (file : string)
    (sheet : option (list sheet_row)) (history : list event) :
  exists mail new cur,
    trace (run_approvals env repr_float file sheet history)
      = (mail ++ new ++ history)%list
    /\ disciplined new cur
    /\ (exists rest o, new = (rest ++ [TokenFetch o])%list)
    /\ (forall q o, In (ApiCall q o) new ->
        exists o', In (TokenFetch o') new /\ granted o' = Some (bearer_of q))
    /\ (mail = [] \/ exists a f r e d, mail = [StatusEmail a f r e file d]).
Proof.
  destruct (try_block_disciplined sheet history) as (new & cur & Htr & Hd).
  destruct (run_approvals_eq file sheet history) as (Hrun & _ & _).
  cbv zeta in Hrun.
  exists (mail_of file (fst (try_block env repr_float sheet (start history)))
                  (snd (try_block env repr_float sheet (start history)))),
    new, cur.
  split; [rewrite Hrun, Htr; reflexivity |].
  split; [exact Hd |].
  split; [exact (disciplined_begins new cur Hd) |].
  split; [exact (disciplined_bearers new cur Hd) |].
  unfold mail_of. destruct (GMAIL_ADDRESS env) as [addr |]; [| left; reflexivity].
  destruct (PyStr.nonempty addr); [right; eauto 10 | left; reflexivity].
Qed.

(** With GMAIL_ADDRESS set, a run ends, whatever happened in the try
    block, with one attempt to send the status e-mail: the attempt is
    the newest event; it carries the three counters as they stand, the
    traceback of the exception if one was caught, and the workbook; it
    is delivered exactly when the Gmail API accepts it, a failure being
    printed and not raised; no other e-mail is attempted during the
    run.  The exception caught for a workbook without the sheet is the
    [ValueError] of [read_excel]. *)
Theorem status_email_always_attempted (file : string)
    (sheet : option (list sheet_row)) (history : list event) (addr : string) :
  GMAIL_ADDRESS env = Some addr ->
  PyStr.nonempty addr = true ->
  let res := try_block env repr_float sheet (start history) in
  let final := run_approvals env repr_float file sheet history in
  (exists delivered,
      trace final =
        StatusEmail (approved_count final) (failed_count final)
                    (review_count final)
                    (match fst res with
                     | inl e => Some (format_exc env e)
                     | inr _ => None
                     end)
                    file delivered
        :: trace (snd res)
      /\ delivered = gmail_api env (trace (snd res)))
  /\ counters final = counters (snd res)
  /\ (exists new,
        trace (snd res) = (new ++ history)%list
        /\ forall a f r e p d, ~ In (StatusEmail a f r e p d) new)
  /\ (forall t,
        sheet = None ->
        granted (token_server env history) = Some t ->
        fst res = inl (ValueError "Worksheet named 'Rate_Comps' not found")).
Proof.
  intros Haddr Hne res final.
  destruct (run_approvals_eq file sheet history) as (Hrun & Hc & _).
  fold res in Hrun, Hc. fold final in Hrun, Hc.
  split.
  { exists (gmail_api env (trace (snd res))). split; [| reflexivity].
    pose proof Hc as Hc'.
    unfold counters in Hc'. injection Hc' as Ha Hf Hr.
    rewrite Hrun. unfold mail_of. rewrite Haddr, Hne, Ha, Hf, Hr.
    unfold error_text_of. destruct (fst res); reflexivity. }
  split; [exact Hc |].
  split.
  { destruct (try_block_disciplined sheet history) as (new & cur & Htr & Hd).
    exists new. split; [exact Htr |]. exact (disciplined_no_email new cur Hd). }
  intros t -> Hg. subst res.
  rewrite (try_block_no_sheet env repr_float history t Hg). reflexivity.
Qed.

(** Without GMAIL_ADDRESS (unset or empty) a run sends no e-mail. *)
Theorem status_email_skipped (file : string)
    (sheet : option (list sheet_row)) (history : list event) :
  (GMAIL_ADDRESS env = None \/ GMAIL_ADDRESS env = Some "") ->
  exists new,
    trace (run_approvals env repr_float file sheet history)
      = (new ++ history)%list
    /\ forall a f r e p d, ~ In (StatusEmail a f r e p d) new.
Proof.
  intros Hno.
  destruct (run_approvals_eq file sheet history) as (Hrun & _ & _).
  cbv zeta in Hrun.
  destruct (try_block_disciplined sheet history) as (new & cur & Htr & Hd).
  exists new. split; [| exact (disciplined_no_email new cur Hd)].
  rewrite Hrun, Htr. unfold mail_of.
  destruct Hno as [-> | ->]; reflexivity.
Qed.

Lemma run_counts (file : string) (rows : list sheet_row)
    (history : list event) :
  fst (try_block env repr_float (Some rows) (start history)) = inr tt ->
  let final := run_approvals env repr_float file (Some rows) history in
  review_count final
    = length (List.filter (fun r => negb (is_approved repr_float r)) rows)
  /\ (approved_count final + failed_count final
      = length (List.filter (is_approved repr_float) rows))%nat
  /\ (approved_count final + failed_count final + review_count final
      = length rows)%nat.
Proof.
  intros Hok final.
  destruct (run_approvals_eq file (Some rows) history) as (_ & Hc & _).
  cbv zeta in Hc. fold final in Hc.
  unfold counters in Hc. injection Hc as Ha Hf Hr. rewrite Ha, Hf, Hr.
  clear final Ha Hf Hr.
  destruct (granted (token_server env history)) as [t |] eqn:Hg.
  2:{ rewrite (try_block_no_token env repr_float _ history Hg) in Hok.
      discriminate Hok. }
  rewrite (try_block_rows env repr_float rows history t Hg) in *.
  cbv zeta in *.
  set (n := length (List.filter (fun r => negb (is_approved repr_float r)) rows))
    in *.
  assert (Hpart : (length (List.filter (is_approved repr_float) rows) + n
                   = length rows)%nat) by apply List.filter_length.
  set (w1 := set_review n (opened env history t)) in *.
  assert (G1 : good history w1) by exact (opened_good env history t Hg).
  destruct (List.filter (is_approved repr_float) rows) as [| r0 rest].
  { cbn in *. lia. }
  destruct (process_rows_good env repr_float history (r0 :: rest) 0 0 w1 G1)
    as (_ & C2 & R2).
  destruct (process_rows env repr_float (r0 :: rest) 0 0 w1)
    as [[e | [s f]] w2]; cbn [fst snd] in *; [discriminate Hok |].
  destruct (R2 s f eq_refl) as (Hsum & _ & _).
  unfold counters in C2. injection C2 as _ _ C2.
  cbn [approved_count failed_count review_count set_failed set_approved].
  rewrite C2. cbn [review_count w1 set_review]. 
  cbn [review_count set_review] in *. lia.
Qed.

(** A run that ends without an exception has counted every row once:
    the rows whose status is not Approved are the needs-review count,
    the others are split between approved and failed. *)
Theorem run_counts_every_row (file : string) (rows : list sheet_row)
    (history : list event) :
  fst (try_block env repr_float (Some rows) (start history)) = inr tt ->
  let final := run_approvals env repr_float file (Some rows) history in
  review_count final
    = length (List.filter (fun r => negb (is_approved repr_float r)) rows)
  /\ (approved_count final + failed_count final
      = length (List.filter (is_approved repr_float) rows))%nat
  /\ (approved_count final + failed_count final + review_count final
      = length rows)%nat.
Proof. exact (run_counts file rows history). Qed.

Lemma aborted_counts (file : string)
    (sheet : option (list sheet_row)) (history : list event) (e : exn) :
  fst (try_block env repr_float sheet (start history)) = inl e ->
  let final := run_approvals env repr_float file sheet history in
  approved_count final = 0%nat /\ failed_count final = 0%nat.
Proof.
  intros Herr final.
  destruct (run_approvals_eq file sheet history) as (_ & Hc & _).
  cbv zeta in Hc. fold final in Hc.
  unfold counters in Hc. injection Hc as Ha Hf _. rewrite Ha, Hf.
  clear final Ha Hf.
  destruct (granted (token_server env history)) as [t |] eqn:Hg.
  2:{ rewrite (try_block_no_token env repr_float _ history Hg).
      split; reflexivity. }
  destruct sheet as [rows |].
  2:{ rewrite (try_block_no_sheet env repr_float history t Hg).
      split; reflexivity. }
  rewrite (try_block_rows env repr_float rows history t Hg) in *.
  cbv zeta in *.
  set (w1 := set_review _ (opened env history t)) in *.
  assert (G1 : good history w1) by exact (opened_good env history t Hg).
  destruct (List.filter (is_approved repr_float) rows) as [| r0 rest].
  { discriminate Herr. }
  destruct (process_rows_good env repr_float history (r0 :: rest) 0 0 w1 G1)
    as (_ & C2 & _).
  destruct (process_rows env repr_float (r0 :: rest) 0 0 w1)
    as [[e' | c] w2]; cbn [fst snd] in *; [| discriminate Herr].
  unfold counters in C2. injection C2 as Ca Cf _.
  rewrite Ca, Cf. split; reflexivity.
Qed.

(** A run cut short by an exception reports 0 approved and 0 failed,
    whatever was approved before the exception. *)
Theorem aborted_run_reports_zero (file : string)
    (sheet : option (list sheet_row)) (history : list event) (e : exn) :
  fst (try_block env repr_float sheet (start history)) = inl e ->
  let final := run_approvals env repr_float file sheet history in
  approved_count final = 0%nat /\ failed_count final = 0%nat.
Proof. exact (aborted_counts file sheet history e). Qed.

(** When no row is Approved the run asks the API nothing: its only
    event before the e-mail is the opening token fetch. *)
Theorem nothing_to_approve (rows : list sheet_row) (history : list event) :
  List.filter (is_approved repr_float) rows = [] ->
  let res := try_block env repr_float (Some rows) (start history) in
  trace (snd res) = TokenFetch (token_server env history) :: history
  /\ approved_count (snd res) = 0%nat
  /\ failed_count (snd res) = 0%nat
  /\ (forall t, granted (token_server env history) = Some t ->
      fst res = inr tt /\ review_count (snd res) = length rows).
Proof.
  intros Hnone res. subst res.
  destruct (granted (token_server env history)) as [t |] eqn:Hg.
  2:{ rewrite (try_block_no_token env repr_float _ history Hg).
      repeat split; intros; discriminate. }
  rewrite (try_block_rows env repr_float rows history t Hg). cbv zeta.
  rewrite Hnone. cbn [fst snd].
  split; [reflexivity |]. split; [reflexivity |]. split; [reflexivity |].
  intros t' _. split; [reflexivity |].
  cbn [review_count set_review].
  rewrite <- (List.filter_length (is_approved repr_float) rows), Hnone.
  reflexivity.
Qed.

End Run.

End RunFacts.

(** ** Sample runs *)

Module RunSamples.
Import Approver ApproverFacts RunFacts.

Definition invoice_77 : api_item :=
  {| item_Id := Some 77; item_Trade := Some "LANDSCAPING";
     item_ApprovalCode := None; item_Number := Some "INV-77" |}.

(** A server that finds every work order and accepts every approval. *)
Definition friendly : environment :=
  {| token_server := fun _ => TokenResponded true (Some "token-1");
     api_server := fun _ q =>
       match q with
       | GetInvoices _ _ =>
           Responded {| status_code := 200; text := "";
                        json_value := [invoice_77] |}
       | PutApprove _ _ _ _ _ =>
           Responded {| status_code := 204; text := ""; json_value := [] |}
       end;
     GMAIL_ADDRESS := Some "bot@example.com";
     gmail_api := fun _ => true;
     format_exc := Samples.last_line |}.

(** The same server on a machine without GMAIL_ADDRESS. *)
Definition silent : environment :=
  {| token_server := token_server friendly;
     api_server := api_server friendly;
     GMAIL_ADDRESS := None;
     gmail_api := fun _ => true;
     format_exc := Samples.last_line |}.

Definition sheet_line (wo : Z) (trade status : cell) : sheet_row :=
  {| col_location_id := CInt 100; col_wo := CInt wo;
     col_category := CText "Maintenance"; col_trade := trade;
     col_invoice_number := CText "INV-77"; col_inv_status := CText "Open";
     col_inv_total := CNum 1000; col_labor := CNum 1000;
     col_sales_tax := CNum 0; col_contracted_rate := CNum 1000;
     col_rate_difference := CNum 0; col_approval_status := status |}.

(** Two rows to approve and one to review. *)
Definition mixed_sheet : list sheet_row :=
  [sheet_line 5001 (CText "LANDSCAPING") (CText "Approved");
   sheet_line 5002 (CText "LANDSCAPING") (CText "Review");
   sheet_line 5003 (CText "LANDSCAPING") (CText " approved ")].

(** A row to approve, then a row to approve whose Trade cell is empty. *)
Definition blank_trade_sheet : list sheet_row :=
  [sheet_line 5001 (CText "LANDSCAPING") (CText "Approved");
   sheet_line 5002 CBlank (CText "Approved")].

Definition review_only_sheet : list sheet_row :=
  [sheet_line 5001 (CText "LANDSCAPING") (CText "Review");
   sheet_line 5002 (CText "LANDSCAPING") CBlank].

(** A row to approve. *)
Definition approved_line (wo : Z) : sheet_row :=
  sheet_line wo (CText "LANDSCAPING") (CText "Approved").

Definition two_approved : list sheet_row :=
  [approved_line 5001; approved_line 5002].

End RunSamples.

Module RunWitnesses.
Import Approver ApproverFacts RunFacts RunSamples.

(** The Gmail API of [friendly], out of order. *)
Definition gmail_down : environment :=
  {| token_server := token_server friendly;
     api_server := api_server friendly;
     GMAIL_ADDRESS := GMAIL_ADDRESS friendly;
     gmail_api := fun _ => false;
     format_exc := Samples.last_line |}.

(** A run cut short by an empty Trade cell, with Gmail out of order:
    the e-mail is attempted with the traceback, and not delivered. *)
Lemma status_email_always_attempted_witness :
  exists earlier,
    trace (run_approvals gmail_down Samples.no_floats "wb.xlsx"
             (Some blank_trade_sheet) [])
    = StatusEmail 0 0 0
        (Some "AttributeError: 'float' object has no attribute 'strip'")
        "wb.xlsx" false :: earlier.
Proof.
  destruct (status_email_always_attempted gmail_down Samples.no_floats
              "wb.xlsx" (Some blank_trade_sheet) [] "bot@example.com"
              eq_refl eq_refl) as ((delivered & Htr & Hd) & _).
  eexists. rewrite Htr, Hd. reflexivity.
Defined.

(** The same run with Gmail in order, and a run on a workbook without
    the sheet. *)
Example status_email_delivered :
  exists earlier,
    trace (run_approvals friendly Samples.no_floats "wb.xlsx"
             (Some blank_trade_sheet) [])
    = StatusEmail 0 0 0
        (Some "AttributeError: 'float' object has no attribute 'strip'")
        "wb.xlsx" true :: earlier.
Proof. eexists. vm_compute. reflexivity. Qed.

Example status_email_missing_sheet :
  trace (run_approvals friendly Samples.no_floats "wb.xlsx" None [])
  = [StatusEmail 0 0 0
       (Some "ValueError: Worksheet named 'Rate_Comps' not found")
       "wb.xlsx" true;
     TokenFetch (TokenResponded true (Some "token-1"))].
Proof. vm_compute. reflexivity. Qed.

Lemma status_email_skipped_witness :
  exists new,
    trace (run_approvals silent Samples.no_floats "wb.xlsx"
             (Some mixed_sheet) []) = (new ++ [])%list
    /\ forall a f r e p d, ~ In (StatusEmail a f r e p d) new.
Proof.
  exact (status_email_skipped silent Samples.no_floats "wb.xlsx"
           (Some mixed_sheet) [] (or_introl eq_refl)).
Defined.

Lemma run_counts_every_row_witness :
  review_count (run_approvals friendly Samples.no_floats "wb.xlsx"
                  (Some mixed_sheet) []) = 1%nat
  /\ (approved_count (run_approvals friendly Samples.no_floats "wb.xlsx"
                        (Some mixed_sheet) [])
      + failed_count (run_approvals friendly Samples.no_floats "wb.xlsx"
                        (Some mixed_sheet) []) = 2)%nat
  /\ (approved_count (run_approvals friendly Samples.no_floats "wb.xlsx"
                        (Some mixed_sheet) [])
      + failed_count (run_approvals friendly Samples.no_floats "wb.xlsx"
                        (Some mixed_sheet) [])
      + review_count (run_approvals friendly Samples.no_floats "wb.xlsx"
                        (Some mixed_sheet) []) = 3)%nat.
Proof.
  exact (run_counts_every_row friendly Samples.no_floats "wb.xlsx"
           mixed_sheet [] eq_refl).
Defined.

Lemma aborted_run_reports_zero_witness :
  approved_count (run_approvals friendly Samples.no_floats "wb.xlsx"
                    (Some blank_trade_sheet) []) = 0%nat
  /\ failed_count (run_approvals friendly Samples.no_floats "wb.xlsx"
                     (Some blank_trade_sheet) []) = 0%nat.
Proof.
  exact (aborted_run_reports_zero friendly Samples.no_floats "wb.xlsx"
           (Some blank_trade_sheet) []
           (AttributeError "'float' object has no attribute 'strip'")
           eq_refl).
Defined.

(** In that run the first invoice had been approved before the
    exception. *)
Example aborted_after_an_approval :
  In (ApiCall (PutApprove 77 APPROVAL_CODE_DEFAULT APPROVAL_COMMENTS_DEFAULT
                          "MAINTENANCE" "token-1")
              (Responded {| status_code := 204; text := "";
                            json_value := [] |}))
     (trace (run_approvals friendly Samples.no_floats "wb.xlsx"
               (Some blank_trade_sheet) [])).
Proof. vm_compute. right. left. reflexivity. Qed.

Lemma nothing_to_approve_witness :
  trace (snd (try_block friendly Samples.no_floats (Some review_only_sheet)
                (start [])))
  = [TokenFetch (TokenResponded true (Some "token-1"))]
  /\ review_count (snd (try_block friendly Samples.no_floats
                          (Some review_only_sheet) (start []))) = 2%nat.
Proof.
  pose proof (nothing_to_approve friendly Samples.no_floats
                review_only_sheet [] eq_refl) as H.
  cbv zeta in H. destruct H as (Htr & _ & _ & Hrev).
  split; [exact Htr |].
  exact (proj2 (Hrev "token-1" eq_refl)).
Defined.

End RunWitnesses.

(* ===================================================================== *)
(** * The client, function by function *)
(* ===================================================================== *)

Module ClientExtras.
Import Approver ApproverFacts.
Local Open Scope approver_scope.

Section Client.

Variable env : environment.
Variable repr_float : float -> string.

(** ** The token endpoint and the token box *)

(** [get_access_token] calls the token endpoint once and touches nothing
    else; the token it returns is never empty; it raises
    [RequestException] exactly when the connection fails and
    [RuntimeError] when the answer is not OK or carries no token. *)
Theorem get_access_token_spec (w : world) :
  let o := token_server env (trace w) in
  let res := get_access_token env w in
  snd res = record_event (TokenFetch o) w
  /\ (forall t, fst res = inr t ->
      PyStr.nonempty t = true /\ o = TokenResponded true (Some t))
  /\ (forall msg, fst res = inl (RequestException msg) <->
      o = TokenConnectionFailed msg)
  /\ (forall msg, fst res = inl (RuntimeError msg) ->
      exists ok_flag body, o = TokenResponded ok_flag body
                           /\ granted o = None).
Proof.
  cbv zeta. rewrite get_access_token_eq. cbn [fst snd].
  split; [reflexivity |].
  destruct (token_server env (trace w)) as [[|] [t0|] | m]; cbn.
  - destruct (PyStr.nonempty t0) eqn:E; cbn.
    + split; [intros t [= <-]; auto |].
      split; [intros msg; split; discriminate |]. intros msg H. discriminate H.
    + split; [intros t H; discriminate H |].
      split; [intros msg; split; discriminate |]. intros msg _. eauto.
  - split; [intros t H; discriminate H |].
    split; [intros msg; split; discriminate |]. intros msg _. eauto.
  - split; [intros t H; discriminate H |].
    split; [intros msg; split; discriminate |]. intros msg _. eauto.
  - split; [intros t H; discriminate H |].
    split; [intros msg; split; discriminate |]. intros msg _. eauto.
  - split; [intros t H; discriminate H |].
    split; [intros msg; split; intros [= <-]; reflexivity |].
    intros msg H. discriminate H.
Qed.

Lemma get_or_refresh_token_held (w : world) (t : string) :
  token_box w = Some t ->
  PyStr.nonempty t = true ->
  get_or_refresh_token env w = (inr t, w).
Proof.
  intros Ht Hne. unfold get_or_refresh_token. rewrite Ht, Hne. reflexivity.
Qed.

Lemma get_or_refresh_token_empty (w : world) :
  token_box w = None \/ token_box w = Some "" ->
  get_or_refresh_token env w =
  match granted (token_server env (trace w)) with
  | Some t =>
      (inr t,
       set_token t (record_event (TokenFetch (token_server env (trace w))) w))
  | None =>
      (inl (token_exn (token_server env (trace w))),
       record_event (TokenFetch (token_server env (trace w))) w)
  end.
Proof.
  intros H. unfold get_or_refresh_token.
  assert (E : (t' <- get_access_token env ;; update (set_token t') ;; ret t') w
              = match granted (token_server env (trace w)) with
                | Some t =>
                    (inr t,
                     set_token t
                       (record_event
                          (TokenFetch (token_server env (trace w))) w))
                | None =>
                    (inl (token_exn (token_server env (trace w))),
                     record_event (TokenFetch (token_server env (trace w))) w)
                end).
  { unfold bind at 1. rewrite get_access_token_eq.
    destruct (granted (token_server env (trace w))); reflexivity. }
  destruct H as [-> | ->]; exact E.
Qed.

Lemma token_box_cases (w : world) :
  (exists t, token_box w = Some t /\ PyStr.nonempty t = true)
  \/ token_box w = None \/ token_box w = Some "".
Proof.
  destruct (token_box w) as [[| c s] |]; eauto.
Qed.

Lemma get_or_refresh_token_facts :
  (forall w t,
      token_box w = Some t -> PyStr.nonempty t = true ->
      get_or_refresh_token env w = (inr t, w))
  /\ (forall w,
        token_box w = None \/ token_box w = Some "" ->
        trace (snd (get_or_refresh_token env w))
          = TokenFetch (token_server env (trace w)) :: trace w)
  /\ (forall w t w',
        get_or_refresh_token env w = (inr t, w') ->
        token_box w' = Some t
        /\ PyStr.nonempty t = true
        /\ get_or_refresh_token env w' = (inr t, w'))
  /\ (forall w e w',
        get_or_refresh_token env w = (inl e, w') ->
        token_box w' = token_box w).
Proof.
  split; [exact get_or_refresh_token_held |].
  split.
  { intros w H. rewrite (get_or_refresh_token_empty w H).
    destruct (granted (token_server env (trace w))); reflexivity. }
  split.
  - intros w t w' H.
    assert (Hbox : token_box w' = Some t /\ PyStr.nonempty t = true).
    { destruct (token_box_cases w) as [(t0 & Ht0 & Hne0) | Hempty].
      - rewrite (get_or_refresh_token_held w t0 Ht0 Hne0) in H.
        injection H as <- <-. auto.
      - rewrite (get_or_refresh_token_empty w Hempty) in H.
        destruct (granted (token_server env (trace w))) as [t1 |] eqn:Hg;
          [| discriminate H].
        injection H as <- <-. split; [reflexivity |].
        exact (granted_nonempty _ _ Hg). }
    destruct Hbox as [Hb Hne]. split; [exact Hb |]. split; [exact Hne |].
    exact (get_or_refresh_token_held w' t Hb Hne).
  - intros w e w' H.
    destruct (token_box_cases w) as [(t0 & Ht0 & Hne0) | Hempty].
    + rewrite (get_or_refresh_token_held w t0 Ht0 Hne0) in H. discriminate H.
    + rewrite (get_or_refresh_token_empty w Hempty) in H.
      destruct (granted (token_server env (trace w))); [discriminate H |].
      injection H as _ <-. reflexivity.
Qed.

(** [get_or_refresh_token]: a token in the box is returned without a
    fetch; with an empty box exactly one fetch is made and its token is
    stored; after a successful call the box holds the returned token, so
    calling again returns it and fetches nothing. *)
Theorem get_or_refresh_token_spec :
  (forall w t,
      token_box w = Some t -> PyStr.nonempty t = true ->
      get_or_refresh_token env w = (inr t, w))
  /\ (forall w,
        token_box w = None \/ token_box w = Some "" ->
        trace (snd (get_or_refresh_token env w))
          = TokenFetch (token_server env (trace w)) :: trace w)
  /\ (forall w t w',
        get_or_refresh_token env w = (inr t, w') ->
        token_box w' = Some t
        /\ PyStr.nonempty t = true
        /\ get_or_refresh_token env w' = (inr t, w'))
  /\ (forall w e w',
        get_or_refresh_token env w = (inl e, w') ->
        token_box w' = token_box w).
Proof. exact get_or_refresh_token_facts. Qed.

(** ** The lookup cache *)

Lemma lookup_blank (wo : string) (w : world) :
  PyStr.nonempty (PyStr.strip wo) = false ->
  lookup_invoice_by_wo env wo w = (inr None, w).
Proof.
  intros H. unfold lookup_invoice_by_wo. cbv zeta. rewrite H. reflexivity.
Qed.

Lemma lookup_hit (wo : string) (w : world) (cached : option invoice_meta) :
  PyStr.nonempty (PyStr.strip wo) = true ->
  lookup_cache w !! PyStr.strip wo = Some cached ->
  lookup_invoice_by_wo env wo w = (inr cached, w).
Proof.
  intros H Hc. unfold lookup_invoice_by_wo. cbv zeta. rewrite H. cbn [negb].
  rewrite Hc. reflexivity.
Qed.

Lemma do_request_lazy (q : string -> request) (w w0 : world) (t : string) :
  get_or_refresh_token env w = (inr t, w0) ->
  do_request env q w = do_request env q w0.
Proof.
  intros H.
  destruct get_or_refresh_token_facts as (_ & _ & Hagain & _).
  destruct (Hagain w t w0 H) as (_ & _ & H0).
  unfold do_request, bind. rewrite H, H0. reflexivity.
Qed.

(** A lookup that misses the cache, from any token box. *)
Lemma lookup_miss (wo : string) (w : world) :
  PyStr.nonempty (PyStr.strip wo) = true ->
  lookup_cache w !! PyStr.strip wo = None ->
  match get_or_refresh_token env w with
  | (inr t, w0) =>
      lookup_invoice_by_wo env wo w = lookup_invoice_by_wo env wo w0
      /\ token_box w0 = Some t /\ PyStr.nonempty t = true
      /\ lookup_cache w0 = lookup_cache w
  | (inl (RequestException _), w0) =>
      lookup_invoice_by_wo env wo w
        = (inr None, set_cache (PyStr.strip wo) None w0)
  | (inl e, w0) => lookup_invoice_by_wo env wo w = (inl e, w0)
  end.
Proof.
  intros Hkey Hmiss.
  destruct (get_or_refresh_token env w) as [[e | t] w0] eqn:Hg.
  - assert (E : lookup_invoice_by_wo env wo w =
                match e with
                | RequestException _ =>
                    (inr None, set_cache (PyStr.strip wo) None w0)
                | _ => (inl e, w0)
                end).
    { unfold lookup_invoice_by_wo. cbv zeta. rewrite Hkey. cbn [negb].
      rewrite Hmiss. unfold bind at 1. unfold attempt at 1.
      unfold do_request at 1. unfold bind at 1. rewrite Hg.
      destruct e; reflexivity. }
    destruct e; exact E.
  - destruct get_or_refresh_token_facts as (_ & _ & Hagain & _).
    destruct (Hagain w t w0 Hg) as (Hb & Hne & _).
    assert (Hcache : lookup_cache w0 = lookup_cache w).
    { destruct (token_box_cases w) as [(t0 & Ht0 & Hne0) | Hempty].
      - rewrite (get_or_refresh_token_held w t0 Ht0 Hne0) in Hg.
        injection Hg as _ <-. reflexivity.
      - rewrite (get_or_refresh_token_empty w Hempty) in Hg.
        destruct (granted (token_server env (trace w))); [| discriminate Hg].
        injection Hg as _ <-. reflexivity. }
    split; [| auto].
    unfold lookup_invoice_by_wo. cbv zeta. rewrite Hkey. cbn [negb].
    rewrite Hcache, Hmiss.
    unfold bind at 1. unfold attempt at 1.
    rewrite (do_request_lazy _ w w0 t Hg).
    unfold bind at 3. unfold attempt at 3. reflexivity.
Qed.

(** Whatever a lookup returns is in the cache afterwards, under the
    stripped work-order number. *)
Lemma lookup_stores (wo : string) (w w' : world)
    (res : option invoice_meta) :
  PyStr.nonempty (PyStr.strip wo) = true ->
  lookup_invoice_by_wo env wo w = (inr res, w') ->
  lookup_cache w' !! PyStr.strip wo = Some res.
Proof.
  intros Hkey H.
  destruct (lookup_cache w !! PyStr.strip wo) as [cached |] eqn:Hc.
  { rewrite (lookup_hit wo w cached Hkey Hc) in H.
    injection H as <- <-. exact Hc. }
  pose proof (lookup_miss wo w Hkey Hc) as Hm.
  destruct (get_or_refresh_token env w) as [[e | t] w0].
  - destruct e; rewrite Hm in H; try discriminate H.
    injection H as <- <-. apply lookup_insert_eq.
  - destruct Hm as (E & Hb & Hne & Hcache).
    rewrite E in H. rewrite <- Hcache in Hc.
    rewrite (lookup_eq env wo w0 t Hb Hne Hkey Hc) in H.
    destruct (guarded_outcome env _ t w0) as [[| r | e] w1];
      try discriminate H; injection H as <- <-; apply lookup_insert_eq.
Qed.

(** The lookup cache: a returned result, found or not, is remembered, so
    looking the same work order up again returns the same result and
    changes nothing, in particular sends nothing.  A blank work order
    is answered by [None] at once. *)
Theorem lookup_is_cached (wo : string) (w w' : world)
    (res : option invoice_meta) :
  lookup_invoice_by_wo env wo w = (inr res, w') ->
  lookup_invoice_by_wo env wo w' = (inr res, w').
Proof.
  intros H.
  destruct (PyStr.nonempty (PyStr.strip wo)) eqn:Hkey.
  - apply (lookup_hit wo w' res Hkey).
    exact (lookup_stores wo w w' res Hkey H).
  - rewrite (lookup_blank wo w Hkey) in H. injection H as <- <-.
    apply lookup_blank, Hkey.
Qed.

Lemma guarded_outcome_cache (q : string -> request) (t : string) (w : world) :
  lookup_cache (snd (guarded_outcome env q t w)) = lookup_cache w.
Proof.
  unfold guarded_outcome.
  destruct (api_server env (trace w) (q t)) as [r1 | m1]; [| reflexivity].
  destruct (status_code r1 =? 401); [| reflexivity].
  cbn [trace record_event].
  destruct (granted (token_server env (ApiCall (q t) (Responded r1) :: trace w)))
    as [t' |].
  - cbn [trace record_event set_token].
    destruct (api_server env _ (q t')) as [r2 | m2]; [| reflexivity].
    destruct (status_code r2 =? 401); reflexivity.
  - destruct (token_server env _); reflexivity.
Qed.

Lemma lookup_frames_with_token (wo : string) (w : world) (t : string)
    (k : string) :
  k <> PyStr.strip wo ->
  token_box w = Some t ->
  PyStr.nonempty t = true ->
  PyStr.nonempty (PyStr.strip wo) = true ->
  lookup_cache w !! PyStr.strip wo = None ->
  lookup_cache (snd (lookup_invoice_by_wo env wo w)) !! k
    = lookup_cache w !! k.
Proof.
  intros Hk Ht Hne Hkey Hc.
  rewrite (lookup_eq env wo w t Ht Hne Hkey Hc).
  pose proof (guarded_outcome_cache
                (GetInvoices (filter_expr_of (PyStr.strip wo))) t w) as F.
  destruct (guarded_outcome env _ t w) as [[| r | e] w1];
    cbn [snd fst lookup_cache set_cache] in *; rewrite <- F;
    try reflexivity; apply lookup_insert_ne; congruence.
Qed.

Lemma get_or_refresh_token_cache (w : world) :
  lookup_cache (snd (get_or_refresh_token env w)) = lookup_cache w.
Proof.
  destruct (token_box_cases w) as [(t0 & Ht0 & Hne0) | Hempty].
  - rewrite (get_or_refresh_token_held w t0 Ht0 Hne0). reflexivity.
  - rewrite (get_or_refresh_token_empty w Hempty).
    destruct (granted (token_server env (trace w))); reflexivity.
Qed.

(** A lookup changes the cache at its own key only. *)
Theorem lookup_frames_cache (wo : string) (w : world) (k : string) :
  k <> PyStr.strip wo ->
  lookup_cache (snd (lookup_invoice_by_wo env wo w)) !! k
    = lookup_cache w !! k.
Proof.
  intros Hk.
  destruct (PyStr.nonempty (PyStr.strip wo)) eqn:Hkey.
  2:{ rewrite (lookup_blank wo w Hkey). reflexivity. }
  destruct (lookup_cache w !! PyStr.strip wo) as [cached |] eqn:Hc.
  { rewrite (lookup_hit wo w cached Hkey Hc). reflexivity. }
  pose proof (lookup_miss wo w Hkey Hc) as Hm.
  pose proof (get_or_refresh_token_cache w) as Hcache0.
  destruct (get_or_refresh_token env w) as [[e | t] w0]; cbn [snd] in Hcache0.
  - destruct e; rewrite Hm; cbn [snd lookup_cache set_cache];
      rewrite Hcache0; try reflexivity.
    apply lookup_insert_ne. congruence.
  - destruct Hm as (E & Hb & Hne & Hcache). rewrite E.
    rewrite <- Hcache in Hc |- *.
    exact (lookup_frames_with_token wo w0 t k Hk Hb Hne Hkey Hc).
Qed.

(** ** What a found invoice is *)

Lemma found_inv (r : response) (m : invoice_meta) :
  found r = Some m ->
  ok r = true
  /\ exists item rest,
       json_value r = item :: rest
       /\ item_Id item = Some (meta_Id m)
       /\ meta_Trade m = item_Trade item
       /\ meta_ApprovalCode m = item_ApprovalCode item
       /\ meta_Number m = item_Number item.
Proof.
  unfold found. destruct (ok r); cbn [negb]; [| discriminate].
  destruct (json_value r) as [| item rest]; [discriminate |].
  destruct (item_Id item) as [id |] eqn:Hid; [| discriminate].
  intros [= <-]. split; [reflexivity |].
  exists item, rest. cbn. auto.
Qed.

Lemma guarded_answer (q : string -> request) (t : string) (w w' : world)
    (r : response) :
  guarded_outcome env q t w = (Answer r, w') ->
  status_code r <> 401
  /\ exists t' earlier, trace w' = ApiCall (q t') (Responded r) :: earlier.
Proof.
  unfold guarded_outcome.
  destruct (api_server env (trace w) (q t)) as [r1 | m1]; [| discriminate].
  destruct (status_code r1 =? 401) eqn:E1.
  - cbn [trace record_event].
    destruct (granted _) as [t' |].
    + cbn [trace record_event set_token].
      destruct (api_server env _ (q t')) as [r2 | m2]; [| discriminate].
      destruct (status_code r2 =? 401) eqn:E2; [discriminate |].
      intros [= <- <-]. split; [apply Z.eqb_neq, E2 |].
      exists t'. eexists. reflexivity.
    + destruct (token_server env _); discriminate.
  - intros [= <- <-]. split; [apply Z.eqb_neq, E1 |].
    exists t. eexists. reflexivity.
Qed.

(** A lookup that asks the API returns metadata only for an answer that
    is OK, lists at least one invoice, and whose first invoice has an
    Id; the metadata are those of that first invoice, and the answer is
    the newest event. *)
Theorem lookup_found_only (wo : string) (w w' : world) (t : string)
    (m : invoice_meta) :
  token_box w = Some t ->
  PyStr.nonempty t = true ->
  lookup_cache w !! PyStr.strip wo = None ->
  lookup_invoice_by_wo env wo w = (inr (Some m), w') ->
  exists r t' earlier,
    trace w' = ApiCall (GetInvoices (filter_expr_of (PyStr.strip wo)) t')
                       (Responded r) :: earlier
    /\ ok r = true
    /\ status_code r <> 401
    /\ exists item rest,
         json_value r = item :: rest
         /\ item_Id item = Some (meta_Id m)
         /\ meta_Trade m = item_Trade item
         /\ meta_ApprovalCode m = item_ApprovalCode item
         /\ meta_Number m = item_Number item.
Proof.
  intros Ht Hne Hc H.
  destruct (PyStr.nonempty (PyStr.strip wo)) eqn:Hkey.
  2:{ rewrite (lookup_blank wo w Hkey) in H. discriminate H. }
  rewrite (lookup_eq env wo w t Ht Hne Hkey Hc) in H.
  destruct (guarded_outcome env _ t w) as [[| r | e] w1] eqn:Hg;
    try discriminate H.
  injection H as Hf <-.
  destruct (guarded_answer _ t w w1 r Hg) as (H401 & t' & earlier & Htr).
  destruct (found_inv r m Hf) as (Hok & Hitem).
  exists r, t', earlier. cbn [trace set_cache]. auto.
Qed.

(** ** How an approval is read *)

Lemma approval_accepted_iff (r : response) :
  approval_accepted r = true <->
  status_code r = 200 \/ status_code r = 204
  \/ (status_code r = 403
      /\ PyStr.contains ALREADY_HAD_STATUS (text r) = true).
Proof.
  unfold approval_accepted.
  destruct (status_code r =? 200) eqn:E200.
  { apply Z.eqb_eq in E200. cbn. split; auto. }
  destruct (status_code r =? 204) eqn:E204.
  { apply Z.eqb_eq in E204. cbn. split; auto. }
  apply Z.eqb_neq in E200, E204. cbn [orb].
  destruct (status_code r =? 403) eqn:E403.
  - apply Z.eqb_eq in E403. cbn [andb].
    destruct (PyStr.contains ALREADY_HAD_STATUS (text r)).
    + split; auto.
    + split; [discriminate |].
      intros [H | [H | [_ H]]]; [contradiction | contradiction | discriminate].
  - apply Z.eqb_neq in E403. cbn [andb].
    split; [discriminate |].
    intros [H | [H | [H _]]]; contradiction.
Qed.

(** [approve_invoice] returns True only for an answer of the API that is
    the newest event and has status 200 or 204, or status 403 with
    "already had this status" in its body; with any other answer,
    among them the other 2xx statuses, it returns False. *)
Theorem approve_true_only_confirmed (invoice_id : Z) (category : cell)
    (approval_code : option string) (w w' : world) (t : string) (b : bool) :
  token_box w = Some t ->
  PyStr.nonempty t = true ->
  approve_invoice env invoice_id category approval_code w = (inr b, w') ->
  exists cat,
    category_to_use category = inr cat
    /\ (b = true ->
        exists r t' earlier,
          trace w' = ApiCall (PutApprove invoice_id
                                (code_to_use approval_code)
                                APPROVAL_COMMENTS_DEFAULT cat t')
                             (Responded r) :: earlier
          /\ (status_code r = 200 \/ status_code r = 204
              \/ (status_code r = 403
                  /\ PyStr.contains ALREADY_HAD_STATUS (text r) = true)))
    /\ (forall r earlier q,
          trace w' = ApiCall q (Responded r) :: earlier ->
          status_code r <> 200 -> status_code r <> 204 ->
          status_code r <> 403 ->
          b = false).
Proof.
  intros Ht Hne H.
  destruct (category_to_use category) as [e | cat] eqn:Hcat.
  { unfold approve_invoice in H. unfold bind at 1 in H. unfold lift in H.
    rewrite Hcat in H. discriminate H. }
  exists cat. split; [reflexivity |].
  rewrite (approve_eq env invoice_id category approval_code cat w t Ht Hne Hcat)
    in H.
  destruct (guarded_outcome env _ t w) as [[| r | e] w1] eqn:Hg;
    try discriminate H; injection H as <- <-.
  - split; [discriminate |]. reflexivity.
  - destruct (guarded_answer _ t w w1 r Hg) as (H401 & t' & earlier & Htr).
    split.
    + intros Hacc. exists r, t', earlier. split; [exact Htr |].
      apply approval_accepted_iff, Hacc.
    + intros r0 earlier0 q0 Htr0 H200 H204 H403.
      rewrite Htr in Htr0. injection Htr0 as _ <- _.
      destruct (approval_accepted r) eqn:Hacc; [| reflexivity].
      apply approval_accepted_iff in Hacc.
      destruct Hacc as [Hs | [Hs | [Hs _]]]; contradiction.
Qed.

End Client.

(** ** Default approval code and category *)

Lemma upper_char_idempotent (c : ascii) :
  PyStr.upper_char (PyStr.upper_char c) = PyStr.upper_char c.
Proof.
  destruct c as [[|] [|] [|] [|] [|] [|] [|] [|]]; reflexivity.
Qed.

Lemma upper_idempotent (s : string) : PyStr.upper (PyStr.upper s) = PyStr.upper s.
Proof.
  induction s as [| c s IH]; [reflexivity |].
  cbn [PyStr.upper]. rewrite upper_char_idempotent, IH. reflexivity.
Qed.

Lemma upper_nonempty (s : string) :
  PyStr.nonempty (PyStr.upper s) = PyStr.nonempty s.
Proof. destruct s; reflexivity. Qed.

(** The category sent with an approval is never empty and is in upper
    case; text that is blank after stripping gives the fallback
    MAINTENANCE; other text gives its stripped upper-case form; an empty
    cell (NaN) does not give the fallback: it raises AttributeError. *)
Theorem category_to_use_spec :
  (forall c cat,
      category_to_use c = inr cat ->
      PyStr.nonempty cat = true /\ PyStr.upper cat = cat)
  /\ (forall s,
        PyStr.nonempty (PyStr.strip s) = false ->
        category_to_use (CText s) = inr CATEGORY_FALLBACK)
  /\ (forall s,
        PyStr.nonempty (PyStr.strip s) = true ->
        category_to_use (CText s) = inr (PyStr.upper (PyStr.strip s)))
  /\ category_to_use CBlank
     = inl (AttributeError "'float' object has no attribute 'strip'")
  /\ (forall f, is_nan f = true ->
      category_to_use (CNum f)
      = inl (AttributeError "'float' object has no attribute 'strip'")).
Proof.
  split.
  { intros c cat. unfold category_to_use.
    destruct (or_empty_strip c) as [e | s]; cbn [bind_exn]; [discriminate |].
    intros [= <-].
    destruct (PyStr.nonempty (PyStr.upper s)) eqn:E.
    - split; [exact E | apply upper_idempotent].
    - split; reflexivity. }
  split.
  { intros s H. unfold category_to_use. cbn [or_empty_strip bind_exn].
    rewrite upper_nonempty, H. reflexivity. }
  split.
  { intros s H. unfold category_to_use. cbn [or_empty_strip bind_exn].
    rewrite upper_nonempty, H. reflexivity. }
  split; [reflexivity |].
  intros f Hnan. unfold category_to_use. cbn [or_empty_strip].
  rewrite (NaN.nan_not_zero f Hnan). reflexivity.
Qed.

(** The approval code sent is never empty: the code of the lookup,
    stripped, or the default when the lookup gave none or a blank one. *)
Theorem code_to_use_spec :
  (forall c, PyStr.nonempty (code_to_use c) = true)
  /\ code_to_use None = APPROVAL_CODE_DEFAULT
  /\ (forall s,
        PyStr.nonempty (PyStr.strip s) = false ->
        code_to_use (Some s) = APPROVAL_CODE_DEFAULT)
  /\ (forall s,
        PyStr.nonempty (PyStr.strip s) = true ->
        code_to_use (Some s) = PyStr.strip s).
Proof.
  split.
  { intros c. unfold code_to_use.
    destruct (PyStr.nonempty (PyStr.strip (default "" c))) eqn:E;
      [exact E | reflexivity]. }
  split; [reflexivity |].
  split; intros s H; unfold code_to_use;
    change (default "" (Some s)) with s; rewrite H; reflexivity.
Qed.

End ClientExtras.

Module ClientWitnesses.
Import Approver ApproverFacts RunSamples ClientExtras.

Definition meta_77 : invoice_meta :=
  {| meta_Id := 77; meta_Trade := Some "LANDSCAPING";
     meta_ApprovalCode := None; meta_Number := Some "INV-77" |}.

(** The first lookup of work order 5001, made with an empty token box. *)
Definition first_lookup : (exn + option invoice_meta) * world :=
  lookup_invoice_by_wo friendly "5001" (start []).

Lemma first_lookup_eq :
  lookup_invoice_by_wo friendly "5001" (start [])
  = (inr (Some meta_77), snd first_lookup).
Proof. vm_compute. reflexivity. Qed.

Lemma lookup_is_cached_witness :
  lookup_invoice_by_wo friendly "5001" (snd first_lookup)
  = (inr (Some meta_77), snd first_lookup).
Proof.
  exact (lookup_is_cached friendly "5001" (start []) (snd first_lookup)
           (Some meta_77) first_lookup_eq).
Defined.

Lemma lookup_frames_cache_witness :
  lookup_cache (snd first_lookup) !! "5002" = lookup_cache (start []) !! "5002".
Proof.
  apply (lookup_frames_cache friendly "5001" (start []) "5002").
  discriminate.
Defined.

Lemma stale_lookup_eq :
  lookup_invoice_by_wo friendly "5001" stale_world
  = (inr (Some meta_77),
     snd (lookup_invoice_by_wo friendly "5001" stale_world)).
Proof. vm_compute. reflexivity. Qed.

Lemma lookup_found_only_witness :
  exists r t' earlier,
    trace (snd (lookup_invoice_by_wo friendly "5001" stale_world))
    = ApiCall (GetInvoices (filter_expr_of (PyStr.strip "5001")) t')
              (Responded r) :: earlier
    /\ ok r = true
    /\ status_code r <> 401
    /\ exists item rest,
         json_value r = item :: rest
         /\ item_Id item = Some (meta_Id meta_77)
         /\ meta_Trade meta_77 = item_Trade item
         /\ meta_ApprovalCode meta_77 = item_ApprovalCode item
         /\ meta_Number meta_77 = item_Number item.
Proof.
  apply (lookup_found_only friendly "5001" stale_world _ "token-1" meta_77).
  - reflexivity.
  - reflexivity.
  - apply lookup_empty.
  - exact stale_lookup_eq.
Defined.

Lemma stale_approve_eq :
  approve_invoice friendly 77 (CText " maintenance ") None stale_world
  = (inr true,
     snd (approve_invoice friendly 77 (CText " maintenance ") None
            stale_world)).
Proof. vm_compute. reflexivity. Qed.

Lemma approve_true_only_confirmed_witness :
  exists cat,
    category_to_use (CText " maintenance ") = inr cat
    /\ exists r t' earlier,
         trace (snd (approve_invoice friendly 77 (CText " maintenance ") None
                       stale_world))
         = ApiCall (PutApprove 77 (code_to_use None)
                               APPROVAL_COMMENTS_DEFAULT cat t')
                   (Responded r) :: earlier
         /\ (status_code r = 200 \/ status_code r = 204
             \/ (status_code r = 403
                 /\ PyStr.contains ALREADY_HAD_STATUS (text r) = true)).
Proof.
  destruct (approve_true_only_confirmed friendly 77 (CText " maintenance ")
              None stale_world _ "token-1" true eq_refl eq_refl
              stale_approve_eq) as (cat & Hcat & Htrue & _).
  exists cat. split; [exact Hcat |]. exact (Htrue eq_refl).
Defined.

End ClientWitnesses.

(* ===================================================================== *)
(** * More on the rate analysis *)
(* ===================================================================== *)

Module RateExtras.
Import RateAnalysis RateFacts.

(** ** The approval window *)

Lemma SF_six_cents :
  Prim2SF 0.06 = S754_finite false 8646911284551352 (-57).
Proof. vm_compute. reflexivity. Qed.

Lemma SF_minus_five :
  Prim2SF (-5) = S754_finite true 5629499534213120 (-50).
Proof. vm_compute. reflexivity. Qed.

Lemma SF_zero : Prim2SF 0 = S754_zero false.
Proof. vm_compute. reflexivity. Qed.

(** The two tests of [decide_approval] against a positive tolerance and
    a negative floor of larger exponent amount to one interval test. *)
Lemma SF_window (m5 m6 : positive) (e5 e6 : Z) (x : spec_float) :
  e6 < e5 ->
  (if SFltb (SFabs x) (S754_finite false m6 e6) then true
   else SFltb x (S754_zero false) && SFleb (S754_finite true m5 e5) x)
  = SFleb (S754_finite true m5 e5) x && SFltb x (S754_finite false m6 e6).
Proof.
  intros He. unfold SFleb, SFltb.
  destruct x as [s | s | | s m e]; cbn [SFcompare SFabs].
  - reflexivity.
  - destruct s; reflexivity.
  - reflexivity.
  - destruct s.
    + destruct (Z.compare_spec e e6) as [A | A | A];
        destruct (Z.compare_spec e5 e) as [B | B | B]; try lia;
        try reflexivity;
        try (destruct (Pos.compare_cont Eq m m6); reflexivity);
        destruct (Pos.compare_cont Eq m5 m); reflexivity.
    + destruct (e ?= e6); try reflexivity;
        destruct (Pos.compare_cont Eq m m6); reflexivity.
Qed.

Lemma decide_approval_window (d : float) :
  decide_approval d = Approved
  <-> ((-5 <=? d) && (d <? 0.06))%float = true.
Proof.
  unfold decide_approval.
  destruct (is_nan d) eqn:N.
  - rewrite (NaN.ltb_nan_l d _ N), andb_false_r. split; discriminate.
  - rewrite !FloatAxioms.ltb_spec, FloatAxioms.leb_spec, FloatAxioms.abs_spec.
    rewrite SF_six_cents, SF_minus_five, SF_zero.
    assert (He : -57 < -50) by lia.
    rewrite <- (SF_window 5629499534213120 8646911284551352 _ _
                  (Prim2SF d) He).
    destruct (SFltb (SFabs (Prim2SF d)) _); [split; reflexivity |].
    destruct (SFltb (Prim2SF d) _ && SFleb _ (Prim2SF d));
      split; try reflexivity; discriminate.
Qed.

(** An invoice is approved exactly when its difference from the
    contracted rate lies in the half-open interval from -5 (included) to
    0.06 (excluded): at most five dollars under, less than six cents
    over. *)
Theorem approval_window (d : float) :
  decide_approval d = Approved
  <-> ((-5 <=? d) && (d <? 0.06))%float = true.
Proof. exact (decide_approval_window d). Qed.

End RateExtras.

Module ReportColumns.
Import RateAnalysis RateFacts.

Section Requirements.

Variable repr_float : float -> string.
Variable to_numeric : string -> option float.
Variable round2 : float -> float.

(** ** The columns a report must have *)

Definition any_column (df : DataFrame) (candidates : list string) : bool :=
  existsb (has_column df) candidates.

(** The reports [build_rate_comps] gets through, by their column names. *)
Definition processable (inv_df : DataFrame) : bool :=
  has_column inv_df "Invoice Tax Amount"
  && has_column inv_df "Invoice Tax2 Amount"
  && any_column inv_df ["Location ID"; "Location Number"]
  && any_column inv_df ["W.O.#"; "WO Tracking Number"]
  && any_column inv_df ["Category"]
  && any_column inv_df ["Trade"]
  && any_column inv_df ["Invoice Number"]
  && any_column inv_df ["Inv.Status"; "Invoice Status"]
  && any_column inv_df ["Invoice Amount"; "__InvoiceAmount"; "Inv.Total";
                        "Inv.Total "]
  && any_column inv_df ["Invoice Labor Amount"; "__Inv.LaborOnly"].

Lemma select_column_cases (df : DataFrame) (out_name : string)
    (candidates : list string) :
  (any_column df candidates = true
   /\ exists c, select_column df out_name candidates = inr c)
  \/ (any_column df candidates = false
      /\ exists msg, select_column df out_name candidates = inl (KeyError msg)).
Proof.
  unfold select_column, any_column.
  assert (H : existsb (has_column df) candidates
              = match first_present df candidates with
                | Some _ => true
                | None => false
                end).
  { induction candidates as [| c rest IH]; cbn [first_present existsb];
      [reflexivity |].
    destruct (has_column df c); [reflexivity | exact IH]. }
  destruct (first_present df candidates); [left | right]; split; eauto.
Qed.

Definition fillna_error : exn :=
  AttributeError "'int' object has no attribute 'fillna'".

Lemma add_helpers_cases (inv_df : DataFrame) :
  match add_helpers to_numeric round2 inv_df with
  | inl e =>
      e = fillna_error
      /\ has_column inv_df "Invoice Tax Amount"
         && has_column inv_df "Invoice Tax2 Amount" = false
  | inr df =>
      has_column inv_df "Invoice Tax Amount" = true
      /\ has_column inv_df "Invoice Tax2 Amount" = true
      /\ forall c,
           has_column df c =
           has_column inv_df c
           || (has_column inv_df "Invoice Labor Amount"
               && String.eqb c "__Inv.LaborOnly")
           || (has_column inv_df "Invoice Amount"
               && String.eqb c "__InvoiceAmount")
           || String.eqb c "__SalesTax"
  end.
Proof.
  destruct (add_helpers to_numeric round2 inv_df) as [e | df] eqn:H.
  - revert H. unfold add_helpers.
    destruct (has_column inv_df "Invoice Labor Amount") eqn:HL;
      destruct (has_column inv_df "Invoice Amount") eqn:HA;
      rewrite ?has_column_assign, ?HA; simpl (String.eqb _ _);
      rewrite ?orb_false_r, ?HA; rewrite ?has_column_assign;
      simpl (String.eqb _ _); rewrite ?orb_false_r;
      destruct (has_column inv_df "Invoice Tax Amount");
      destruct (has_column inv_df "Invoice Tax2 Amount");
      cbn [negb andb]; intros [= <-]; split; reflexivity.
  - destruct (add_helpers_shape to_numeric round2 inv_df df H) as (T1 & Hc & _).
    split; [exact T1 |]. split; [| exact Hc].
    revert H. unfold add_helpers.
    destruct (has_column inv_df "Invoice Labor Amount") eqn:HL;
      destruct (has_column inv_df "Invoice Amount") eqn:HA;
      rewrite ?has_column_assign, ?HA; simpl (String.eqb _ _);
      rewrite ?orb_false_r, ?HA; rewrite ?has_column_assign;
      simpl (String.eqb _ _); rewrite ?orb_false_r;
      rewrite T1;
      destruct (has_column inv_df "Invoice Tax2 Amount");
      cbn [negb]; intros H; try discriminate H; reflexivity.
Qed.

Ltac choose df name cands :=
  let A := fresh "A" in
  let c := fresh "c" in
  let m := fresh "m" in
  let S := fresh "S" in
  destruct (select_column_cases df name cands)
    as [(A & c & S) | (A & m & S)];
  rewrite S; cbn [bind_exn]; rewrite A; cbn [andb];
  [| split; [discriminate | intros [out Hout]; discriminate Hout]].

(** The report side of [rate_comps_df], once the rate map is built. *)
Lemma report_side (inv_df : DataFrame) (land_df : list contract_row)
    (rate_map : gmap Z float) :
  build_rate_map repr_float to_numeric land_df = inr rate_map ->
  let res := rate_comps_df repr_float to_numeric round2 inv_df land_df in
  (processable inv_df = true <-> exists out, res = inr out)
  /\ (has_column inv_df "Invoice Tax Amount" = false
      \/ has_column inv_df "Invoice Tax2 Amount" = false ->
      res = inl fillna_error)
  /\ (forall e, res = inl e -> e = fillna_error \/ exists msg, e = KeyError msg).
Proof.
  intros Hmap. cbv zeta. unfold rate_comps_df, processable.
  rewrite Hmap. cbn [bind_exn].
  pose proof (add_helpers_cases inv_df) as Hh.
  destruct (add_helpers to_numeric round2 inv_df) as [e0 | df].
  - destruct Hh as [-> Htax]. cbn [bind_exn]. rewrite Htax. cbn [andb].
    split; [split; [discriminate | intros [out H]; discriminate H] |].
    split; [reflexivity |]. intros e [= <-]. left. reflexivity.
  - destruct Hh as (T1 & T2 & Hc). cbn [bind_exn]. rewrite T1, T2.
    cbn [andb].
    assert (Same : forall cands,
               (forall c, In c cands ->
                          c <> "__Inv.LaborOnly" /\ c <> "__InvoiceAmount"
                          /\ c <> "__SalesTax") ->
               any_column inv_df cands = any_column df cands).
    { intros cands Hnot. unfold any_column.
      induction cands as [| c rest IH]; [reflexivity |].
      cbn [existsb]. rewrite IH by (intros c' Hin; apply Hnot; right; exact Hin).
      destruct (Hnot c (or_introl eq_refl)) as (N1 & N2 & N3).
      rewrite (Hc c).
      apply String.eqb_neq in N1, N2, N3. rewrite N1, N2, N3.
      rewrite !andb_false_r, !orb_false_r. reflexivity. }
    assert (Total :
              any_column inv_df ["Invoice Amount"; "__InvoiceAmount";
                                 "Inv.Total"; "Inv.Total "]
              = any_column df ["Invoice Amount"; "__InvoiceAmount";
                               "Inv.Total"; "Inv.Total "]).
    { unfold any_column. cbn [existsb]. rewrite !Hc. simpl (String.eqb _ _).
      clear.
      repeat match goal with
             | |- context [has_column inv_df ?c] =>
                 destruct (has_column inv_df c)
             end; reflexivity. }
    assert (Labor :
              any_column inv_df ["Invoice Labor Amount"; "__Inv.LaborOnly"]
              = any_column df ["Invoice Labor Amount"; "__Inv.LaborOnly"]).
    { unfold any_column. cbn [existsb]. rewrite !Hc. simpl (String.eqb _ _).
      clear.
      repeat match goal with
             | |- context [has_column inv_df ?c] =>
                 destruct (has_column inv_df c)
             end; reflexivity. }
    assert (Tax : any_column df ["Invoice Tax Amount"; "__SalesTax"; "Sales Tax"]
                  = true).
    { unfold any_column. cbn [existsb]. rewrite (Hc "Invoice Tax Amount"), T1.
      reflexivity. }
    rewrite Total, Labor.
    rewrite (Same ["Location ID"; "Location Number"]),
      (Same ["W.O.#"; "WO Tracking Number"]), (Same ["Category"]),
      (Same ["Trade"]), (Same ["Invoice Number"]),
      (Same ["Inv.Status"; "Invoice Status"]);
      try (intros c Hin; cbn [In] in Hin;
           repeat (destruct Hin as [<- | Hin]; [repeat split; discriminate |]);
           contradiction).
    split.
    2:{ split; [intros [H | H]; discriminate H |].
        intros e.
        repeat match goal with
               | |- context [select_column df ?n ?cs] =>
                   let m := fresh "m" in
                   destruct (select_column_cases df n cs)
                     as [(_ & ? & ->) | (_ & m & ->)];
                   cbn [bind_exn];
                   [| intros [= <-]; right; eauto]
               end.
        intros H; discriminate H. }
    choose df "Location ID" ["Location ID"; "Location Number"].
    choose df "W.O.#" ["W.O.#"; "WO Tracking Number"].
    choose df "Category" ["Category"].
    choose df "Trade" ["Trade"].
    choose df "Invoice Number" ["Invoice Number"].
    choose df "Inv.Status" ["Inv.Status"; "Invoice Status"].
    choose df "Inv.Total" ["Invoice Amount"; "__InvoiceAmount"; "Inv.Total";
                           "Inv.Total "].
    choose df "Invoice Labor Amount" ["Invoice Labor Amount"; "__Inv.LaborOnly"].
    destruct (select_column_cases df "Sales Tax"
                ["Invoice Tax Amount"; "__SalesTax"; "Sales Tax"])
      as [(_ & c8 & ->) | (A8 & _)]; [| congruence].
    cbn [bind_exn]. split; [eauto | reflexivity].
Qed.


Lemma location_ids_error (land_df : list contract_row) (e : exn) :
  location_ids repr_float to_numeric land_df = inl e ->
  exists msg, e = TypeError msg.
Proof.
  unfold location_ids. cbv zeta.
  repeat match goal with
         | |- context [if ?b then _ else _] => destruct b
         end;
    intros [= <-]; eauto.
Qed.

(** The contract sheet comes first: when the Int64 cast of its
    Location IDs raises, the run stops with that TypeError, whatever the
    report holds.  When the cast passes, a report is processed exactly
    when it has both tax columns and, for each output field, one of the
    field's source columns; without one of the tax columns the run
    stops with AttributeError; any other refusal is a KeyError.  The
    cast passes when every Center # holds a run of digits that is read
    and is below 2^63; it raises when every Center # holds a run that
    is read and is below 2^64 and one of them is 2^63 or more. *)
Theorem report_requirements (inv_df : DataFrame)
    (land_df : list contract_row) :
  let res := rate_comps_df repr_float to_numeric round2 inv_df land_df in
  let ids := location_ids repr_float to_numeric land_df in
  ((processable inv_df = true /\ exists l, ids = inr l)
   <-> exists out, res = inr out)
  /\ (forall e, ids = inl e -> res = inl e /\ exists msg, e = TypeError msg)
  /\ (forall l,
        ids = inr l ->
        has_column inv_df "Invoice Tax Amount" = false
        \/ has_column inv_df "Invoice Tax2 Amount" = false ->
        res = inl fillna_error)
  /\ (forall l e,
        ids = inr l ->
        res = inl e ->
        e = fillna_error \/ exists msg, e = KeyError msg)
  /\ (forallb (int64_run repr_float to_numeric) land_df = true ->
      ids = inr (map (fun row => option_map as_int (extracted repr_float row))
                     land_df))
  /\ (forallb (uint64_run repr_float to_numeric) land_df = true ->
      forallb (int64_run repr_float to_numeric) land_df = false ->
      res = inl (TypeError
                   "cannot safely cast non-equivalent uint64 to int64")).
Proof.
  cbv zeta.
  pose proof (build_rate_map_lookup repr_float to_numeric land_df) as Hb.
  assert (Hraise : forall e,
             location_ids repr_float to_numeric land_df = inl e ->
             rate_comps_df repr_float to_numeric round2 inv_df land_df
             = inl e).
  { intros e He. rewrite He in Hb. unfold rate_comps_df. rewrite Hb.
    reflexivity. }
  split.
  { destruct (location_ids repr_float to_numeric land_df) as [e | ids].
    - rewrite (Hraise e eq_refl).
      split; [intros [_ [l Hl]]; discriminate Hl
             | intros [out Hout]; discriminate Hout].
    - destruct Hb as (rate_map & Hmap & _).
      destruct (report_side inv_df land_df rate_map Hmap) as (Hiff & _).
      split.
      + intros [Hp _]. apply Hiff, Hp.
      + intros Hout. split; [apply Hiff, Hout | eauto]. }
  split.
  { intros e He. split; [exact (Hraise e He) |].
    exact (location_ids_error land_df e He). }
  split.
  { intros l Hl Htax. rewrite Hl in Hb. destruct Hb as (rate_map & Hmap & _).
    exact (proj1 (proj2 (report_side inv_df land_df rate_map Hmap)) Htax). }
  split.
  { intros l e Hl He. rewrite Hl in Hb. destruct Hb as (rate_map & Hmap & _).
    exact (proj2 (proj2 (report_side inv_df land_df rate_map Hmap)) e He). }
  split.
  { exact (location_ids_int64 repr_float to_numeric land_df). }
  intros Hu Hi. apply Hraise.
  exact (location_ids_uint64 repr_float to_numeric land_df Hu Hi).
Qed.

End Requirements.

(** The sample report without its second tax column. *)
Definition one_tax_report : DataFrame :=
  {| columns := removelast Samples.invoice_columns;
     rows := rows Samples.invoices |}.

(** The sample report without its Trade column. *)
Definition no_trade_report : DataFrame :=
  {| columns := List.filter (fun c => negb (String.eqb c "Trade"))
                            Samples.invoice_columns;
     rows := rows Samples.invoices |}.

(** The sample report is processed with the sample contracts, and
    stopped by the TypeError of the cast with a Center # of 2^63, also
    when it lacks a tax column. *)
Lemma report_requirements_witness :
  (exists out,
      rate_comps_df Samples.no_floats Samples.plain_decimal Samples.keep
        Samples.invoices Samples.contracts = inr out)
  /\ rate_comps_df Samples.no_floats Samples.plain_decimal Samples.keep
       Samples.invoices Samples.huge_contracts
     = inl (TypeError "cannot safely cast non-equivalent uint64 to int64")
  /\ rate_comps_df Samples.no_floats Samples.plain_decimal Samples.keep
       one_tax_report Samples.huge_contracts
     = inl (TypeError "cannot safely cast non-equivalent uint64 to int64")
  /\ rate_comps_df Samples.no_floats Samples.plain_decimal Samples.keep
       one_tax_report Samples.contracts
     = inl (AttributeError "'int' object has no attribute 'fillna'").
Proof.
  split.
  { apply (report_requirements Samples.no_floats Samples.plain_decimal
             Samples.keep Samples.invoices Samples.contracts).
    split; [reflexivity |]. eexists. vm_compute. reflexivity. }
  split.
  { apply (report_requirements Samples.no_floats Samples.plain_decimal
             Samples.keep Samples.invoices Samples.huge_contracts); reflexivity. }
  split.
  { apply (report_requirements Samples.no_floats Samples.plain_decimal
             Samples.keep one_tax_report Samples.huge_contracts); reflexivity. }
  refine (proj1 (proj2 (proj2
            (report_requirements Samples.no_floats Samples.plain_decimal
               Samples.keep one_tax_report Samples.contracts)))
            [Some 100; Some 200] _ _).
  - vm_compute. reflexivity.
  - right. reflexivity.
Defined.

Example report_without_trade :
  rate_comps_df Samples.no_floats Samples.plain_decimal Samples.keep
    no_trade_report Samples.contracts
  = inl (KeyError
           "Could not find any of ['Trade'] in invoice file columns for output field 'Trade'.").
Proof. vm_compute. reflexivity. Qed.

End ReportColumns.

Module RateMapFacts.
Import RateAnalysis RateFacts.

Section Contracts.

Variable repr_float : float -> string.
Variable to_numeric : string -> option float.

(** ** Which contract row prices a location *)

(** When the Int64 cast of the Location IDs raises, no rate map is
    built.  When it passes, the rate map gives a Location ID the
    contracted rate of the last contract row that has it; an invoice
    row of that location gets this rate; an invoice row whose location
    no contract row has gets a missing rate and Review.  With a run of
    digits below 2^63 in every Center #, the cast passes and the
    Location IDs are those numbers. *)
Theorem last_contract_row_prices (land_df : list contract_row) :
  match location_ids repr_float to_numeric land_df with
  | inl e => build_rate_map repr_float to_numeric land_df = inl e
  | inr ids =>
      exists rate_map,
        build_rate_map repr_float to_numeric land_df = inr rate_map
        /\ forall k,
             rate_map !! k
             = option_map contracted_rate (pricing_row ids land_df k)
             /\ forall c_loc c_wo c_cat c_trade c_num c_stat c_total c_labor
                       c_tax (r : string -> cell),
                 location_key (r c_loc) = Some k ->
                 let out :=
                   rate_comp_of repr_float to_numeric rate_map
                     c_loc c_wo c_cat c_trade c_num c_stat c_total c_labor
                     c_tax r in
                 match pricing_row ids land_df k with
                 | Some row => rc_contracted_rate out = contracted_rate row
                 | None =>
                     is_nan (rc_contracted_rate out) = true
                     /\ rc_approval_status out = Review
                 end
  end
  /\ (forallb (int64_run repr_float to_numeric) land_df = true ->
      location_ids repr_float to_numeric land_df
      = inr (map (fun row => option_map as_int (extracted repr_float row))
                 land_df)).
Proof.
  split; [| exact (location_ids_int64 repr_float to_numeric land_df)].
  pose proof (build_rate_map_lookup repr_float to_numeric land_df) as Hb.
  destruct (location_ids repr_float to_numeric land_df) as [e | ids];
    [exact Hb |].
  destruct Hb as (rate_map & Hbuild & Hmap).
  exists rate_map. split; [exact Hbuild |].
  intros k. split; [exact (Hmap k) |].
  intros c_loc c_wo c_cat c_trade c_num c_stat c_total c_labor c_tax r Hk out.
  assert (Hrate : rc_contracted_rate out
                  = match pricing_row ids land_df k with
                    | Some row => contracted_rate row
                    | None => nan
                    end).
  { subst out. unfold rate_comp_of. cbn [rc_contracted_rate].
    unfold lookup_rate. rewrite Hk, Hmap.
    destruct (pricing_row ids land_df k); reflexivity. }
  destruct (pricing_row ids land_df k) as [row |] eqn:Hrow; [exact Hrate |].
  split; [rewrite Hrate; reflexivity |].
  subst out. apply missing_rate_review.
  unfold lookup_rate. rewrite Hk, Hmap, Hrow. reflexivity.
Qed.

End Contracts.

(** Location 100 priced twice, and a location priced by a row without
    a rate. *)
Definition repriced : list contract_row :=
  [{| center := CText "Center 100"; monthly := 900; seasonal := nan;
      billing_months := nan |};
   {| center := CText "Center 200"; monthly := 700; seasonal := nan;
      billing_months := nan |};
   {| center := CText "Center 100 (renewed)"; monthly := 1000;
      seasonal := nan; billing_months := nan |};
   {| center := CText "head office"; monthly := 50; seasonal := nan;
      billing_months := nan |}].

(** In [repriced] location 100 costs 1000, the rate of its later row,
    location 200 costs 700, and location 300 has no rate. *)
Lemma last_contract_row_prices_witness :
  exists rate_map,
    build_rate_map Samples.no_floats Samples.plain_decimal repriced
    = inr rate_map
    /\ rate_map !! 100 = Some 1000%float
    /\ rate_map !! 200 = Some 700%float
    /\ rate_map !! 300 = None.
Proof.
  pose proof (last_contract_row_prices Samples.no_floats
                Samples.plain_decimal repriced) as [H _].
  assert (E : location_ids Samples.no_floats Samples.plain_decimal repriced
              = inr [Some 100; Some 200; Some 100; None])
    by (vm_compute; reflexivity).
  rewrite E in H. destruct H as (rate_map & Hbuild & Hk).
  exists rate_map. split; [exact Hbuild |].
  rewrite (proj1 (Hk 100)), (proj1 (Hk 200)), (proj1 (Hk 300)).
  repeat split; vm_compute; reflexivity.
Defined.

(** With a Center # of 2^63 there is no rate map. *)
Example no_rate_map :
  build_rate_map Samples.no_floats Samples.plain_decimal
    Samples.huge_contracts
  = inl (TypeError "cannot safely cast non-equivalent uint64 to int64").
Proof. vm_compute. reflexivity. Qed.

End RateMapFacts.

(* ===================================================================== *)
(** * The choice of the invoice CSV *)
(* ===================================================================== *)

Module OrchestratorFacts.
Import Orchestrator.

(** The preference classes of the docstring, best first. *)
Definition priority (f : file_entry) : nat :=
  if is_preferred_exact f then 0
  else if name_contains "financial_details" f then 1
  else if name_contains "accounting_details" f then 2
  else 3.

Lemma find_filter_none {A : Type} (p q : A -> bool) (l : list A) :
  List.find p (List.filter q l) = None ->
  forall g, In g l -> q g = true -> p g = false.
Proof.
  intros H g Hin Hq.
  apply (List.find_none p (List.filter q l) H).
  apply List.filter_In. split; assumption.
Qed.

Lemma find_filter_split {A : Type} (p q : A -> bool) (l : list A) (x : A) :
  List.find p (List.filter q l) = Some x ->
  exists before after,
    l = (before ++ x :: after)%list
    /\ q x = true /\ p x = true
    /\ forall g, In g before -> q g = true -> p g = false.
Proof.
  induction l as [| a l IH]; cbn [List.filter List.find]; [discriminate |].
  destruct (q a) eqn:Hq.
  - cbn [List.find]. destruct (p a) eqn:Hp.
    + intros [= <-]. exists [], l. repeat split; auto.
      intros g [].
    + intros H. destruct (IH H) as (before & after & -> & Hqx & Hpx & Hb).
      exists (a :: before), after. repeat split; auto.
      intros g [<- | Hin] Hg; [exact Hp | exact (Hb g Hin Hg)].
  - intros H. destruct (IH H) as (before & after & -> & Hqx & Hpx & Hb).
    exists (a :: before), after. repeat split; auto.
    intros g [<- | Hin] Hg; [congruence | exact (Hb g Hin Hg)].
Qed.

Lemma head_filter_split {A : Type} (q : A -> bool) (l : list A) (x : A)
    (rest : list A) :
  List.filter q l = x :: rest ->
  exists before after,
    l = (before ++ x :: after)%list
    /\ q x = true
    /\ forall g, In g before -> q g = false.
Proof.
  intros H.
  assert (F : List.find (fun _ => true) (List.filter q l) = Some x)
    by (rewrite H; reflexivity).
  destruct (find_filter_split _ q l x F) as (before & after & -> & Hq & _ & Hb).
  exists before, after. repeat split; auto.
  intros g Hin. destruct (q g) eqn:E; [| reflexivity].
  discriminate (Hb g Hin E).
Qed.

Lemma first_of_best_class (walk : list file_entry) :
  match find_invoice_csv walk with
  | inl e =>
      e = FileNotFoundError "No CSV invoice file found in extracted directory"
      /\ forall g, In g walk -> is_csv g = false
  | inr f =>
      exists before after,
        walk = (before ++ f :: after)%list
        /\ is_csv f = true
        /\ (forall g, In g before -> is_csv g = true ->
                      (priority f < priority g)%nat)
        /\ (forall g, In g after -> is_csv g = true ->
                      (priority f <= priority g)%nat)
  end.
Proof.
  unfold find_invoice_csv.
  destruct (List.filter is_csv walk) as [| first rest] eqn:Hc.
  { split; [reflexivity |].
    intros g Hin. destruct (is_csv g) eqn:E; [| reflexivity].
    assert (Hg : In g (List.filter is_csv walk))
      by (apply List.filter_In; split; assumption).
    rewrite Hc in Hg. destruct Hg. }
  rewrite <- Hc.
  destruct (List.find is_preferred_exact _) as [c |] eqn:F1.
  { destruct (find_filter_split _ _ _ _ F1)
      as (before & after & -> & Hq & Hp & Hb).
    exists before, after. split; [reflexivity |]. split; [exact Hq |].
    unfold priority. rewrite Hp. split.
    - intros g Hin Hg. rewrite (Hb g Hin Hg).
      destruct (name_contains "financial_details" g);
        [| destruct (name_contains "accounting_details" g)]; lia.
    - intros g _ _. lia. }
  pose proof (find_filter_none _ _ _ F1) as N1.
  destruct (List.find (name_contains "financial_details") _) as [c |] eqn:F2.
  { destruct (find_filter_split _ _ _ _ F2)
      as (before & after & E & Hq & Hp & Hb).
    exists before, after. split; [exact E |]. split; [exact Hq |].
    assert (Hc0 : In c walk) by (rewrite E; apply in_elt).
    unfold priority. rewrite (N1 c Hc0 Hq), Hp. split.
    - intros g Hin Hg.
      assert (Hw : In g walk) by (rewrite E; apply in_or_app; left; exact Hin).
      rewrite (N1 g Hw Hg), (Hb g Hin Hg).
      destruct (name_contains "accounting_details" g); lia.
    - intros g Hin Hg.
      assert (Hw : In g walk)
        by (rewrite E; apply in_or_app; right; right; exact Hin).
      rewrite (N1 g Hw Hg).
      destruct (name_contains "financial_details" g);
        [| destruct (name_contains "accounting_details" g)]; lia. }
  pose proof (find_filter_none _ _ _ F2) as N2.
  destruct (List.find (name_contains "accounting_details") _) as [c |] eqn:F3.
  { destruct (find_filter_split _ _ _ _ F3)
      as (before & after & E & Hq & Hp & Hb).
    exists before, after. split; [exact E |]. split; [exact Hq |].
    assert (Hc0 : In c walk) by (rewrite E; apply in_elt).
    unfold priority. rewrite (N1 c Hc0 Hq), (N2 c Hc0 Hq), Hp. split.
    - intros g Hin Hg.
      assert (Hw : In g walk) by (rewrite E; apply in_or_app; left; exact Hin).
      rewrite (N1 g Hw Hg), (N2 g Hw Hg), (Hb g Hin Hg). lia.
    - intros g Hin Hg.
      assert (Hw : In g walk)
        by (rewrite E; apply in_or_app; right; right; exact Hin).
      rewrite (N1 g Hw Hg), (N2 g Hw Hg).
      destruct (name_contains "accounting_details" g); lia. }
  pose proof (find_filter_none _ _ _ F3) as N3.
  destruct (head_filter_split _ _ _ _ Hc) as (before & after & E & Hq & Hb).
  exists before, after. split; [exact E |]. split; [exact Hq |].
  assert (Hc0 : In first walk) by (rewrite E; apply in_elt).
  unfold priority.
  rewrite (N1 first Hc0 Hq), (N2 first Hc0 Hq), (N3 first Hc0 Hq). split.
  - intros g Hin Hg. rewrite (Hb g Hin) in Hg. discriminate Hg.
  - intros g Hin Hg.
    assert (Hw : In g walk)
      by (rewrite E; apply in_or_app; right; right; exact Hin).
    rewrite (N1 g Hw Hg), (N2 g Hw Hg), (N3 g Hw Hg). lia.
Qed.

(** [find_invoice_csv] fails exactly when the folder holds no CSV file.
    Otherwise it returns the first CSV file, in walk order, of the best
    preference class present: the exact preferred name in the folder
    itself, then a name containing financial_details, then one
    containing accounting_details, then any CSV. *)
Theorem find_invoice_csv_priority (walk : list file_entry) :
  match find_invoice_csv walk with
  | inl e =>
      e = FileNotFoundError "No CSV invoice file found in extracted directory"
      /\ forall g, In g walk -> is_csv g = false
  | inr f =>
      exists before after,
        walk = (before ++ f :: after)%list
        /\ is_csv f = true
        /\ (forall g, In g before -> is_csv g = true ->
                      (priority f < priority g)%nat)
        /\ (forall g, In g after -> is_csv g = true ->
                      (priority f <= priority g)%nat)
  end.
Proof. exact (first_of_best_class walk). Qed.

End OrchestratorFacts.

(* ===================================================================== *)
(** * What a run asks of the API *)
(* ===================================================================== *)

Module RunSafety.
Import Approver ApproverFacts.
Local Open Scope approver_scope.

Section Safety.

Variable env : environment.
Variable repr_float : float -> string.

(** The work order of a row as [lookup_invoice_by_wo] keys it. *)
Definition wo_key (row : sheet_row) : string :=
  PyStr.strip (py_str repr_float (col_wo row)).

(** Among [new], the API answered the query for work order [k] with a
    list whose first invoice has Id [id]. *)
Definition answered_with (k : string) (id : Z) (new : list event) : Prop :=
  exists b r item rest,
    In (ApiCall (GetInvoices (filter_expr_of k) b) (Responded r)) new
    /\ json_value r = item :: rest
    /\ item_Id item = Some id.

(** A request that the work orders [keys] account for: a query for one
    of them, or the approval of an invoice the API listed first for one
    of them. *)
Definition warranted_request (keys : list string) (new : list event)
    (q : request) : Prop :=
  match q with
  | GetInvoices f _ => exists k, In k keys /\ f = filter_expr_of k
  | PutApprove id _ _ _ _ => exists k, In k keys /\ answered_with k id new
  end.

Definition is_api_call (e : event) : bool :=
  match e with
  | ApiCall _ _ => true
  | _ => false
  end.

Definition api_calls (tr : list event) : nat :=
  length (List.filter is_api_call tr).

(** The state of a run that has added [new] to the trace. *)
Definition safe (keys : list string) (history new : list event) (w : world)
    : Prop :=
  trace w = (new ++ history)%list
  /\ (forall q o, In (ApiCall q o) new -> warranted_request keys new q)
  /\ (forall k m, lookup_cache w !! k = Some (Some m) ->
      In k keys /\ answered_with k (meta_Id m) new).

Lemma answered_with_more (k : string) (id : Z) (added new : list event) :
  answered_with k id new -> answered_with k id (added ++ new)%list.
Proof.
  intros (b & r & item & rest & Hin & Hj & Hid).
  exists b, r, item, rest. split; [apply in_or_app; right; exact Hin | auto].
Qed.

Lemma warranted_more (keys : list string) (added new : list event)
    (q : request) :
  warranted_request keys new q -> warranted_request keys (added ++ new)%list q.
Proof.
  destruct q as [f b | id code comments cat b]; cbn; [auto |].
  intros (k & Hk & Ha). exists k. split; [exact Hk |].
  apply answered_with_more, Ha.
Qed.

Lemma api_calls_app (a b : list event) :
  api_calls (a ++ b)%list = (api_calls a + api_calls b)%nat.
Proof. unfold api_calls. rewrite List.filter_app, length_app. reflexivity. Qed.

(** What an auth-guarded request adds to the trace: at most three
    events, at most two of them requests, each the request [q] under
    some token; an answer it returns is among them. *)
Lemma guarded_added (q : string -> request) (t : string) (w : world) :
  exists added,
    trace (snd (guarded_outcome env q t w)) = (added ++ trace w)%list
    /\ (length added <= 3)%nat
    /\ (api_calls added <= 2)%nat
    /\ (forall q' o', In (ApiCall q' o') added -> exists t', q' = q t')
    /\ (forall r, fst (guarded_outcome env q t w) = Answer r ->
        exists t', In (ApiCall (q t') (Responded r)) added)
    /\ lookup_cache (snd (guarded_outcome env q t w)) = lookup_cache w
    /\ counters (snd (guarded_outcome env q t w)) = counters w.
Proof.
  unfold guarded_outcome.
  destruct (api_server env (trace w) (q t)) as [r1 | m1] eqn:O1.
  2:{ exists [ApiCall (q t) (ConnectionFailed m1)]. cbn.
      repeat split; try lia.
      - intros q' o' [[= <- <-] | []]. eauto.
      - intros r H. discriminate H. }
  destruct (status_code r1 =? 401) eqn:E1.
  2:{ exists [ApiCall (q t) (Responded r1)]. cbn.
      repeat split; try lia.
      - intros q' o' [[= <- <-] | []]. eauto.
      - intros r [= <-]. exists t. left. reflexivity. }
  cbn [trace record_event].
  set (ot := token_server env (ApiCall (q t) (Responded r1) :: trace w)).
  destruct (granted ot) as [t' |] eqn:Hg.
  - cbn [trace record_event set_token].
    set (o2 := api_server env _ (q t')).
    exists [ApiCall (q t') o2; TokenFetch ot; ApiCall (q t) (Responded r1)].
    assert (Hq : forall q' o',
               In (ApiCall q' o')
                  [ApiCall (q t') o2; TokenFetch ot;
                   ApiCall (q t) (Responded r1)] ->
               exists t'', q' = q t'').
    { intros q' o' [[= <- <-] | [H | [[= <- <-] | []]]]; eauto.
      discriminate H. }
    destruct o2 as [r2 | m2] eqn:O2.
    + destruct (status_code r2 =? 401) eqn:E2; cbn;
        repeat split; try lia; try exact Hq.
      * intros r H. discriminate H.
      * intros r [= <-]. exists t'. left. reflexivity.
    + cbn. repeat split; try lia; try exact Hq.
      intros r H. discriminate H.
  - exists [TokenFetch ot; ApiCall (q t) (Responded r1)].
    assert (Hq : forall q' o',
               In (ApiCall q' o')
                  [TokenFetch ot; ApiCall (q t) (Responded r1)] ->
               exists t'', q' = q t'').
    { intros q' o' [H | [[= <- <-] | []]]; [discriminate H | eauto]. }
    destruct ot as [okf body | msg]; cbn;
      repeat split; try lia; try exact Hq; intros r H; discriminate H.
Qed.

Lemma safe_grow (keys : list string) (history new added : list event)
    (w w' : world) :
  safe keys history new w ->
  trace w' = (added ++ trace w)%list ->
  (forall q o, In (ApiCall q o) added ->
               warranted_request keys (added ++ new)%list q) ->
  (forall k m, lookup_cache w' !! k = Some (Some m) ->
               lookup_cache w !! k = Some (Some m)
               \/ (In k keys /\ answered_with k (meta_Id m) (added ++ new)%list)) ->
  safe keys history (added ++ new)%list w'.
Proof.
  intros (Htr & Hw & Hc) Htr' Hadd Hcache.
  split; [rewrite Htr', Htr, app_assoc; reflexivity |].
  split.
  - intros q o Hin. apply in_app_or in Hin. destruct Hin as [Hin | Hin].
    + exact (Hadd q o Hin).
    + apply warranted_more. exact (Hw q o Hin).
  - intros k m Hk. destruct (Hcache k m Hk) as [Hold | Hnew]; [| exact Hnew].
    destruct (Hc k m Hold) as [Hin Ha].
    split; [exact Hin | apply answered_with_more, Ha].
Qed.

Lemma safe_same (keys : list string) (history new : list event)
    (w : world) :
  safe keys history new w -> safe keys history ([] ++ new)%list w.
Proof. intros H. exact H. Qed.

(** A lookup for one of the work orders [keys]. *)
Lemma lookup_safe (keys : list string) (history new : list event)
    (wo : string) (w : world) :
  In (PyStr.strip wo) keys ->
  good history w ->
  safe keys history new w ->
  exists added,
    safe keys history (added ++ new)%list (snd (lookup_invoice_by_wo env wo w))
    /\ (length added <= 3)%nat
    /\ (api_calls added <= 2)%nat
    /\ (forall m, fst (lookup_invoice_by_wo env wo w) = inr (Some m) ->
        answered_with (PyStr.strip wo) (meta_Id m) (added ++ new)%list).
Proof.
  intros Hkeys G S.
  destruct (PyStr.nonempty (PyStr.strip wo)) eqn:Hkey.
  2:{ rewrite (ClientExtras.lookup_blank env wo w Hkey). exists [].
      cbn [fst snd length api_calls List.filter].
      split; [exact S |]. split; [lia |]. split; [lia |].
      intros m H. discriminate H. }
  destruct (lookup_cache w !! PyStr.strip wo) as [cached |] eqn:Hc.
  { rewrite (ClientExtras.lookup_hit env wo w cached Hkey Hc). exists [].
    cbn [fst snd length api_calls List.filter].
    split; [exact S |]. split; [lia |]. split; [lia |].
    intros m [= ->]. destruct S as (_ & _ & Hcache).
    exact (proj2 (Hcache _ _ Hc)). }
  destruct G as (new0 & t & _ & Ht & Hne & _).
  rewrite (lookup_eq env wo w t Ht Hne Hkey Hc).
  destruct (guarded_added
              (GetInvoices (filter_expr_of (PyStr.strip wo))) t w)
    as (added & Htr & Hlen & Hapi & Hq & Hans & Hcache & _).
  exists added.
  assert (Hadd : forall q o, In (ApiCall q o) added ->
                   warranted_request keys (added ++ new)%list q).
  { intros q o Hin. destruct (Hq q o Hin) as (t' & ->).
    exists (PyStr.strip wo). auto. }
  destruct (guarded_outcome env _ t w) as [[| r | e] w'] eqn:Hgo;
    cbn [fst snd] in *.
  - split; [| split; [exact Hlen | split; [exact Hapi |]]].
    + apply (safe_grow keys history new added w _ S); [exact Htr | exact Hadd |].
      intros k m. cbn [lookup_cache set_cache]. rewrite Hcache.
      destruct (String.eqb_spec k (PyStr.strip wo)) as [-> | Hne'].
      * rewrite lookup_insert_eq. intros H. discriminate H.
      * rewrite lookup_insert_ne by congruence. auto.
    + intros m H. discriminate H.
  - assert (Hfound : forall m, found r = Some m ->
                       answered_with (PyStr.strip wo) (meta_Id m)
                                     (added ++ new)%list).
    { intros m Hm.
      destruct (ClientExtras.found_inv r m Hm)
        as (_ & item & rest & Hj & Hid & _).
      destruct (Hans r eq_refl) as (t' & Hin).
      exists t', r, item, rest.
      split; [apply in_or_app; left; exact Hin | auto]. }
    split; [| split; [exact Hlen | split; [exact Hapi |]]].
    + apply (safe_grow keys history new added w _ S); [exact Htr | exact Hadd |].
      intros k m. cbn [lookup_cache set_cache]. rewrite Hcache.
      destruct (String.eqb_spec k (PyStr.strip wo)) as [-> | Hne'].
      * rewrite lookup_insert_eq. intros [= Hm]. right. auto.
      * rewrite lookup_insert_ne by congruence. auto.
    + intros m [= Hm]. exact (Hfound m Hm).
  - split; [| split; [exact Hlen | split; [exact Hapi |]]].
    + apply (safe_grow keys history new added w _ S); [exact Htr | exact Hadd |].
      intros k m. rewrite Hcache. auto.
    + intros m H. discriminate H.
Qed.

(** The approval of an invoice the API listed for one of [keys]. *)
Lemma approve_safe (keys : list string) (history new : list event)
    (invoice_id : Z) (category : cell) (approval_code : option string)
    (k : string) (w : world) :
  In k keys ->
  answered_with k invoice_id new ->
  good history w ->
  safe keys history new w ->
  exists added,
    safe keys history (added ++ new)%list
         (snd (approve_invoice env invoice_id category approval_code w))
    /\ (length added <= 3)%nat
    /\ (api_calls added <= 2)%nat.
Proof.
  intros Hk Ha G S.
  destruct (category_to_use category) as [e | cat] eqn:Hcat.
  { unfold approve_invoice. unfold bind at 1. unfold lift. rewrite Hcat.
    exists []. cbn [snd length api_calls List.filter].
    split; [exact S |]. split; lia. }
  destruct G as (new0 & t & _ & Ht & Hne & _).
  rewrite (approve_eq env invoice_id category approval_code cat w t Ht Hne Hcat).
  destruct (guarded_added
              (PutApprove invoice_id (code_to_use approval_code)
                          APPROVAL_COMMENTS_DEFAULT cat) t w)
    as (added & Htr & Hlen & Hapi & Hq & _ & Hcache & _).
  exists added.
  assert (Hadd : forall q o, In (ApiCall q o) added ->
                   warranted_request keys (added ++ new)%list q).
  { intros q o Hin. destruct (Hq q o Hin) as (t' & ->).
    exists k. split; [exact Hk | apply answered_with_more, Ha]. }
  destruct (guarded_outcome env _ t w) as [[| r | e] w'];
    cbn [fst snd] in *;
    (split; [| split; [exact Hlen | exact Hapi]]);
    apply (safe_grow keys history new added w _ S); try exact Htr;
    try exact Hadd; intros k' m; rewrite Hcache; auto.
Qed.

Lemma process_row_safe (keys : list string) (history new : list event)
    (row : sheet_row) (s f : nat) (w : world) :
  In (wo_key row) keys ->
  good history w ->
  safe keys history new w ->
  exists added,
    safe keys history (added ++ new)%list
         (snd (process_row env repr_float row s f w))
    /\ (length added <= 6)%nat
    /\ (api_calls added <= 4)%nat.
Proof.
  intros Hk G S.
  pose proof (process_row_good env repr_float history row s f w G) as _.
  unfold process_row, bind, lift, ret.
  destruct (or_empty_strip (col_trade row)) as [e | trade].
  { exists []. cbn [snd length api_calls List.filter].
    split; [exact S |]. split; lia. }
  destruct (lookup_safe keys history new (py_str repr_float (col_wo row)) w
              Hk G S) as (a1 & S1 & L1 & A1 & F1).
  destruct (lookup_good env history (py_str repr_float (col_wo row)) w G)
    as [G1 _].
  destruct (lookup_invoice_by_wo env (py_str repr_float (col_wo row)) w)
    as [[e | [m |]] w1]; cbn [fst snd] in *.
  - exists a1. split; [exact S1 |]. split; lia.
  - destruct (approve_safe keys history (a1 ++ new)%list (meta_Id m)
                (col_category row) (meta_ApprovalCode m) (wo_key row) w1
                Hk (F1 m eq_refl) G1 S1) as (a2 & S2 & L2 & A2).
    exists (a2 ++ a1)%list.
    rewrite <- app_assoc, length_app, api_calls_app.
    destruct (approve_invoice env (meta_Id m) (col_category row)
                (meta_ApprovalCode m) w1) as [[e | [|]] w2];
      cbn [fst snd] in *; (split; [exact S2 |]); split; lia.
  - exists a1. split; [exact S1 |]. split; lia.
Qed.

Lemma process_rows_safe (keys : list string) (history : list event)
    (rows : list sheet_row) :
  (forall row, In row rows -> In (wo_key row) keys) ->
  forall (new : list event) (s f : nat) (w : world),
    good history w ->
    safe keys history new w ->
    exists added,
      safe keys history (added ++ new)%list
           (snd (process_rows env repr_float rows s f w))
      /\ (length added <= 6 * length rows)%nat
      /\ (api_calls added <= 4 * length rows)%nat.
Proof.
  induction rows as [| row rest IH]; intros Hkeys new s f w G S.
  - exists []. cbn [process_rows ret snd length api_calls List.filter].
    split; [exact S |]. split; lia.
  - cbn [process_rows]. unfold bind.
    destruct (process_row_safe keys history new row s f w
                (Hkeys row (or_introl eq_refl)) G S) as (a1 & S1 & L1 & A1).
    destruct (process_row_good env repr_float history row s f w G)
      as (G1 & _ & _).
    destruct (process_row env repr_float row s f w) as [[e | [s1 f1]] w1];
      cbn [fst snd] in *.
    + exists a1. split; [exact S1 |]. cbn [length]. split; lia.
    + destruct (IH (fun r H => Hkeys r (or_intror H)) (a1 ++ new)%list
                  s1 f1 w1 G1 S1) as (a2 & S2 & L2 & A2).
      exists (a2 ++ a1)%list.
      rewrite <- app_assoc, length_app, api_calls_app.
      split; [exact S2 |]. cbn [length]. split; lia.
Qed.

(** The rows of the sheet that are marked Approved. *)
Definition approved_rows (sheet : option (list sheet_row)) : list sheet_row :=
  List.filter (is_approved repr_float) (default [] sheet).

Lemma try_block_safe (sheet : option (list sheet_row))
    (history : list event) :
  exists new,
    safe (map wo_key (approved_rows sheet)) history new
         (snd (try_block env repr_float sheet (start history)))
    /\ (length new <= 1 + 6 * length (approved_rows sheet))%nat
    /\ (api_calls new <= 4 * length (approved_rows sheet))%nat.
Proof.
  set (keys := map wo_key (approved_rows sheet)).
  assert (S0 : forall w,
             trace w = TokenFetch (token_server env history) :: history ->
             lookup_cache w = ∅ ->
             safe keys history [TokenFetch (token_server env history)] w).
  { intros w Htr Hc. split; [exact Htr |]. split.
    - intros q o [H | []]. discriminate H.
    - intros k m. rewrite Hc, lookup_empty. intros H. discriminate H. }
  destruct (granted (token_server env history)) as [t |] eqn:Hg.
  2:{ rewrite (try_block_no_token env repr_float sheet history Hg).
      exists [TokenFetch (token_server env history)].
      split; [apply S0; reflexivity |].
      cbn [length api_calls List.filter is_api_call]. split; lia. }
  destruct sheet as [rows |].
  2:{ rewrite (try_block_no_sheet env repr_float history t Hg).
      exists [TokenFetch (token_server env history)].
      split; [apply S0; reflexivity |].
      cbn [length api_calls List.filter is_api_call]. split; lia. }
  rewrite (try_block_rows env repr_float rows history t Hg). cbv zeta.
  set (w1 := set_review _ (opened env history t)).
  assert (G1 : good history w1) by exact (opened_good env history t Hg).
  assert (S1 : safe keys history [TokenFetch (token_server env history)] w1)
    by (apply S0; reflexivity).
  unfold approved_rows in *. change (default [] (Some rows)) with rows in *.
  destruct (List.filter (is_approved repr_float) rows) as [| r0 rest] eqn:Hf.
  { exists [TokenFetch (token_server env history)].
    split; [exact S1 |].
    cbn [length api_calls List.filter is_api_call]. split; lia. }
  destruct (process_rows_safe keys history (r0 :: rest)
              (fun row H => in_map wo_key _ row H)
              [TokenFetch (token_server env history)] 0%nat 0%nat w1 G1 S1)
    as (added & S2 & L2 & A2).
  exists (added ++ [TokenFetch (token_server env history)])%list.
  rewrite length_app, api_calls_app.
  cbn [length api_calls List.filter is_api_call] in *.
  destruct (process_rows env repr_float (r0 :: rest) 0 0 w1)
    as [[e | c] w2]; cbn [fst snd] in *;
    (split; [exact S2 |]); split; lia.
Qed.

Lemma run_requests (file : string)
    (sheet : option (list sheet_row)) (history : list event) :
  exists mail new,
    trace (run_approvals env repr_float file sheet history)
      = (mail ++ new ++ history)%list
    /\ (forall q o, ~ In (ApiCall q o) mail)
    /\ forall q o, In (ApiCall q o) new ->
       exists rows row,
         sheet = Some rows /\ In row rows
         /\ is_approved repr_float row = true
         /\ match q with
            | GetInvoices f _ => f = filter_expr_of (wo_key row)
            | PutApprove id _ _ _ _ => answered_with (wo_key row) id new
            end.
Proof.
  destruct (RunFacts.run_approvals_eq env repr_float file sheet history)
    as (Hrun & _ & _).
  cbv zeta in Hrun.
  destruct (try_block_safe sheet history) as (new & (Htr & Hw & _) & _ & _).
  eexists _, new. split; [rewrite Hrun, Htr; reflexivity |].
  split.
  { intros q o. unfold RunFacts.mail_of.
    destruct (GMAIL_ADDRESS env) as [addr |]; [| intros []].
    destruct (PyStr.nonempty addr); [| intros []].
    intros [H | []]. discriminate H. }
  intros q o Hin. specialize (Hw q o Hin).
  assert (Hrow : forall k,
             In k (map wo_key (approved_rows sheet)) ->
             exists rows row,
               sheet = Some rows /\ In row rows
               /\ is_approved repr_float row = true /\ wo_key row = k).
  { intros k Hk. apply in_map_iff in Hk. destruct Hk as (row & <- & Hr).
    unfold approved_rows in Hr. apply List.filter_In in Hr.
    destruct Hr as [Hr Happ].
    destruct sheet as [rows |]; [| destruct Hr].
    exists rows, row. auto. }
  destruct q as [f b | id code comments cat b]; cbn in Hw.
  - destruct Hw as (k & Hk & ->).
    destruct (Hrow k Hk) as (rows & row & -> & Hr & Happ & <-).
    exists rows, row. auto.
  - destruct Hw as (k & Hk & Ha).
    destruct (Hrow k Hk) as (rows & row & -> & Hr & Happ & <-).
    exists rows, row. auto.
Qed.

(** A run sends requests for Approved rows only: every query it makes
    is the lookup of the work order of a row marked Approved, and every
    approval it sends is for an invoice that the API, in the same run,
    listed first for the work order of such a row.  Rows not marked
    Approved cause no request. *)
Theorem requests_only_for_approved_rows (file : string)
    (sheet : option (list sheet_row)) (history : list event) :
  exists mail new,
    trace (run_approvals env repr_float file sheet history)
      = (mail ++ new ++ history)%list
    /\ (forall q o, ~ In (ApiCall q o) mail)
    /\ forall q o, In (ApiCall q o) new ->
       exists rows row,
         sheet = Some rows /\ In row rows
         /\ is_approved repr_float row = true
         /\ match q with
            | GetInvoices f _ => f = filter_expr_of (wo_key row)
            | PutApprove id _ _ _ _ => answered_with (wo_key row) id new
            end.
Proof. exact (run_requests file sheet history). Qed.

(** A run makes at most four API requests for each row marked Approved
    (two for the lookup, two for the approval) and, token fetches
    included, at most six network calls for each such row besides the
    opening token fetch. *)
Theorem run_request_budget (file : string)
    (sheet : option (list sheet_row)) (history : list event) :
  exists mail new,
    trace (run_approvals env repr_float file sheet history)
      = (mail ++ new ++ history)%list
    /\ (length mail <= 1)%nat
    /\ api_calls mail = 0%nat
    /\ (api_calls new <= 4 * length (approved_rows sheet))%nat
    /\ (length new <= 1 + 6 * length (approved_rows sheet))%nat.
Proof.
  destruct (RunFacts.run_approvals_eq env repr_float file sheet history)
    as (Hrun & _ & _).
  cbv zeta in Hrun.
  destruct (try_block_safe sheet history) as (new & (Htr & _ & _) & L & A).
  eexists _, new. split; [rewrite Hrun, Htr; reflexivity |].
  unfold RunFacts.mail_of.
  destruct (GMAIL_ADDRESS env) as [addr |];
    [destruct (PyStr.nonempty addr) |]; cbn; repeat split; try lia; auto.
Qed.

End Safety.

End RunSafety.

(* ===================================================================== *)
(** * DL_contract_rate_land.py: the name of the downloaded workbook *)
(* ===================================================================== *)

Module ContractDownload.

(** The characters the pattern of line 37 matches: backslash, slash,
    star, question mark, colon, double quote, angle brackets, bar. *)
Definition invalid_char (c : ascii) : bool :=
  existsb (Ascii.eqb c)
          ["\"; "/"; "*"; "?"; ":"; "034"; "<"; ">"; "|"]%char.

(** [re.sub(pattern, "", sheet_name)]. *)
Fixpoint remove_invalid (s : string) : string :=
  match s with
  | EmptyString => EmptyString
  | String c rest =>
      if invalid_char c then remove_invalid rest
      else String c (remove_invalid rest)
  end.

(** [.replace(" ", "_")]. *)
Fixpoint replace_spaces (s : string) : string :=
  match s with
  | EmptyString => EmptyString
  | String c rest =>
      String (if Ascii.eqb c " " then "_"%char else c) (replace_spaces rest)
  end.

(** Lines 37-38. *)
Definition sanitized_name (sheet_name : string) : string :=
  replace_spaces (remove_invalid sheet_name).

Definition output_file (sheet_name : string) : string :=
  sanitized_name sheet_name ++ ".xlsx".

(** The constants of rate_analysis12.5.py, lines 5-6. *)
Definition CONTRACT_FILE_NAME : string := "Contracted_Rates_-_Land.xlsx".
Definition CONTRACT_SHEET_NAME : string := "Contracted Rates - Land".

(** A character a file name keeps as it is. *)
Definition plain_char (c : ascii) : bool :=
  negb (invalid_char c) && negb (Ascii.eqb c " ").

Fixpoint all_chars (p : ascii -> bool) (s : string) : bool :=
  match s with
  | EmptyString => true
  | String c rest => p c && all_chars p rest
  end.

Lemma sanitized_plain (s : string) :
  all_chars plain_char (sanitized_name s) = true.
Proof.
  unfold sanitized_name.
  induction s as [| c s IH]; [reflexivity |].
  cbn [remove_invalid]. destruct (invalid_char c) eqn:E; [exact IH |].
  cbn [replace_spaces all_chars]. rewrite IH, andb_true_r.
  unfold plain_char. destruct (Ascii.eqb c " ") eqn:Esp.
  - reflexivity.
  - rewrite E, Esp. reflexivity.
Qed.

Lemma plain_unchanged (s : string) :
  all_chars plain_char s = true -> sanitized_name s = s.
Proof.
  unfold sanitized_name.
  induction s as [| c s IH]; [reflexivity |].
  cbn [all_chars]. intros H. apply andb_prop in H. destruct H as [Hc Hs].
  unfold plain_char in Hc. apply andb_prop in Hc. destruct Hc as [H1 H2].
  apply negb_true_iff in H1, H2.
  cbn [remove_invalid]. rewrite H1. cbn [replace_spaces]. rewrite H2.
  rewrite (IH Hs). reflexivity.
Qed.

Lemma sanitized_length (s : string) :
  (String.length (sanitized_name s) <= String.length s)%nat.
Proof.
  unfold sanitized_name.
  induction s as [| c s IH]; [apply le_n |].
  cbn [remove_invalid]. destruct (invalid_char c).
  - cbn [String.length]. lia.
  - cbn [replace_spaces String.length]. lia.
Qed.

Lemma all_chars_append (p : ascii -> bool) (a b : string) :
  all_chars p (a ++ b) = all_chars p a && all_chars p b.
Proof.
  induction a as [| c a IH]; [reflexivity |].
  change (p c && all_chars p (a ++ b) = p c && all_chars p a && all_chars p b).
  rewrite IH, andb_assoc. reflexivity.
Qed.

(** The file name of the downloaded workbook holds none of the nine
    characters removed and no space, so no path separator either;
    sanitizing is idempotent and leaves a name of plain characters as it
    is; the name never gets longer; and the sheet name of the contract
    workbook gives the file name the rate analysis looks for. *)
Theorem sanitized_name_safe :
  (forall s, all_chars plain_char (sanitized_name s) = true)
  /\ (forall s, sanitized_name (sanitized_name s) = sanitized_name s)
  /\ (forall s, all_chars plain_char s = true -> sanitized_name s = s)
  /\ (forall s, (String.length (sanitized_name s) <= String.length s)%nat)
  /\ (forall s, all_chars plain_char (output_file s) = true)
  /\ output_file CONTRACT_SHEET_NAME = CONTRACT_FILE_NAME.
Proof.
  split; [exact sanitized_plain |].
  split; [intros s; apply plain_unchanged, sanitized_plain |].
  split; [exact plain_unchanged |].
  split; [exact sanitized_length |].
  split; [| reflexivity].
  intros s. unfold output_file.
  rewrite all_chars_append, sanitized_plain. reflexivity.
Qed.

End ContractDownload.

(* ===================================================================== *)
(** * The error text in the status e-mail *)
(* ===================================================================== *)

Module StatusMail.

(** [s.replace(old, new)] for a one-character [old]. *)
Fixpoint replace_char (old : ascii) (new : string) (s : string) : string :=
  match s with
  | EmptyString => EmptyString
  | String c rest =>
      if Ascii.eqb c old then new ++ replace_char old new rest
      else String c (replace_char old new rest)
  end.

(** Lines 418-419. *)
Definition safe_error (error_text : string) : string :=
  replace_char ">" "&gt;" (replace_char "<" "&lt;" error_text).

(** The paragraph added to the body, lines 418-426: none for an empty
    error text. *)
Definition error_block (error_text : option string) : option string :=
  match error_text with
  | Some e => if PyStr.nonempty e then Some (safe_error e) else None
  | None => None
  end.

Fixpoint has_char (c : ascii) (s : string) : bool :=
  match s with
  | EmptyString => false
  | String c' rest => Ascii.eqb c' c || has_char c rest
  end.

(** Both replacements in one pass. *)
Fixpoint escape_angles (s : string) : string :=
  match s with
  | EmptyString => EmptyString
  | String c rest =>
      if Ascii.eqb c "<" then "&lt;" ++ escape_angles rest
      else if Ascii.eqb c ">" then "&gt;" ++ escape_angles rest
      else String c (escape_angles rest)
  end.

Lemma safe_error_one_pass (s : string) : safe_error s = escape_angles s.
Proof.
  unfold safe_error.
  induction s as [| c s IH]; [reflexivity |].
  cbn [replace_char escape_angles].
  destruct (Ascii.eqb c "<") eqn:E1.
  - rewrite <- IH. reflexivity.
  - cbn [replace_char]. destruct (Ascii.eqb c ">") eqn:E2; rewrite IH; reflexivity.
Qed.

Lemma escape_angles_clean (s : string) :
  has_char "<" (escape_angles s) = false
  /\ has_char ">" (escape_angles s) = false.
Proof.
  induction s as [| c s [IH1 IH2]]; [split; reflexivity |].
  cbn [escape_angles].
  destruct (Ascii.eqb c "<") eqn:E1.
  - cbn. auto.
  - destruct (Ascii.eqb c ">") eqn:E2.
    + cbn. auto.
    + cbn [has_char]. rewrite E1, E2. auto.
Qed.

Lemma escape_angles_plain (s : string) :
  has_char "<" s = false -> has_char ">" s = false -> escape_angles s = s.
Proof.
  induction s as [| c s IH]; [reflexivity |].
  cbn [has_char escape_angles]. intros H1 H2.
  apply orb_false_elim in H1, H2. destruct H1 as [E1 H1], H2 as [E2 H2].
  rewrite E1, E2, (IH H1 H2). reflexivity.
Qed.

Lemma length_append (a b : string) :
  String.length (a ++ b) = (String.length a + String.length b)%nat.
Proof.
  induction a as [| c a IH]; [reflexivity |].
  change (S (String.length (a ++ b))
          = S (String.length a + String.length b)).
  rewrite IH. reflexivity.
Qed.

(** The error text shown in the e-mail holds no angle bracket, so it
    cannot open or close a tag; a text without angle brackets is shown
    as it is; the ampersand is not escaped, so two different error
    texts can give the same HTML; an empty error text adds nothing. *)
Theorem safe_error_no_tags :
  (forall e, has_char "<" (safe_error e) = false
             /\ has_char ">" (safe_error e) = false)
  /\ (forall e, has_char "<" e = false -> has_char ">" e = false ->
                safe_error e = e)
  /\ (forall e, (String.length e <= String.length (safe_error e))%nat)
  /\ (exists e1 e2, e1 <> e2 /\ safe_error e1 = safe_error e2)
  /\ (forall e b, error_block e = Some b ->
        exists t, e = Some t /\ PyStr.nonempty t = true /\ b = safe_error t).
Proof.
  split.
  { intros e. rewrite safe_error_one_pass. apply escape_angles_clean. }
  split.
  { intros e H1 H2. rewrite safe_error_one_pass.
    apply escape_angles_plain; assumption. }
  split.
  { intros e. rewrite safe_error_one_pass.
    induction e as [| c e IH]; [apply le_n |].
    cbn [escape_angles].
    destruct (Ascii.eqb c "<");
      [rewrite length_append; cbn [String.length]; lia |].
    destruct (Ascii.eqb c ">");
      [rewrite length_append |]; cbn [String.length]; lia. }
  split.
  { exists "<", "&lt;". split; [discriminate | reflexivity]. }
  intros e b. unfold error_block.
  destruct e as [t |]; [| discriminate].
  destruct (PyStr.nonempty t) eqn:E; [| discriminate].
  intros [= <-]. eauto.
Qed.

End StatusMail.

(* ===================================================================== *)
(** * full_auto_droplet.py: from the analysis to the approvals *)
(* ===================================================================== *)

Module Pipeline.
Import RateAnalysis RateFacts Approver ApproverFacts.

Section Main.

Variable env : environment.
Variable repr_float : float -> string.
Variable to_numeric : string -> option float.
Variable round2 : float -> float.

(** The sheet Rate_Comps as [load_rate_comps] finds it in the workbook
    that [build_rate_comps] wrote. *)
Definition read_back (wb : workbook) : option (list sheet_row) :=
  option_map (map to_sheet_row) (rate_comps_sheet wb).

(** Steps 5 and 6 of [main], lines 124-130, with the trace they leave:
    an exception of [build_rate_comps] ends the pipeline before
    [run_approvals] is called. *)
Definition analyse_then_approve (invoice_xlsx : string) (wb : workbook)
    (land_df : list contract_row) (history : list event)
    : (exn + unit) * list event :=
  match build_rate_comps repr_float to_numeric round2 wb land_df with
  | inl e => (inl e, history)
  | inr wb' =>
      (inr tt,
       trace (run_approvals env repr_float invoice_xlsx (read_back wb')
                            history))
  end.

(** At most five dollars under the contracted rate, less than six cents
    over. *)
Definition in_window (d : float) : bool :=
  ((-5 <=? d) && (d <? 0.06))%float.

Lemma handoff (o : rate_comp) :
  is_approved repr_float (to_sheet_row o) = true
  <-> rc_approval_status o = Approved.
Proof.
  unfold is_approved, to_sheet_row. cbn [col_approval_status py_str].
  destruct (rc_approval_status o); vm_compute; split; congruence.
Qed.

(** Every row of the frame holds its difference and the decision on
    it; the frame has a row for each row of the report. *)
Lemma frame_rows (inv_df : DataFrame) (land_df : list contract_row)
    (out : list rate_comp) :
  rate_comps_df repr_float to_numeric round2 inv_df land_df = inr out ->
  length out = length (rows inv_df)
  /\ forall o,
       In o out ->
       rc_rate_difference o = (rc_inv_total o - rc_contracted_rate o)%float
       /\ rc_approval_status o = decide_approval (rc_rate_difference o).
Proof.
  intros Hdf.
  destruct (rate_comps_df_frame repr_float to_numeric round2 inv_df land_df
              out Hdf) as (rate_map & _ & _ & ->).
  split; [apply length_map |].
  intros o Ho. apply in_map_iff in Ho. destruct Ho as (r & <- & _).
  split; reflexivity.
Qed.

(** From the report to the API: when the analysis fails nothing is
    sent, not even the status e-mail.  Otherwise every request of the
    run concerns a row of Rate_Comps whose Inv.Total less Contracted
    Rate lies between -5 (included) and 0.06 (excluded): the lookup of
    its work order, or the approval of an invoice the API listed first
    for that work order. *)
Theorem pipeline_acts_within_tolerance (invoice_xlsx : string)
    (wb : workbook) (land_df : list contract_row) (history : list event) :
  (forall e,
      build_rate_comps repr_float to_numeric round2 wb land_df = inl e ->
      analyse_then_approve invoice_xlsx wb land_df history = (inl e, history))
  /\ (forall wb',
        build_rate_comps repr_float to_numeric round2 wb land_df = inr wb' ->
        exists out mail new,
          rate_comps_sheet wb' = Some out
          /\ analyse_then_approve invoice_xlsx wb land_df history
             = (inr tt, (mail ++ new ++ history)%list)
          /\ (forall q o, ~ In (ApiCall q o) mail)
          /\ forall q o, In (ApiCall q o) new ->
             exists row,
               In row out
               /\ rc_rate_difference row
                  = (rc_inv_total row - rc_contracted_rate row)%float
               /\ in_window (rc_rate_difference row) = true
               /\ match q with
                  | GetInvoices f _ =>
                      f = filter_expr_of
                            (PyStr.strip (py_str repr_float (rc_wo row)))
                  | PutApprove id _ _ _ _ =>
                      RunSafety.answered_with
                        (PyStr.strip (py_str repr_float (rc_wo row))) id new
                  end).
Proof.
  split.
  { intros e H. unfold analyse_then_approve. rewrite H. reflexivity. }
  intros wb' Hb.
  assert (Hrun : analyse_then_approve invoice_xlsx wb land_df history
                 = (inr tt,
                    trace (run_approvals env repr_float invoice_xlsx
                             (read_back wb') history))).
  { unfold analyse_then_approve. rewrite Hb. reflexivity. }
  unfold build_rate_comps in Hb.
  destruct (rate_comps_df repr_float to_numeric round2 (invoice_report wb)
              land_df) as [e | out] eqn:Hdf; [discriminate Hb |].
  cbn [bind_exn] in Hb. injection Hb as <-.
  destruct (frame_rows (invoice_report wb) land_df out Hdf) as (_ & Hout).
  unfold read_back in Hrun. cbn [rate_comps_sheet option_map] in Hrun.
  destruct (RunSafety.run_requests env repr_float invoice_xlsx
              (Some (map to_sheet_row out)) history)
    as (mail & new & Htr & Hmail & Hreq).
  exists out, mail, new.
  split; [reflexivity |].
  split; [rewrite Hrun, Htr; reflexivity |].
  split; [exact Hmail |].
  intros q o Hin.
  destruct (Hreq q o Hin) as (rows & row & Hrows & Hr & Happ & Hm).
  injection Hrows as <-.
  apply in_map_iff in Hr. destruct Hr as (oc & <- & Hoc).
  exists oc. split; [exact Hoc |].
  apply handoff in Happ.
  destruct (Hout oc Hoc) as (Hdiff & Hstat).
  split; [exact Hdiff |].
  split; [apply RateExtras.decide_approval_window; rewrite <- Hstat;
          exact Happ |].
  exact Hm.
Qed.

End Main.

(** The sample report against the sample contracts, on a server that
    accepts everything: of the three invoices only the one on contract
    is looked up and approved. *)
Example sample_pipeline :
  analyse_then_approve RunSamples.friendly Samples.no_floats
    Samples.plain_decimal Samples.keep "report.xlsx"
    Samples.invoice_workbook Samples.contracts []
  = (inr tt,
     [StatusEmail 1 0 2 None "report.xlsx" true;
      ApiCall (PutApprove 77 APPROVAL_CODE_DEFAULT APPROVAL_COMMENTS_DEFAULT
                          "MAINTENANCE" "token-1")
              (Responded {| status_code := 204; text := "";
                            json_value := [] |});
      ApiCall (GetInvoices (filter_expr_of "5001") "token-1")
              (Responded {| status_code := 200; text := "";
                            json_value := [RunSamples.invoice_77] |});
      TokenFetch (TokenResponded true (Some "token-1"))]).
Proof. vm_compute. reflexivity. Qed.

End Pipeline.

(* ===================================================================== *)
(** * The query a lookup sends *)
(* ===================================================================== *)

Module LookupQuery.
Import Approver.

Lemma append_cons (c : ascii) (s t : string) :
  String c s ++ t = String c (s ++ t).
Proof. reflexivity. Qed.

Lemma append_inj_l (s a b : string) : s ++ a = s ++ b -> a = b.
Proof.
  induction s as [| c s IH]; intros H; [exact H |].
  rewrite !append_cons in H. injection H as H. exact (IH H).
Qed.

Lemma append_quote_inj (a b : string) : a ++ "'" = b ++ "'" -> a = b.
Proof.
  revert b. induction a as [| c a IH]; intros [| d b] H.
  - reflexivity.
  - rewrite append_cons in H. injection H as _ H.
    destruct b; discriminate H.
  - rewrite append_cons in H. injection H as _ H.
    destruct a; discriminate H.
  - rewrite !append_cons in H. injection H as -> H.
    rewrite (IH b H). reflexivity.
Qed.

Lemma all_digits_quote (a b : string) :
  PyStr.all_digits (a ++ "'" ++ b) = false.
Proof.
  induction a as [| c a IH]; [reflexivity |].
  rewrite append_cons. cbn [PyStr.all_digits]. rewrite IH.
  apply andb_false_r.
Qed.

Lemma isdigit_quote (a b : string) : PyStr.isdigit (a ++ "'" ++ b) = false.
Proof.
  destruct a as [| c a]; [reflexivity |].
  rewrite append_cons. unfold PyStr.isdigit.
  rewrite <- append_cons. apply all_digits_quote.
Qed.

(** The filter of a lookup identifies the work order: two work orders
    get the same filter only when they are the same.  A quote in the
    work order is sent as it is, inside the quoted literal. *)
Theorem filter_expr_of_injective :
  (forall k1 k2, filter_expr_of k1 = filter_expr_of k2 -> k1 = k2)
  /\ (forall a b,
        filter_expr_of (a ++ "'" ++ b)
        = "WoTrackingNumber eq '" ++ (a ++ "'" ++ b) ++ "'").
Proof.
  split.
  - intros k1 k2. unfold filter_expr_of.
    assert (Hmix : forall d q,
               PyStr.isdigit d = true ->
               "WoTrackingNumber eq " ++ d
               = "WoTrackingNumber eq '" ++ q ++ "'" -> False).
    { intros d q Hd H.
      change ("WoTrackingNumber eq '" ++ q ++ "'")
        with ("WoTrackingNumber eq " ++ String "'" (q ++ "'")) in H.
      apply append_inj_l in H. subst d. discriminate Hd. }
    destruct (PyStr.isdigit k1) eqn:D1, (PyStr.isdigit k2) eqn:D2; intros H.
    + exact (append_inj_l _ _ _ H).
    + destruct (Hmix k1 k2 D1 H).
    + destruct (Hmix k2 k1 D2 (eq_sym H)).
    + apply append_inj_l in H. exact (append_quote_inj _ _ H).
  - intros a b. unfold filter_expr_of. rewrite isdigit_quote. reflexivity.
Qed.

End LookupQuery.

(** ** The counts of the status e-mail, from the report *)

Module PipelineCounts.
Import RateAnalysis RateFacts Approver ApproverFacts Pipeline.

Section Counts.

Variable env : environment.
Variable repr_float : float -> string.
Variable to_numeric : string -> option float.
Variable round2 : float -> float.

Lemma filter_map_length {A B : Type} (p : B -> bool) (q : A -> bool)
    (f : A -> B) (l : list A) :
  (forall a, In a l -> p (f a) = q a) ->
  length (List.filter p (map f l)) = length (List.filter q l).
Proof.
  induction l as [| a l IH]; intros H; [reflexivity |].
  cbn [map List.filter]. rewrite (H a (or_introl eq_refl)).
  assert (IH' := IH (fun x Hx => H x (or_intror Hx))).
  destruct (q a); cbn [length]; rewrite IH'; reflexivity.
Qed.

(** The rows of a Rate_Comps frame within the tolerance window. *)
Definition within (out : list rate_comp) : list rate_comp :=
  List.filter (fun o => in_window (rc_rate_difference o)) out.

Definition outside (out : list rate_comp) : list rate_comp :=
  List.filter (fun o => negb (in_window (rc_rate_difference o))) out.

(** When the analysis and the run both get through, the counts of the
    status e-mail account for the report row by row: Need Review is the
    number of rows whose Inv.Total less Contracted Rate is outside the
    window from -5 to 0.06 (a missing total or rate included), Approved
    and Not Approved together are the rows inside it, and the three sum
    to the number of rows of the report. *)
Theorem pipeline_counts_report_rows (invoice_xlsx : string)
    (wb wb' : workbook) (land_df : list contract_row) (out : list rate_comp)
    (history : list event) :
  build_rate_comps repr_float to_numeric round2 wb land_df = inr wb' ->
  rate_comps_sheet wb' = Some out ->
  fst (try_block env repr_float (read_back wb') (start history)) = inr tt ->
  let final :=
    run_approvals env repr_float invoice_xlsx (read_back wb') history in
  review_count final = length (outside out)
  /\ (approved_count final + failed_count final = length (within out))%nat
  /\ (approved_count final + failed_count final + review_count final
      = length (rows (invoice_report wb)))%nat.
Proof.
  intros Hb Hsheet Hok final.
  unfold build_rate_comps in Hb.
  destruct (rate_comps_df repr_float to_numeric round2 (invoice_report wb)
              land_df) as [e | out0] eqn:Hdf; [discriminate Hb |].
  cbn [bind_exn] in Hb. injection Hb as <-.
  cbn [rate_comps_sheet] in Hsheet. injection Hsheet as ->.
  destruct (frame_rows repr_float to_numeric round2 (invoice_report wb)
              land_df out Hdf) as (Hlen & Hout).
  unfold read_back in *. cbn [rate_comps_sheet option_map] in *.
  destruct (RunFacts.run_counts env repr_float invoice_xlsx
              (map to_sheet_row out) history Hok) as (Hr & Ha & Ht).
  fold final in Hr, Ha, Ht.
  assert (Hrow : forall o, In o out ->
                   is_approved repr_float (to_sheet_row o)
                   = in_window (rc_rate_difference o)).
  { intros o Ho. destruct (Hout o Ho) as (_ & Hstat).
    pose proof (handoff repr_float o) as Hh. rewrite Hstat in Hh.
    pose proof (RateExtras.decide_approval_window (rc_rate_difference o))
      as Hw.
    fold (in_window (rc_rate_difference o)) in Hw.
    destruct (is_approved repr_float (to_sheet_row o)),
      (in_window (rc_rate_difference o)); try reflexivity.
    - destruct Hw as [Hw _]. symmetry. apply Hw, Hh. reflexivity.
    - destruct Hh as [_ Hh]. apply Hh, Hw. reflexivity. }
  unfold outside, within.
  rewrite <- (filter_map_length
                (fun r => negb (is_approved repr_float r))
                (fun o => negb (in_window (rc_rate_difference o)))
                to_sheet_row out)
    by (intros o Ho; rewrite (Hrow o Ho); reflexivity).
  rewrite <- (filter_map_length (is_approved repr_float)
                (fun o => in_window (rc_rate_difference o))
                to_sheet_row out Hrow).
  split; [exact Hr |]. split; [exact Ha |].
  rewrite Ht, length_map. exact Hlen.
Qed.

End Counts.

(** The sample report on the server that accepts everything: one
    invoice approved, two left for review. *)
Lemma pipeline_counts_report_rows_witness :
  let final :=
    run_approvals RunSamples.friendly Samples.no_floats "report.xlsx"
      (read_back RateFacts.sample_result) [] in
  review_count final = 2%nat
  /\ (approved_count final + failed_count final = 1)%nat
  /\ (approved_count final + failed_count final + review_count final
      = 3)%nat.
Proof.
  exact (pipeline_counts_report_rows RunSamples.friendly Samples.no_floats
           Samples.plain_decimal Samples.keep "report.xlsx"
           Samples.invoice_workbook RateFacts.sample_result Samples.contracts
           (default [] (rate_comps_sheet RateFacts.sample_result)) []
           RateFacts.sample_build eq_refl eq_refl).
Defined.

End PipelineCounts.


(* ===================================================================== *)
(** * The auth-guarded request, case by case *)
(* ===================================================================== *)

Module GuardedCalls.
Import Approver ApproverFacts.
Local Open Scope approver_scope.

Section Guarded.

Variable env : environment.
Variable repr_float : float -> string.








End Guarded.

(** ** Sample runs *)


(** A run on that server over two rows to approve: each row costs two
    queries and one token fetch, both rows are failures, and the run
    gets to its end. *)
Example two_rows_unauthorized :
  run_approvals always_401 Samples.no_floats "wb.xlsx"
    (Some RunSamples.two_approved) []
  = {| token_box := Some "token-2";
       lookup_cache := {[ "5001" := None; "5002" := None ]};
       approved_count := 0; failed_count := 2; review_count := 0;
       trace :=
         [StatusEmail 0 2 0 None "wb.xlsx" true;
          ApiCall (GetInvoices "WoTrackingNumber eq 5002" "token-2")
                  (Responded answer_401);
          TokenFetch (TokenResponded true (Some "token-2"));
          ApiCall (GetInvoices "WoTrackingNumber eq 5002" "token-2")
                  (Responded answer_401);
          ApiCall (GetInvoices "WoTrackingNumber eq 5001" "token-2")
                  (Responded answer_401);
          TokenFetch (TokenResponded true (Some "token-2"));
          ApiCall (GetInvoices "WoTrackingNumber eq 5001" "token-2")
                  (Responded answer_401);
          TokenFetch (TokenResponded true (Some "token-2"))] |}.
Proof. vm_compute. reflexivity. Qed.



End GuardedCalls.

(* ===================================================================== *)
(** * How the answer to an approval is counted *)
(* ===================================================================== *)

Module ApprovalAnswers.
Import Approver ApproverFacts.
Local Open Scope approver_scope.

Section Answers.

Variable env : environment.
Variable repr_float : float -> string.

(** The row of an approval that is answered at once, or not at all. *)
Lemma row_counted_by_answer (row : sheet_row) (rest : list sheet_row)
    (s f : nat) (w w1 : world) (t trade cat : string) (m : invoice_meta) :
  or_empty_strip (col_trade row) = inr trade ->
  lookup_invoice_by_wo env (py_str repr_float (col_wo row)) w
    = (inr (Some m), w1) ->
  token_box w1 = Some t ->
  PyStr.nonempty t = true ->
  category_to_use (col_category row) = inr cat ->
  let q := PutApprove (meta_Id m) (code_to_use (meta_ApprovalCode m))
                      APPROVAL_COMMENTS_DEFAULT cat t in
  let o := api_server env (trace w1) q in
  let w2 := record_event (ApiCall q o) w1 in
  unauthorized o = false ->
  process_rows env repr_float (row :: rest) s f w =
  match o with
  | Responded r =>
      if approval_accepted r
      then process_rows env repr_float rest (S s) f w2
      else process_rows env repr_float rest s (S f) w2
  | ConnectionFailed _ => process_rows env repr_float rest s (S f) w2
  end.
Proof.
  intros Htrade Hlook Ht Hne Hcat q o w2 Hno. subst w2 o q.
  pose proof (approve_eq env (meta_Id m) (col_category row)
                (meta_ApprovalCode m) cat w1 t Ht Hne Hcat) as Ha.
  rewrite (guarded_outcome_once env
             (PutApprove (meta_Id m) (code_to_use (meta_ApprovalCode m))
                         APPROVAL_COMMENTS_DEFAULT cat) t w1 Hno) in Ha.
  destruct (api_server env (trace w1) _) as [r | msg].
  - destruct (approval_accepted r) eqn:Hacc.
    + rewrite (process_rows_approval_accepted env repr_float row rest s f w w1
                 trade m Htrade Hlook); rewrite Ha; reflexivity.
    + rewrite (process_rows_approval_failed env repr_float row rest s f w w1
                 trade m Htrade Hlook); rewrite Ha; reflexivity.
  - rewrite (process_rows_approval_failed env repr_float row rest s f w w1
               trade m Htrade Hlook); rewrite Ha; reflexivity.
Qed.

(** The row of an approval that is answered 401 and sent again with a
    new token: the second answer counts. *)
Lemma row_counted_by_second_answer (row : sheet_row) (rest : list sheet_row)
    (s f : nat) (w w1 : world) (t t' trade cat : string) (m : invoice_meta)
    (r1 : response) :
  or_empty_strip (col_trade row) = inr trade ->
  lookup_invoice_by_wo env (py_str repr_float (col_wo row)) w
    = (inr (Some m), w1) ->
  token_box w1 = Some t ->
  PyStr.nonempty t = true ->
  category_to_use (col_category row) = inr cat ->
  let q := PutApprove (meta_Id m) (code_to_use (meta_ApprovalCode m))
                      APPROVAL_COMMENTS_DEFAULT cat in
  refreshed_after_401 env q t t' (trace w1) r1 ->
  let ot := token_server env (ApiCall (q t) (Responded r1) :: trace w1) in
  let o2 := api_server env
              (TokenFetch ot :: ApiCall (q t) (Responded r1) :: trace w1)
              (q t') in
  let w3 :=
    record_event (ApiCall (q t') o2)
      (set_token t'
         (record_event (TokenFetch ot)
            (record_event (ApiCall (q t) (Responded r1)) w1))) in
  process_rows env repr_float (row :: rest) s f w =
  match o2 with
  | Responded r2 =>
      if negb (status_code r2 =? 401) && approval_accepted r2
      then process_rows env repr_float rest (S s) f w3
      else process_rows env repr_float rest s (S f) w3
  | ConnectionFailed _ => process_rows env repr_float rest s (S f) w3
  end.
Proof.
  intros Htrade Hlook Ht Hne Hcat q Hre ot o2 w3. subst w3 o2 ot q.
  pose proof (approve_eq env (meta_Id m) (col_category row)
                (meta_ApprovalCode m) cat w1 t Ht Hne Hcat) as Ha.
  rewrite (guarded_outcome_retry env _ t t' w1 r1 Hre) in Ha.
  destruct (api_server env (TokenFetch _ :: _) _) as [r2 | msg].
  - destruct (status_code r2 =? 401) eqn:E401; cbn [negb andb].
    + rewrite (process_rows_approval_failed env repr_float row rest s f w w1
                 trade m Htrade Hlook); rewrite Ha; reflexivity.
    + destruct (approval_accepted r2) eqn:Hacc.
      * rewrite (process_rows_approval_accepted env repr_float row rest s f w
                   w1 trade m Htrade Hlook); rewrite Ha; reflexivity.
      * rewrite (process_rows_approval_failed env repr_float row rest s f w
                   w1 trade m Htrade Hlook); rewrite Ha; reflexivity.
  - rewrite (process_rows_approval_failed env repr_float row rest s f w w1
               trade m Htrade Hlook); rewrite Ha; reflexivity.
Qed.

(** C4: an approval is accepted exactly when its answer has status 200
    or 204, or status 403 with "already had this status" in its body.
    The row of an accepted approval adds one to the approved rows, the
    row of any other answer (another 2xx status among them) or of no
    answer adds one to the failures, and in both cases the loop goes on
    with the rows that follow.  After a 401 and a new token the second
    answer is counted in the same way. *)
Theorem approval_answer_counted :
  (forall r,
      approval_accepted r = true
      <-> (status_code r = 200 \/ status_code r = 204
           \/ (status_code r = 403
               /\ PyStr.contains ALREADY_HAD_STATUS (text r) = true)))
  /\ (forall row rest s f w w1 t trade cat m,
        or_empty_strip (col_trade row) = inr trade ->
        lookup_invoice_by_wo env (py_str repr_float (col_wo row)) w
          = (inr (Some m), w1) ->
        token_box w1 = Some t ->
        PyStr.nonempty t = true ->
        category_to_use (col_category row) = inr cat ->
        let q := PutApprove (meta_Id m) (code_to_use (meta_ApprovalCode m))
                            APPROVAL_COMMENTS_DEFAULT cat t in
        let o := api_server env (trace w1) q in
        let w2 := record_event (ApiCall q o) w1 in
        unauthorized o = false ->
        process_rows env repr_float (row :: rest) s f w =
        match o with
        | Responded r =>
            if approval_accepted r
            then process_rows env repr_float rest (S s) f w2
            else process_rows env repr_float rest s (S f) w2
        | ConnectionFailed _ => process_rows env repr_float rest s (S f) w2
        end)
  /\ (forall row rest s f w w1 t t' trade cat m r1,
        or_empty_strip (col_trade row) = inr trade ->
        lookup_invoice_by_wo env (py_str repr_float (col_wo row)) w
          = (inr (Some m), w1) ->
        token_box w1 = Some t ->
        PyStr.nonempty t = true ->
        category_to_use (col_category row) = inr cat ->
        let q := PutApprove (meta_Id m) (code_to_use (meta_ApprovalCode m))
                            APPROVAL_COMMENTS_DEFAULT cat in
        refreshed_after_401 env q t t' (trace w1) r1 ->
        let ot := token_server env (ApiCall (q t) (Responded r1) :: trace w1) in
        let o2 := api_server env
                    (TokenFetch ot :: ApiCall (q t) (Responded r1) :: trace w1)
                    (q t') in
        let w3 :=
          record_event (ApiCall (q t') o2)
            (set_token t'
               (record_event (TokenFetch ot)
                  (record_event (ApiCall (q t) (Responded r1)) w1))) in
        process_rows env repr_float (row :: rest) s f w =
        match o2 with
        | Responded r2 =>
            if negb (status_code r2 =? 401) && approval_accepted r2
            then process_rows env repr_float rest (S s) f w3
            else process_rows env repr_float rest s (S f) w3
        | ConnectionFailed _ => process_rows env repr_float rest s (S f) w3
        end).
Proof.
  split; [exact ClientExtras.approval_accepted_iff |].
  split.
  - intros row rest s f w w1 t trade cat m.
    exact (row_counted_by_answer row rest s f w w1 t trade cat m).
  - intros row rest s f w w1 t t' trade cat m r1.
    exact (row_counted_by_second_answer row rest s f w w1 t t' trade cat m r1).
Qed.

End Answers.

(** ** Sample servers *)

(** A server that finds every work order and answers every approval
    with the given status and body. *)
Definition answering (status : Z) (body : string) : environment :=
  {| token_server := fun _ => TokenResponded true (Some "token-1");
     api_server := fun _ q =>
       match q with
       | GetInvoices _ _ =>
           Responded {| status_code := 200; text := "";
                        json_value := [RunSamples.invoice_77] |}
       | PutApprove _ _ _ _ _ =>
           Responded {| status_code := status; text := body;
                        json_value := [] |}
       end;
     GMAIL_ADDRESS := Some "bot@example.com";
     gmail_api := fun _ => true;
     format_exc := Samples.last_line |}.

(** What a run over two rows to approve reports: approved, failed and
    the exception, if any. *)
Definition report (env : environment) : nat * nat * option exn :=
  let res :=
    try_block env Samples.no_floats (Some RunSamples.two_approved)
              (start []) in
  (approved_count (snd res), failed_count (snd res),
   match fst res with
   | inl e => Some e
   | inr _ => None
   end).

(** The world of a run on [answering 403 ...] after the token fetch. *)
Definition ready : world := set_token "token-1" (start []).

(** A 403 that says the invoice already had this status: the row is
    counted as approved and the loop goes on with the second row,
    which is counted as approved too. *)
Lemma approval_answer_counted_witness :
  fst (process_rows
         (answering 403 "Invoice 77 already had this status.")
         Samples.no_floats RunSamples.two_approved 0 0 ready)
  = inr (2%nat, 0%nat).
Proof.
  pose proof (proj1 (proj2
                (approval_answer_counted
                   (answering 403 "Invoice 77 already had this status.")
                   Samples.no_floats))
                (RunSamples.approved_line 5001)
                [RunSamples.approved_line 5002] 0%nat 0%nat ready
                (snd (lookup_invoice_by_wo
                        (answering 403 "Invoice 77 already had this status.")
                        "5001" ready))
                "token-1" "LANDSCAPING" "MAINTENANCE"
                {| meta_Id := 77; meta_Trade := Some "LANDSCAPING";
                   meta_ApprovalCode := None;
                   meta_Number := Some "INV-77" |}) as H.
  cbv zeta in H.
  unfold RunSamples.two_approved. rewrite H.
  - vm_compute. reflexivity.
  - reflexivity.
  - vm_compute. reflexivity.
  - reflexivity.
  - reflexivity.
  - reflexivity.
  - reflexivity.
Defined.

Example answers_counted :
  report (answering 200 "") = (2%nat, 0%nat, None)
  /\ report (answering 204 "") = (2%nat, 0%nat, None)
  /\ report (answering 403 "Invoice 77 already had this status.")
     = (2%nat, 0%nat, None)
  /\ report (answering 403 "Forbidden") = (0%nat, 2%nat, None)
  /\ report (answering 500 "already had this status") = (0%nat, 2%nat, None)
  /\ report (answering 404 "") = (0%nat, 2%nat, None).
Proof. repeat split; vm_compute; reflexivity. Qed.

(** The statuses 201 Created and 202 Accepted are success statuses of
    HTTP, and their rows are counted as failures. *)
Lemma created_counted_failed :
  ok {| status_code := 201; text := ""; json_value := [] |} = true
  /\ report (answering 201 "") = (0%nat, 2%nat, None)
  /\ report (answering 202 "") = (0%nat, 2%nat, None).
Proof. repeat split; vm_compute; reflexivity. Qed.

End ApprovalAnswers.

(* ===================================================================== *)
(** * When a run fetches a token *)
(* ===================================================================== *)

Module TokenLifecycle.
Import Approver ApproverFacts RunFacts RunSafety.
Local Open Scope approver_scope.

Section Lifecycle.

Variable env : environment.
Variable repr_float : float -> string.

(** The oldest event a [try] block adds is the token fetch of line
    497. *)
Lemma try_block_opens (sheet : option (list sheet_row))
    (history : list event) :
  exists rest,
    trace (snd (try_block env repr_float sheet (start history)))
    = (rest ++ TokenFetch (token_server env history) :: history)%list.
Proof.
  destruct (granted (token_server env history)) as [t |] eqn:Hg.
  2:{ rewrite (try_block_no_token env repr_float sheet history Hg).
      exists []. reflexivity. }
  destruct sheet as [rows |].
  2:{ rewrite (try_block_no_sheet env repr_float history t Hg).
      exists []. reflexivity. }
  rewrite (try_block_rows env repr_float rows history t Hg). cbv zeta.
  set (w1 := set_review _ (opened env history t)).
  destruct (List.filter (is_approved repr_float) rows) as [| r0 rows'].
  { exists []. reflexivity. }
  assert (G1 : good history w1) by exact (opened_good env history t Hg).
  assert (S1 : safe (map (wo_key repr_float) (r0 :: rows')) history
                    [TokenFetch (token_server env history)] w1).
  { split; [reflexivity |]. split.
    - intros q o [H | []]. discriminate H.
    - intros k m H. cbn in H. rewrite lookup_empty in H. discriminate H. }
  destruct (process_rows_safe env repr_float
              (map (wo_key repr_float) (r0 :: rows')) history (r0 :: rows')
              (fun row H => in_map (wo_key repr_float) _ row H)
              [TokenFetch (token_server env history)] 0%nat 0%nat w1 G1 S1)
    as (added & (Htr & _) & _).
  exists added.
  destruct (process_rows env repr_float (r0 :: rows') 0 0 w1)
    as [[e | c] w2]; cbn [fst snd trace set_failed set_approved] in *;
    rewrite Htr, <- app_assoc; reflexivity.
Qed.

(** In a disciplined trace a token fetch that is not the first event
    comes right after an answer 401. *)
Lemma disciplined_refresh (new : list event) (cur : option string) :
  disciplined new cur ->
  forall newer o older,
    new = (newer ++ TokenFetch o :: older)%list ->
    older = []
    \/ exists q r older',
         older = ApiCall q (Responded r) :: older' /\ status_code r = 401.
Proof.
  induction 1 as [o0 | tr t q o' _ IH _ | tr t q r o0 _ IH H401];
    intros newer o older Heq.
  - destruct newer as [| x newer].
    + injection Heq as _ <-. left. reflexivity.
    + injection Heq as _ Heq. destruct newer; discriminate Heq.
  - destruct newer as [| x newer]; [discriminate Heq |].
    injection Heq as _ Heq. exact (IH newer o older Heq).
  - destruct newer as [| x newer].
    + injection Heq as _ <-. right. eauto.
    + injection Heq as _ Heq. exact (IH newer o older Heq).
Qed.

(** C7: every run begins by fetching a token, before the sheet is read
    and whether or not a request will follow: with no row to approve,
    and with no sheet at all, that fetch is the only event of the [try]
    block.  After it a token is fetched only right after an answer 401.
    Every request bears a token that was granted during the run, the
    box being empty when the run starts; [get_or_refresh_token] itself
    fetches nothing while the box holds a token. *)
Theorem token_fetched_at_start (sheet : option (list sheet_row))
    (history : list event) :
  let res := try_block env repr_float sheet (start history) in
  token_box (start history) = None
  /\ (exists rest,
        trace (snd res)
        = (rest ++ TokenFetch (token_server env history) :: history)%list
        /\ (forall newer o older,
              rest = (newer ++ TokenFetch o :: older)%list ->
              exists q r older',
                (older ++ [TokenFetch (token_server env history)])%list
                = ApiCall q (Responded r) :: older'
                /\ status_code r = 401)
        /\ (forall q o,
              In (ApiCall q o) rest ->
              exists o',
                In (TokenFetch o')
                   (rest ++ [TokenFetch (token_server env history)])%list
                /\ granted o' = Some (bearer_of q)))
  /\ (approved_rows repr_float sheet = [] ->
      trace (snd res) = TokenFetch (token_server env history) :: history)
  /\ (forall w t,
        token_box w = Some t ->
        PyStr.nonempty t = true ->
        get_or_refresh_token env w = (inr t, w)).
Proof.
  cbv zeta. split; [reflexivity |].
  split.
  { destruct (try_block_opens sheet history) as (rest & Htr).
    destruct (try_block_disciplined env repr_float sheet history)
      as (new & cur & Htr' & Hd).
    assert (Hnew : new = (rest ++ [TokenFetch (token_server env history)])%list).
    { rewrite Htr in Htr'.
      change (rest ++ TokenFetch (token_server env history) :: history)%list
        with (rest ++ [TokenFetch (token_server env history)] ++ history)%list
        in Htr'.
      rewrite app_assoc in Htr'. apply app_inv_tail in Htr'.
      symmetry. exact Htr'. }
    subst new.
    exists rest. split; [exact Htr |]. split.
    - intros newer o older Heq.
      destruct (disciplined_refresh _ _ Hd newer o
                  (older ++ [TokenFetch (token_server env history)])%list)
        as [Hnil | Hcall].
      + rewrite Heq, <- app_assoc. reflexivity.
      + destruct older; discriminate Hnil.
      + exact Hcall.
    - intros q o Hin.
      apply (disciplined_bearers _ _ Hd q o).
      apply in_or_app. left. exact Hin. }
  split.
  { unfold approved_rows. intros Hnone.
    destruct (granted (token_server env history)) as [t |] eqn:Hg.
    2:{ rewrite (try_block_no_token env repr_float sheet history Hg).
        reflexivity. }
    destruct sheet as [rows |].
    2:{ rewrite (try_block_no_sheet env repr_float history t Hg).
        reflexivity. }
    rewrite (try_block_rows env repr_float rows history t Hg). cbv zeta.
    change (default [] (Some rows)) with rows in Hnone.
    rewrite Hnone. reflexivity. }
  intros w t Ht Hne. unfold get_or_refresh_token. rewrite Ht, Hne.
  reflexivity.
Qed.

End Lifecycle.

(** A sheet without a row to approve, on the server that accepts
    everything: the [try] block fetches a token and does nothing
    else. *)
Lemma token_fetched_at_start_witness :
  trace (snd (try_block RunSamples.friendly Samples.no_floats
                (Some RunSamples.review_only_sheet) (start [])))
  = [TokenFetch (TokenResponded true (Some "token-1"))].
Proof.
  exact (proj1 (proj2 (proj2
           (token_fetched_at_start RunSamples.friendly Samples.no_floats
              (Some RunSamples.review_only_sheet) []))) eq_refl).
Defined.

(** On the server that answers 401 to everything the second token of
    the run is fetched right after the first 401. *)
Example token_refreshed_after_401 :
  trace (snd (try_block always_401 Samples.no_floats
                (Some [RunSamples.approved_line 5001]) (start [])))
  = [ApiCall (GetInvoices "WoTrackingNumber eq 5001" "token-2")
             (Responded answer_401);
     TokenFetch (TokenResponded true (Some "token-2"));
     ApiCall (GetInvoices "WoTrackingNumber eq 5001" "token-2")
             (Responded answer_401);
     TokenFetch (TokenResponded true (Some "token-2"))].
Proof. vm_compute. reflexivity. Qed.

(** A run over a sheet without a row to approve, and a run on a
    workbook without the sheet: no request is ever made, and a token
    has been fetched. *)
Lemma token_fetched_without_request :
  trace (run_approvals RunSamples.friendly Samples.no_floats "wb.xlsx"
           (Some RunSamples.review_only_sheet) [])
  = [StatusEmail 0 0 2 None "wb.xlsx" true;
     TokenFetch (TokenResponded true (Some "token-1"))]
  /\ trace (snd (try_block RunSamples.friendly Samples.no_floats None
                   (start [])))
     = [TokenFetch (TokenResponded true (Some "token-1"))].
Proof. split; vm_compute; reflexivity. Qed.

End TokenLifecycle.

(* ===================================================================== *)
(** * Which CSV file is taken for the invoice report *)
(* ===================================================================== *)

Module InvoiceChoice.
Import Orchestrator OrchestratorFacts.





(** ** Sample folders *)

Definition top (name : string) : file_entry :=
  {| subdirs := []; file_name := name |}.

Definition accounting_csv : file_entry :=
  top "invoice_report_-_accounting_details.csv".

Definition financial_csv : file_entry :=
  top "Invoice_Report_Financial_Details_2024.CSV".


(** In both orders, with other files around, the financial report is
    taken. *)
Example financial_before_accounting :
  find_invoice_csv [top "readme.txt"; accounting_csv; top "other.csv";
                    financial_csv]
  = inr financial_csv
  /\ find_invoice_csv [financial_csv; top "other.csv"; accounting_csv]
     = inr financial_csv.
Proof. split; vm_compute; reflexivity. Qed.

Example selection_by_class :
  find_invoice_csv [top "notes.txt"; top "image.png"]
  = inl (FileNotFoundError "No CSV invoice file found in extracted directory")
  /\ find_invoice_csv [financial_csv; accounting_csv; top PREFERRED_NAME]
     = inr (top PREFERRED_NAME)
  /\ find_invoice_csv [top "b.csv"; accounting_csv; top "a.csv"]
     = inr accounting_csv
  /\ find_invoice_csv [top "b.csv"; top "a.csv"] = inr (top "b.csv").
Proof. repeat split; vm_compute; reflexivity. Qed.


End InvoiceChoice.

(* ===================================================================== *)
(** * The status e-mail at the end of a run *)
(* ===================================================================== *)

Module FinalNotice.
Import Approver ApproverFacts RunFacts.
Local Open Scope approver_scope.

Section Notice.

Variable env : environment.
Variable repr_float : float -> string.

(** C9: [run_approvals] gets to its end whatever the [try] block does:
    an exception of the block is caught and its traceback kept.  With
    GMAIL_ADDRESS set, the last thing the run does is one attempt to
    send the status e-mail, with the three counters as they stand, the
    traceback if an exception was caught, and the workbook; the e-mail
    is delivered exactly when the Gmail API accepts it, and a failure
    there is printed, not raised.  Without GMAIL_ADDRESS nothing is
    attempted.  After an exception the counters of approved and failed
    rows are 0.  No e-mail is attempted before the end. *)
Theorem summary_notice_attempted (file : string)
    (sheet : option (list sheet_row)) (history : list event) :
  let res := try_block env repr_float sheet (start history) in
  let final := run_approvals env repr_float file sheet history in
  counters final = counters (snd res)
  /\ (forall addr,
        GMAIL_ADDRESS env = Some addr ->
        PyStr.nonempty addr = true ->
        trace final =
          StatusEmail (approved_count final) (failed_count final)
                      (review_count final)
                      (match fst res with
                       | inl e => Some (format_exc env e)
                       | inr _ => None
                       end)
                      file (gmail_api env (trace (snd res)))
          :: trace (snd res))
  /\ (GMAIL_ADDRESS env = None \/ GMAIL_ADDRESS env = Some "" ->
      trace final = trace (snd res))
  /\ (forall e,
        fst res = inl e ->
        approved_count final = 0%nat /\ failed_count final = 0%nat)
  /\ (exists new,
        trace (snd res) = (new ++ history)%list
        /\ forall a f r e p d, ~ In (StatusEmail a f r e p d) new).
Proof.
  cbv zeta.
  destruct (run_approvals_eq env repr_float file sheet history)
    as (Hrun & Hc & _). cbv zeta in Hrun, Hc.
  split; [exact Hc |].
  split.
  { intros addr Haddr Hne. rewrite Hrun. unfold mail_of.
    rewrite Haddr, Hne.
    unfold counters in Hc. injection Hc as -> -> ->.
    unfold error_text_of.
    destruct (fst (try_block env repr_float sheet (start history)));
      reflexivity. }
  split.
  { intros Hnone. rewrite Hrun. unfold mail_of.
    destruct Hnone as [-> | ->]; reflexivity. }
  split.
  { intros e He. exact (aborted_counts env repr_float file sheet history e He). }
  destruct (try_block_disciplined env repr_float sheet history)
    as (new & cur & Htr & Hd).
  exists new. split; [exact Htr |]. exact (disciplined_no_email new cur Hd).
Qed.

End Notice.

(** A run cut short by an empty Trade cell in its second row, on the
    server that accepts everything: the e-mail carries the traceback
    and the counters, which are 0 although the first row was
    approved. *)
Lemma summary_notice_attempted_witness :
  exists earlier,
    trace (run_approvals RunSamples.friendly Samples.no_floats "wb.xlsx"
             (Some RunSamples.blank_trade_sheet) [])
    = StatusEmail 0 0 0
        (Some "AttributeError: 'float' object has no attribute 'strip'")
        "wb.xlsx" true
      :: ApiCall (PutApprove 77 APPROVAL_CODE_DEFAULT
                             APPROVAL_COMMENTS_DEFAULT "MAINTENANCE"
                             "token-1")
                 (Responded {| status_code := 204; text := "";
                               json_value := [] |})
      :: earlier.
Proof.
  eexists.
  rewrite (proj1 (proj2
             (summary_notice_attempted RunSamples.friendly Samples.no_floats
                "wb.xlsx" (Some RunSamples.blank_trade_sheet) []))
             "bot@example.com" eq_refl eq_refl).
  vm_compute. reflexivity.
Defined.

(** GMAIL_ADDRESS is set and the Gmail API does not accept the message:
    the run ends without a status e-mail having been sent. *)
Definition gmail_failing : environment :=
  {| token_server := token_server RunSamples.friendly;
     api_server := api_server RunSamples.friendly;
     GMAIL_ADDRESS := Some "bot@example.com";
     gmail_api := fun _ => false;
     format_exc := Samples.last_line |}.

Lemma notice_not_delivered :
  trace (run_approvals gmail_failing Samples.no_floats "wb.xlsx"
           (Some RunSamples.mixed_sheet) [])
  = StatusEmail 2 0 1 None "wb.xlsx" false
    :: trace (snd (try_block gmail_failing Samples.no_floats
                     (Some RunSamples.mixed_sheet) (start []))).
Proof. vm_compute. reflexivity. Qed.

End FinalNotice.

(* ===================================================================== *)
(** * Every row of the sheet is counted once *)
(* ===================================================================== *)

Module RowAccounting.
Import Approver ApproverFacts RunFacts RunSafety.
Local Open Scope approver_scope.

Section Accounting.

Variable env : environment.
Variable repr_float : float -> string.



End Accounting.

(** ** A sheet with all kinds of status *)

Definition status_line (wo : cell) (status : cell) : sheet_row :=
  {| col_location_id := CInt 100; col_wo := wo;
     col_category := CText "Maintenance"; col_trade := CText "LANDSCAPING";
     col_invoice_number := CText "INV-77"; col_inv_status := CText "Open";
     col_inv_total := CNum 1000; col_labor := CNum 1000;
     col_sales_tax := CNum 0; col_contracted_rate := CNum 1000;
     col_rate_difference := CNum 0; col_approval_status := status |}.

(** Two rows to approve, one of them without a work order, and four
    rows with the statuses Review, Pending, approved? and none. *)
Definition varied_sheet : list sheet_row :=
  [status_line (CInt 5001) (CText " approved ");
   status_line (CInt 5002) (CText "Review");
   status_line (CText "  ") (CText "APPROVED");
   status_line (CInt 5004) (CText "Pending");
   status_line (CInt 5005) CBlank;
   status_line (CInt 5006) (CText "approved?")].


(** The whole run: the row without a work order is a failure without a
    request, and the only requests are the lookup and the approval of
    work order 5001. *)
Example varied_run :
  run_approvals RunSamples.friendly Samples.no_floats "wb.xlsx"
    (Some varied_sheet) []
  = {| token_box := Some "token-1";
       lookup_cache :=
         {[ "5001" := Some {| meta_Id := 77;
                              meta_Trade := Some "LANDSCAPING";
                              meta_ApprovalCode := None;
                              meta_Number := Some "INV-77" |} ]};
       approved_count := 1; failed_count := 1; review_count := 4;
       trace :=
         [StatusEmail 1 1 4 None "wb.xlsx" true;
          ApiCall (PutApprove 77 APPROVAL_CODE_DEFAULT
                              APPROVAL_COMMENTS_DEFAULT "MAINTENANCE"
                              "token-1")
                  (Responded {| status_code := 204; text := "";
                                json_value := [] |});
          ApiCall (GetInvoices "WoTrackingNumber eq 5001" "token-1")
                  (Responded {| status_code := 200; text := "";
                                json_value := [RunSamples.invoice_77] |});
          TokenFetch (TokenResponded true (Some "token-1"))] |}.
Proof. vm_compute. reflexivity. Qed.

End RowAccounting.
